(** * Llm-Chat: the streaming response relay

    A shallow embedding of the relay of the Llm-Chat backend:

    - [BufferedRelay]: the buffered relay of
      [backend/src/socket/socket-handler/chat.js] ([message], [flushBuffer]);
    - [ChatModel]: the Prisma-backed storage service ([class ChatModel]);
    - [MemChatModel]: the in-memory storage service ([export class ChatModel]
      with its static methods over [chats : Map<string, Chat>]);
    - [ChatSocketHandler]: the authenticated socket handler of
      [backend/src/socket/socket-handler/chat.ts].

    Asynchronous code is embedded by explicit state passing.  What a handler
    awaits from outside (the fragments of the model stream, the firing of a
    timer, generated row ids, the wall clock) is an input of the embedding.
    Calls to [logger] have no effect on the state modelled and are left out. *)

From Stdlib Require Import ZArith List Lia Bool Ascii String Sorted Permutation.
From stdpp Require Import base option list strings pretty gmap.

Open Scope string_scope.
Open Scope list_scope.

(** ** JavaScript values shared by both handlers *)

(** [if (s)] on a string: only the empty string is falsy. *)
Definition truthy (s : string) : bool :=
  match s with
  | EmptyString => false
  | String _ _ => true
  end.

(** [if (x)] on an optional string: [undefined] and [''] are falsy. *)
Definition truthy_opt (x : option string) : bool :=
  match x with
  | None => false
  | Some s => truthy s
  end.

(** [x || d] where [x] is an optional string. *)
Definition or_else (x : option string) (d : string) : string :=
  if truthy_opt x then default d x else d.

(** A thrown [Error] object: its [message] and its [stack]. *)
Record JsError := { err_message : string; err_stack : string }.

(** A value placed in a field of an event payload. *)
Inductive Field :=
| FString (s : string)
| FError (e : JsError).

Inductive Role := USER | ASSISTANT | SYSTEM.

Record MessageData := {
  md_id : string;
  md_content : string;
  md_role : Role;
  md_createdAt : Z
}.

Record ChatWithMessages := {
  cw_id : string;
  cw_title : string;
  cw_context : option string;
  cw_userId : string;
  cw_createdAt : Z;
  cw_updatedAt : Z;
  cw_messages : list MessageData
}.

(** What the server does to a socket: [socket.emit(name, payload)] for each
    event name used by the handlers, and [socket.disconnect()].  The payload
    of [llm-response-error] is kept as the list of its fields, because the
    two handlers build it differently. *)
Inductive Event :=
| AuthError (message : string)
| ErrorEvent (message : string)
| ChatCreated (chatId : string) (chat : ChatWithMessages)
| LlmTypingStart
| LlmResponseChunk (chunk : string)
| LlmTypingEnd
| LlmResponseComplete (message : MessageData) (chatId : string)
| LlmResponseEnd
| LlmResponseError (payload : list (string * Field))
| Disconnect.

(** The payloads of the [llm-response-chunk] events of a trace, in order. *)
Definition chunk_payloads (evs : list Event) : list string :=
  omap (fun ev => match ev with LlmResponseChunk c => Some c | _ => None end) evs.

(** [payload[name]] *)
Fixpoint field (name : string) (payload : list (string * Field)) : option Field :=
  match payload with
  | [] => None
  | (k, v) :: rest => if String.eqb k name then Some v else field name rest
  end.

Definition is_string_field (o : option Field) : bool :=
  match o with
  | Some (FString _) => true
  | _ => false
  end.

(** ** The buffered relay (chat.js) *)

Module BufferedRelay.

(** One value delivered by [for await (const chunk of stream)]: [undefined],
    a raw string (which has no [content] property), or an object whose
    [content] may be missing. *)
Inductive Fragment :=
| Undefined
| Raw (s : string)
| Obj (content : option string).

(** [chunk?.content || ''] *)
Definition content_of (chunk : Fragment) : string :=
  match chunk with
  | Undefined => ""
  | Raw _ => ""
  | Obj content => or_else content ""
  end.

(** The closure state of one [chat-with-llm] callback: [buffer], and whether
    [timer] holds a pending timeout. *)
Record Session := { buffer : string; timer : bool }.

Definition fresh : Session := {| buffer := ""; timer := false |}.

(** [flushBuffer()] *)
Definition flushBuffer (s : Session) : Session * list Event :=
  if truthy (buffer s)
  then ({| buffer := ""; timer := timer s |}, [LlmResponseChunk (buffer s)])
  else (s, []).

(** One turn of the [for await] loop body. *)
Definition on_fragment (chunk : Fragment) (s : Session) : Session :=
  let b := buffer s +:+ content_of chunk in
  if negb (timer s)
  then {| buffer := b; timer := true |}
  else {| buffer := b; timer := timer s |}.

(** The timeout callback, [() => { flushBuffer(); timer = null; }].  It only
    runs when a timeout is pending. *)
Definition on_timeout (s : Session) : Session * list Event :=
  if timer s
  then let '(s', evs) := flushBuffer s in
       ({| buffer := buffer s'; timer := false |}, evs)
  else (s, []).

(** After the loop: the final flush and [llm-response-end]. *)
Definition on_stream_end (s : Session) : Session * list Event :=
  let '(s', evs) := flushBuffer s in (s', evs ++ [LlmResponseEnd]).

(** The [catch] block. *)
Definition on_stream_error (error : JsError) (s : Session) : Session * list Event :=
  (s, [LlmResponseError [("error", FError error)]]).

(** What happens while the loop is suspended: the next fragment arrives, or
    the pending timeout fires. *)
Inductive Tick :=
| Arrives (chunk : Fragment)
| TimerFires.

Definition tick (t : Tick) (s : Session) : Session * list Event :=
  match t with
  | Arrives chunk => (on_fragment chunk s, [])
  | TimerFires => on_timeout s
  end.

Fixpoint ticks (ts : list Tick) (s : Session) : Session * list Event :=
  match ts with
  | [] => (s, [])
  | t :: rest =>
      let '(s1, evs1) := tick t s in
      let '(s2, evs2) := ticks rest s1 in
      (s2, evs1 ++ evs2)
  end.

(** How the stream stops. *)
Inductive Outcome :=
| Ends
| Raises (error : JsError).

Definition stop (o : Outcome) (s : Session) : Session * list Event :=
  match o with
  | Ends => on_stream_end s
  | Raises error => on_stream_error error s
  end.

(** One whole callback: the interleaving [ts] of fragments and timeouts
    while the stream is open, then the way it stops. *)
Definition run (ts : list Tick) (o : Outcome) : Session * list Event :=
  let '(s1, evs1) := ticks ts fresh in
  let '(s2, evs2) := stop o s1 in
  (s2, evs1 ++ evs2).

(** The fragments among the ticks, in order of arrival. *)
Definition arrived (ts : list Tick) : list Fragment :=
  omap (fun t => match t with Arrives c => Some c | TimerFires => None end) ts.

(** Content is only held while a timeout is pending. *)
Definition armed (s : Session) : Prop := buffer s = "" \/ timer s = true.

(** *** Several callbacks on one socket

    [socket.on('chat-with-llm', async (data) => ...)] runs the callback for
    every event; each run has its own [buffer] and [timer] and all of them
    emit on the same socket. *)
Record Run := { session : Session; streaming : bool }.

Record Socket := { runs : list Run; emitted : list Event }.

Definition connected : Socket := {| runs := []; emitted := [] |}.

Inductive Input :=
| ChatWithLlm (content : string)
| Next (i : nat) (t : Tick)
| Stop (i : nat) (o : Outcome).

Definition receive (inp : Input) (k : Socket) : Socket :=
  match inp with
  | ChatWithLlm _ =>
      {| runs := runs k ++ [{| session := fresh; streaming := true |}];
         emitted := emitted k |}
  | Next i t =>
      match runs k !! i with
      | Some r =>
          if streaming r || match t with TimerFires => true | _ => false end
          then let '(s', evs) := tick t (session r) in
               {| runs := <[i := {| session := s'; streaming := streaming r |}]> (runs k);
                  emitted := emitted k ++ evs |}
          else k
      | None => k
      end
  | Stop i o =>
      match runs k !! i with
      | Some r =>
          if streaming r
          then let '(s', evs) := stop o (session r) in
               {| runs := <[i := {| session := s'; streaming := false |}]> (runs k);
                  emitted := emitted k ++ evs |}
          else k
      | None => k
      end
  end.

Definition receive_all (inps : list Input) (k : Socket) : Socket :=
  fold_left (fun k inp => receive inp k) inps k.


(** Whether a session holds content, as a number. *)
Definition pending (s : Session) : nat := if truthy (buffer s) then 1 else 0.

(** The number of fragments among the ticks that carry content. *)
Definition carrying (ts : list Tick) : nat :=
  length (List.filter (fun c => truthy (content_of c)) (arrived ts)).

(** The number of timeouts that fire among the ticks. *)
Definition timeouts (ts : list Tick) : nat :=
  length (List.filter (fun t => match t with TimerFires => true | _ => false end) ts).

End BufferedRelay.

(** ** State and exceptions

    The state the asynchronous methods act on, and a small state-and-exception
    monad for [async] bodies with [try]/[catch]/[throw].  A thrown error keeps
    the state reached so far: nothing in the sources runs in a transaction. *)

Inductive Result (A : Type) :=
| Ok (a : A)
| Throw (e : JsError).
Arguments Ok {A} a.
Arguments Throw {A} e.

Definition M (S A : Type) : Type := S -> S * Result A.

Definition ret {S A} (a : A) : M S A := fun s => (s, Ok a).

Definition throw {S A} (e : JsError) : M S A := fun s => (s, Throw e).

Definition bind {S A B} (m : M S A) (k : A -> M S B) : M S B :=
  fun s =>
    match m s with
    | (s', Ok a) => k a s'
    | (s', Throw e) => (s', Throw e)
    end.

(** [try { m } catch (error) { h error }] *)
Definition try_catch {S A} (m : M S A) (h : JsError -> M S A) : M S A :=
  fun s =>
    match m s with
    | (s', Ok a) => (s', Ok a)
    | (s', Throw e) => h e s'
    end.

Definition modify {S} (f : S -> S) : M S unit := fun s => (f s, Ok tt).

Notation "x <- c1 ;; c2" := (bind c1 (fun x => c2))
  (at level 100, c1 at next level, right associativity).
Notation "c1 ;; c2" := (bind c1 (fun _ => c2))
  (at level 100, right associativity).

(** *** The database behind Prisma *)

Record ChatRow := {
  chat_id : string;
  chat_title : string;
  chat_context : option string;
  chat_userId : string;
  chat_createdAt : Z;
  chat_updatedAt : Z
}.

Record MessageRow := {
  msg_id : string;
  msg_content : string;
  msg_role : Role;
  msg_chatId : string;
  msg_userId : string;
  msg_createdAt : Z
}.

(** The tables [prisma.chat] and [prisma.message], rows in insertion order. *)
Record Database := { chat : list ChatRow; message : list MessageRow }.

(** An observation recorded through [MonitoringService] (durations left out). *)
Inductive Metric :=
| DatabaseQuery (operation table : string)
| ChatMessageTotal (role : Role) (userId : string)
| AIResponseTime
| ActiveConnection.

(** Everything a handler can change: the database, the metrics, what was
    done to the socket, and the prompts passed to [model.stream]. *)
Record World := {
  prisma : Database;
  monitoring : list Metric;
  socket : list Event;
  ollama : list string
}.

Definition set_prisma (db : Database) (w : World) : World :=
  {| prisma := db; monitoring := monitoring w; socket := socket w; ollama := ollama w |}.

Definition record (m : Metric) : M World unit :=
  modify (fun w => {| prisma := prisma w; monitoring := monitoring w ++ [m];
                      socket := socket w; ollama := ollama w |}).

Definition emit (ev : Event) : M World unit :=
  modify (fun w => {| prisma := prisma w; monitoring := monitoring w;
                      socket := socket w ++ [ev]; ollama := ollama w |}).

Definition stream_call (prompt : string) : M World unit :=
  modify (fun w => {| prisma := prisma w; monitoring := monitoring w;
                      socket := socket w; ollama := ollama w ++ [prompt] |}).

(** A row id generated by the database together with the time of the write. *)
Definition Stamp : Type := string * Z.

Module Prisma.

(** [orderBy: { createdAt: 'asc' }], rows of equal time in insertion order. *)
Fixpoint insert_asc (m : MessageRow) (l : list MessageRow) : list MessageRow :=
  match l with
  | [] => [m]
  | x :: rest =>
      if (msg_createdAt m <? msg_createdAt x)%Z
      then m :: x :: rest
      else x :: insert_asc m rest
  end.

Definition orderBy_createdAt_asc (l : list MessageRow) : list MessageRow :=
  fold_left (fun acc m => insert_asc m acc) l [].

(** The [messages] relation of a chat row. *)
Definition messages_of (chatId : string) (db : Database) : list MessageRow :=
  filter (fun m => msg_chatId m = chatId) (message db).

(** [prisma.chat.findFirst({ where: { id, userId } })] *)
Definition chat_findFirst (chatId userId : string) (db : Database) : option ChatRow :=
  find (fun c => bool_decide (chat_id c = chatId) && bool_decide (chat_userId c = userId))
       (chat db).

(** [prisma.chat.create({ data })] *)
Definition chat_create (st : Stamp) (title userId : string) (context : option string)
    (db : Database) : Database * ChatRow :=
  let row := {| chat_id := st.1; chat_title := title; chat_context := context;
                chat_userId := userId; chat_createdAt := st.2; chat_updatedAt := st.2 |} in
  ({| chat := chat db ++ [row]; message := message db |}, row).

Definition foreign_key_violation : JsError :=
  {| err_message := "Foreign key constraint failed on the field: `chatId`";
     err_stack := "PrismaClientKnownRequestError: P2003" |}.

Definition record_not_found : JsError :=
  {| err_message := "An operation failed because it depends on one or more records that were required but not found.";
     err_stack := "PrismaClientKnownRequestError: P2025" |}.

(** Modelled from the spec: the Prisma schema is not among the sources.  The
    data model says that a Message belongs to exactly one Chat, so
    [prisma.message.create] is refused when no Chat row has the given
    [chatId].  The [userId] written is the id of an authenticated user; User
    rows are deactivated, never removed, so that reference always holds. *)
Definition message_create (st : Stamp) (content : string) (role : Role)
    (chatId userId : string) (db : Database) : Database * Result MessageRow :=
  if bool_decide (Exists (fun c => chat_id c = chatId) (chat db))
  then
    let row := {| msg_id := st.1; msg_content := content; msg_role := role;
                  msg_chatId := chatId; msg_userId := userId; msg_createdAt := st.2 |} in
    ({| chat := chat db; message := message db ++ [row] |}, Ok row)
  else (db, Throw foreign_key_violation).

Definition touch (now : Z) (c : ChatRow) : ChatRow :=
  {| chat_id := chat_id c; chat_title := chat_title c; chat_context := chat_context c;
     chat_userId := chat_userId c; chat_createdAt := chat_createdAt c;
     chat_updatedAt := now |}.

(** [prisma.chat.update({ where: { id }, data: { updatedAt } })]: Prisma's
    [update] throws when no row matches. *)
Definition chat_update (chatId : string) (now : Z) (db : Database)
    : Database * Result unit :=
  if bool_decide (Exists (fun c => chat_id c = chatId) (chat db))
  then ({| chat := map (fun c => if bool_decide (chat_id c = chatId) then touch now c else c)
                       (chat db);
           message := message db |}, Ok tt)
  else (db, Throw record_not_found).

(** A query run against the database of the world. *)
Definition query {A} (q : Database -> Database * Result A) : M World A :=
  fun w => let '(db, r) := q (prisma w) in (set_prisma db w, r).

(** *** Queries of the other methods of the storage service

    The Prisma schema is not among the sources.  Two of its declarations
    matter below and are parameters: what happens to the messages of a chat
    that is deleted ([onDelete] of the relation), and whether [updatedAt] is
    an [@updatedAt] column, which Prisma then sets on every update. *)
Inductive OnDelete := Cascade | Restrict.

Record Schema := { message_chat_onDelete : OnDelete; chat_updatedAt_auto : bool }.

(** [orderBy: { createdAt: 'desc' }], rows of equal time in insertion order. *)
Fixpoint insert_desc (m : MessageRow) (l : list MessageRow) : list MessageRow :=
  match l with
  | [] => [m]
  | x :: rest =>
      if (msg_createdAt x <? msg_createdAt m)%Z
      then m :: x :: rest
      else x :: insert_desc m rest
  end.

Definition orderBy_createdAt_desc (l : list MessageRow) : list MessageRow :=
  fold_left (fun acc m => insert_desc m acc) l [].

(** [orderBy: { updatedAt: 'desc' }] on chats. *)
Fixpoint insert_updatedAt_desc (c : ChatRow) (l : list ChatRow) : list ChatRow :=
  match l with
  | [] => [c]
  | x :: rest =>
      if (chat_updatedAt x <? chat_updatedAt c)%Z
      then c :: x :: rest
      else x :: insert_updatedAt_desc c rest
  end.

Definition orderBy_updatedAt_desc (l : list ChatRow) : list ChatRow :=
  fold_left (fun acc c => insert_updatedAt_desc c acc) l [].

(** [where: { id: chatId, userId: userId }] *)
Definition matches (chatId userId : string) (c : ChatRow) : bool :=
  bool_decide (chat_id c = chatId) && bool_decide (chat_userId c = userId).

(** [prisma.chat.findMany({ where: { userId }, include: { messages:
    { orderBy: { createdAt: 'desc' }, take: 1 } }, orderBy: { updatedAt: 'desc' } })] *)
Definition chat_findMany (userId : string) (db : Database)
    : list (ChatRow * list MessageRow) :=
  map (fun c => (c, take 1 (orderBy_createdAt_desc (messages_of (chat_id c) db))))
      (orderBy_updatedAt_desc
         (List.filter (fun c => bool_decide (chat_userId c = userId)) (chat db))).

Definition set_title (title : string) (c : ChatRow) : ChatRow :=
  {| chat_id := chat_id c; chat_title := title; chat_context := chat_context c;
     chat_userId := chat_userId c; chat_createdAt := chat_createdAt c;
     chat_updatedAt := chat_updatedAt c |}.

Definition set_context (context : string) (c : ChatRow) : ChatRow :=
  {| chat_id := chat_id c; chat_title := chat_title c; chat_context := Some context;
     chat_userId := chat_userId c; chat_createdAt := chat_createdAt c;
     chat_updatedAt := chat_updatedAt c |}.

(** [prisma.chat.updateMany({ where: { id, userId }, data })]: every row
    that matches is changed; no match is not an error. *)
Definition chat_updateMany (sch : Schema) (now : Z) (chatId userId : string)
    (data : ChatRow -> ChatRow) (db : Database) : Database * Result unit :=
  ({| chat := map (fun c => if matches chatId userId c
                            then (if chat_updatedAt_auto sch then touch now (data c) else data c)
                            else c)
                  (chat db);
      message := message db |}, Ok tt).

(** The message refers to one of the rows [gone]. *)
Definition refers_to (gone : list ChatRow) (m : MessageRow) : bool :=
  existsb (fun c => bool_decide (chat_id c = msg_chatId m)) gone.

(** [prisma.chat.deleteMany({ where: { id, userId } })]: the rows that match
    are removed, with their messages under [Cascade]; under [Restrict] the
    query is refused while a message refers to one of them. *)
Definition chat_deleteMany (sch : Schema) (chatId userId : string) (db : Database)
    : Database * Result unit :=
  let gone := List.filter (matches chatId userId) (chat db) in
  let kept := List.filter (fun c => negb (matches chatId userId c)) (chat db) in
  match message_chat_onDelete sch with
  | Cascade =>
      ({| chat := kept;
          message := List.filter (fun m => negb (refers_to gone m)) (message db) |}, Ok tt)
  | Restrict =>
      if existsb (refers_to gone) (message db)
      then (db, Throw foreign_key_violation)
      else ({| chat := kept; message := message db |}, Ok tt)
  end.

End Prisma.

(** ** The storage service (class ChatModel over Prisma) *)

Module ChatModel.

Record CreateChatData := {
  cc_title : string;
  cc_userId : string;
  cc_context : option string
}.

Record ChatContext := {
  ctx_messages : list MessageData;
  ctx_context : option string
}.

Definition mapToMessageData (m : MessageRow) : MessageData :=
  {| md_id := msg_id m; md_content := msg_content m;
     md_role := msg_role m; md_createdAt := msg_createdAt m |}.

Definition mapToChatWithMessages (c : ChatRow) (messages : list MessageRow)
    : ChatWithMessages :=
  {| cw_id := chat_id c; cw_title := chat_title c; cw_context := chat_context c;
     cw_userId := chat_userId c; cw_createdAt := chat_createdAt c;
     cw_updatedAt := chat_updatedAt c;
     cw_messages := map mapToMessageData messages |}.

Definition createChat (st : Stamp) (data : CreateChatData) : M World ChatWithMessages :=
  try_catch
    (c <- Prisma.query (fun db =>
            let '(db', row) :=
              Prisma.chat_create st (cc_title data) (cc_userId data) (cc_context data) db in
            (db', Ok (row, Prisma.orderBy_createdAt_asc (Prisma.messages_of (chat_id row) db'))));;
     record (DatabaseQuery "create" "chats");;
     ret (mapToChatWithMessages c.1 c.2))
    (fun error => record (DatabaseQuery "create" "chats");; throw error).

Definition getChatById (chatId userId : string) : M World (option ChatWithMessages) :=
  try_catch
    (c <- Prisma.query (fun db =>
            (db, Ok (option_map
                       (fun row => (row, Prisma.orderBy_createdAt_asc (Prisma.messages_of (chat_id row) db)))
                       (Prisma.chat_findFirst chatId userId db))));;
     record (DatabaseQuery "find" "chats");;
     match c with
     | None => ret None
     | Some (row, messages) => ret (Some (mapToChatWithMessages row messages))
     end)
    (fun error => record (DatabaseQuery "find" "chats");; throw error).

(** [message.create] takes the id and [createdAt] of the row from the
    database ([st]); the [updatedAt] written to the chat afterwards is a
    [new Date()] of the server, read later ([now]). *)
Definition addMessage (st : Stamp) (now : Z) (chatId userId content : string) (role : Role)
    : M World MessageData :=
  try_catch
    (message <- Prisma.query (Prisma.message_create st content role chatId userId);;
     Prisma.query (Prisma.chat_update chatId now);;
     record (DatabaseQuery "create" "messages");;
     record (ChatMessageTotal role userId);;
     ret (mapToMessageData message))
    (fun error => record (DatabaseQuery "create" "messages");; throw error).

Definition chat_not_found : JsError :=
  {| err_message := "Chat not found"; err_stack := "Error: Chat not found" |}.

Definition getChatContext (chatId userId : string) : M World ChatContext :=
  try_catch
    (c <- Prisma.query (fun db =>
            (db, Ok (option_map
                       (fun row => (row, take 20 (Prisma.orderBy_createdAt_asc
                                                    (Prisma.messages_of (chat_id row) db))))
                       (Prisma.chat_findFirst chatId userId db))));;
     record (DatabaseQuery "find" "chats");;
     match c with
     | None => throw chat_not_found
     | Some (row, messages) =>
         ret {| ctx_messages := map mapToMessageData messages;
                ctx_context := if truthy_opt (chat_context row)
                               then chat_context row else None |}
     end)
    (fun error => record (DatabaseQuery "find" "chats");; throw error).

Definition getUserChats (userId : string) : M World (list ChatWithMessages) :=
  try_catch
    (chats <- Prisma.query (fun db => (db, Ok (Prisma.chat_findMany userId db)));;
     record (DatabaseQuery "findMany" "chats");;
     ret (map (fun c => mapToChatWithMessages c.1 c.2) chats))
    (fun error => record (DatabaseQuery "findMany" "chats");; throw error).

Definition updateChatTitle (sch : Prisma.Schema) (now : Z) (chatId userId title : string)
    : M World unit :=
  try_catch
    (Prisma.query (Prisma.chat_updateMany sch now chatId userId (Prisma.set_title title));;
     record (DatabaseQuery "update" "chats"))
    (fun error => record (DatabaseQuery "update" "chats");; throw error).

Definition deleteChat (sch : Prisma.Schema) (chatId userId : string) : M World unit :=
  try_catch
    (Prisma.query (Prisma.chat_deleteMany sch chatId userId);;
     record (DatabaseQuery "delete" "chats"))
    (fun error => record (DatabaseQuery "delete" "chats");; throw error).

Definition updateChatContext (sch : Prisma.Schema) (now : Z) (chatId userId context : string)
    : M World unit :=
  try_catch
    (Prisma.query (Prisma.chat_updateMany sch now chatId userId (Prisma.set_context context));;
     record (DatabaseQuery "update" "chats"))
    (fun error => record (DatabaseQuery "update" "chats");; throw error).

End ChatModel.

(** ** The in-memory storage service (static class ChatModel) *)

Module MemChatModel.

Inductive ChatRole := user | assistant | system.

Record ChatMessage := {
  cm_id : string;
  cm_role : ChatRole;
  cm_content : string;
  cm_timestamp : Z;
  cm_userId : string
}.

Record Chat := {
  id : string;
  userId : string;
  title : string;
  messages : list ChatMessage;
  createdAt : Z;
  updatedAt : Z;
  context : option string
}.

(** [const chats: Map<string, Chat>] is a [gmap string Chat]. *)

Definition createChat (st : Stamp) (userId title : string) (context : option string)
    (chats : gmap string Chat) : gmap string Chat * Chat :=
  let chat := {| id := st.1; userId := userId; title := title; messages := [];
                 createdAt := st.2; updatedAt := st.2; context := context |} in
  (<[id chat := chat]> chats, chat).

Definition getChatById (chatId userId : string) (chats : gmap string Chat)
    : option Chat :=
  match chats !! chatId with
  | None => None
  | Some chat => if bool_decide (MemChatModel.userId chat ≠ userId) then None else Some chat
  end.

(** [chat.messages.push(message); chat.updatedAt = new Date()] changes the
    object stored under [chatId]; [chats.set(chat.id, chat)] then stores the
    same object under its own id. *)
Definition addMessage (st : Stamp) (chatId userId : string) (role : ChatRole)
    (content : string) (chats : gmap string Chat)
    : gmap string Chat * option ChatMessage :=
  match getChatById chatId userId chats with
  | None => (chats, None)
  | Some chat =>
      let message := {| cm_id := st.1; cm_role := role; cm_content := content;
                        cm_timestamp := st.2; cm_userId := userId |} in
      let chat' := {| id := id chat; userId := MemChatModel.userId chat;
                      title := title chat; messages := messages chat ++ [message];
                      createdAt := createdAt chat; updatedAt := st.2;
                      context := context chat |} in
      (<[id chat' := chat']> (<[chatId := chat']> chats), Some message)
  end.

Definition updateChatTitle (now : Z) (chatId userId title : string)
    (chats : gmap string Chat) : gmap string Chat * bool :=
  match getChatById chatId userId chats with
  | None => (chats, false)
  | Some chat =>
      let chat' := {| id := id chat; userId := MemChatModel.userId chat;
                      title := title; messages := messages chat;
                      createdAt := createdAt chat; updatedAt := now;
                      context := context chat |} in
      (<[id chat' := chat']> (<[chatId := chat']> chats), true)
  end.

Definition deleteChat (chatId userId : string) (chats : gmap string Chat)
    : gmap string Chat * bool :=
  match getChatById chatId userId chats with
  | None => (chats, false)
  | Some _ => (delete chatId chats, true)
  end.

Definition updateChatContext (now : Z) (chatId userId context : string)
    (chats : gmap string Chat) : gmap string Chat * bool :=
  match getChatById chatId userId chats with
  | None => (chats, false)
  | Some chat =>
      let chat' := {| id := id chat; userId := MemChatModel.userId chat;
                      title := title chat; messages := messages chat;
                      createdAt := createdAt chat; updatedAt := now;
                      context := Some context |} in
      (<[id chat' := chat']> (<[chatId := chat']> chats), true)
  end.

Definition role_name (r : ChatRole) : string :=
  match r with
  | user => "user"
  | assistant => "assistant"
  | system => "system"
  end.

(** [l.slice(-n)] *)
Definition slice_last {A} (n : nat) (l : list A) : list A :=
  drop (length l - n) l.

Definition line_break : string := String "010"%char "".

(** [getChatContext]: the custom context and the last ten messages. *)
Definition getChatContext (chatId userId : string) (chats : gmap string Chat) : string :=
  match getChatById chatId userId chats with
  | None => ""
  | Some chat =>
      let context := or_else (MemChatModel.context chat) "" in
      let recentMessages := slice_last 10 (messages chat) in
      if (0 <? length recentMessages)%nat
      then context +:+ line_break +:+ line_break +:+ "Recent conversation:" +:+ line_break
             +:+ String.concat line_break
                   (map (fun msg => role_name (cm_role msg) +:+ ": " +:+ cm_content msg)
                        recentMessages)
      else context
  end.

End MemChatModel.

(** ** The authenticated socket handler (chat.ts) *)

Module ChatSocketHandler.

(** The payload object of [chat-with-llm] as it arrives; any field may be
    missing.  An event sent without payload has no such object: the handlers
    take an [option ChatMessage]. *)
Record ChatMessage := {
  content : option string;
  chatId : option string;
  userId : option string;
  context : option string
}.

(** [socket.user] *)
Record User := { user_id : string; user_email : option string }.

(** The async iterable returned by [model.stream]: the strings it yields and
    then either its end or the error it raises. *)
Record Stream := { fragments : list string; failure : option JsError }.

(** Row ids and write times for the three rows one request may create, and
    the two readings of the clock that [addMessage] writes to the chat as
    [updatedAt], one after each message. *)
Record Generated := {
  new_chat : Stamp;
  user_message : Stamp;
  user_message_updatedAt : Z;
  ai_message : Stamp;
  ai_message_updatedAt : Z
}.

(** The [TypeError] thrown by [data.name] when [data] is [undefined]. *)
Definition cannot_read (name : string) : JsError :=
  {| err_message := "Cannot read properties of undefined (reading '" +:+ name +:+ "')";
     err_stack := "TypeError: Cannot read properties of undefined (reading '" +:+ name
                    +:+ "')" |}.

(** The listener passes on what the client sent with the event: an object,
    or nothing at all ([None]).  [data.name] reads the object and throws
    when there is none. *)
Definition dereference (data : option ChatMessage) (name : string) : M World ChatMessage :=
  match data with
  | Some sent => ret sent
  | None => throw (cannot_read name)
  end.

Definition nl : string := String "010"%char "".

(** Lines 126-149: use the chat named by the client or create "New Chat". *)
Definition resolveOrCreateChat (st : Stamp) (u : User) (chatId : option string)
    : M World string :=
  if negb (truthy_opt chatId)
  then
    newChat <- ChatModel.createChat st
                 {| ChatModel.cc_title := "New Chat"; ChatModel.cc_userId := user_id u;
                    ChatModel.cc_context := None |};;
    emit (ChatCreated (cw_id newChat) newChat);;
    ret (cw_id newChat)
  else
    existingChat <- ChatModel.getChatById (default "" chatId) (user_id u);;
    match existingChat with
    | None =>
        newChat <- ChatModel.createChat st
                     {| ChatModel.cc_title := "New Chat"; ChatModel.cc_userId := user_id u;
                        ChatModel.cc_context := None |};;
        emit (ChatCreated (cw_id newChat) newChat);;
        ret (cw_id newChat)
    | Some _ => ret (default "" chatId)
    end.

Definition role_label (r : Role) : string :=
  match r with
  | USER => "User"
  | _ => "Assistant"
  end.

Definition buildContextPrompt (chatContext : ChatModel.ChatContext)
    (additionalContext : option string) : string :=
  let p0 := "You are a helpful AI assistant. Provide clear, accurate, and helpful responses." in
  let p1 := if truthy_opt additionalContext
            then p0 +:+ nl +:+ nl +:+ "Additional context: " +:+ default "" additionalContext
            else p0 in
  let p2 := if truthy_opt (ChatModel.ctx_context chatContext)
            then p1 +:+ nl +:+ nl +:+ "Chat context: "
                    +:+ default "" (ChatModel.ctx_context chatContext)
            else p1 in
  match ChatModel.ctx_messages chatContext with
  | [] => p2
  | msgs =>
      fold_left
        (fun p msg => p +:+ role_label (md_role msg) +:+ ": " +:+ md_content msg +:+ nl)
        msgs (p2 +:+ nl +:+ nl +:+ "Previous conversation:" +:+ nl)
  end.

(** The local variables of one run of [handleChatWithLLM] once the stream
    is open; [turn_data] is the payload, which is present by then. *)
Record Turn := {
  turn_data : ChatMessage;
  turn_chatId : string;
  turn_user : User;
  fullPrompt : string;
  responseContent : string
}.

(** Lines 116-176: up to and including [await this.model.stream(fullPrompt)].
    [None] is an early [return].  [payload] is the argument [data] of the
    handler; [data.content] at line 121 is the first time it is read. *)
Definition open_stream (g : Generated) (socket_user : option User)
    (payload : option ChatMessage) : M World (option Turn) :=
  match socket_user with
  | None => emit (ErrorEvent "Authentication required");; ret None
  | Some u =>
      data <- dereference payload "content";;
      if negb (truthy_opt (content data))
      then emit (ErrorEvent "Content is required");; ret None
      else
        chatId <- resolveOrCreateChat (new_chat g) u (chatId data);;
        userMessage <- ChatModel.addMessage (user_message g) (user_message_updatedAt g)
                         chatId (user_id u) (default "" (content data)) USER;;
        emit LlmTypingStart;;
        chatContext <- ChatModel.getChatContext chatId (user_id u);;
        let contextPrompt := buildContextPrompt chatContext (context data) in
        let fullPrompt := contextPrompt +:+ nl +:+ nl +:+ "User: "
                            +:+ default "" (content data) +:+ nl +:+ nl +:+ "Assistant:" in
        stream_call fullPrompt;;
        ret (Some {| turn_data := data; turn_chatId := chatId; turn_user := u;
                     fullPrompt := fullPrompt; responseContent := "" |})
  end.

(** Lines 179-182: one turn of the [for await] loop. *)
Definition on_chunk (chunk : string) (t : Turn) : M World Turn :=
  emit (LlmResponseChunk chunk);;
  ret {| turn_data := turn_data t; turn_chatId := turn_chatId t; turn_user := turn_user t;
         fullPrompt := fullPrompt t; responseContent := responseContent t +:+ chunk |}.

Fixpoint for_await (chunks : list string) (t : Turn) : M World Turn :=
  match chunks with
  | [] => ret t
  | chunk :: rest => t' <- on_chunk chunk t;; for_await rest t'
  end.

(** Lines 184-200: after the loop. *)
Definition complete (g : Generated) (t : Turn) : M World unit :=
  aiMessage <- ChatModel.addMessage (ai_message g) (ai_message_updatedAt g) (turn_chatId t)
                 (user_id (turn_user t)) (responseContent t) ASSISTANT;;
  emit LlmTypingEnd;;
  emit (LlmResponseComplete aiMessage (turn_chatId t));;
  record AIResponseTime.

(** Lines 209-224: the [catch] block.  The log entry of lines 213-217 is
    built before anything is emitted, and it reads [data.chatId]. *)
Definition on_error (payload : option ChatMessage) (error : JsError) : M World unit :=
  record AIResponseTime;;
  dereference payload "chatId";;
  emit LlmTypingEnd;;
  emit (LlmResponseError
          [("message", FString "Failed to get AI response. Please try again.");
           ("error", FString (err_message error))]).

Definition handleChatWithLLM (g : Generated) (model : string -> Stream)
    (socket_user : option User) (payload : option ChatMessage) : M World unit :=
  try_catch
    (opened <- open_stream g socket_user payload;;
     match opened with
     | None => ret tt
     | Some t =>
         let aiResponse := model (fullPrompt t) in
         t' <- for_await (fragments aiResponse) t;;
         match failure aiResponse with
         | Some error => throw error
         | None => complete g t'
         end
     end)
    (on_error payload).

(** *** Accepting a connection *)

Record Handshake := { auth_token : option string; authorization : option string }.

(** [s.split(' ')] *)
Fixpoint split_space (s : string) : list string :=
  match s with
  | EmptyString => [""]
  | String a rest =>
      if Ascii.eqb a " "%char
      then "" :: split_space rest
      else match split_space rest with
           | [] => [String a ""]
           | piece :: pieces => String a piece :: pieces
           end
  end.

(** [handshake.auth.token || handshake.headers.authorization?.split(' ')[1]] *)
Definition token_of (h : Handshake) : option string :=
  if truthy_opt (auth_token h)
  then auth_token h
  else match authorization h with
       | None => None
       | Some header => split_space header !! 1%nat
       end.

(** A server-side socket: the bound identity, and whether the listener for
    [chat-with-llm] has been registered. *)
Record Connection := { user : option User; listening : bool }.

(** [verifyToken] is [jwt.verify] under the server's secret ([null] when it
    throws); it is a parameter of the handler. *)
Definition handleConnection (verifyToken : string -> option User) (h : Handshake)
    : M World Connection :=
  if negb (truthy_opt (token_of h))
  then
    emit (AuthError "Authentication required");;
    emit Disconnect;;
    ret {| user := None; listening := false |}
  else
    match verifyToken (default "" (token_of h)) with
    | None =>
        emit (AuthError "Invalid token");;
        emit Disconnect;;
        ret {| user := None; listening := false |}
    | Some decoded =>
        record ActiveConnection;;
        ret {| user := Some {| user_id := user_id decoded; user_email := user_email decoded |};
               listening := true |}
    end.

(** A [chat-with-llm] event reaching the socket: it runs the handler only
    if [socket.on('chat-with-llm', ...)] was executed. *)
Definition chat_with_llm (g : Generated) (model : string -> Stream)
    (c : Connection) (payload : option ChatMessage) : M World unit :=
  if listening c then handleChatWithLLM g model (user c) payload else ret tt.

(** *** Overlapping requests on one connection

    The handler is [async]: while one run waits for the next fragment the
    socket can deliver another [chat-with-llm] event, which starts another
    run.  [turns] holds the runs whose stream is open. *)
Inductive Input :=
| ChatWithLlm (g : Generated) (payload : option ChatMessage)
| Chunk (i : nat) (chunk : string)
| StreamEnds (i : nat) (g : Generated)
| StreamRaises (i : nat) (error : JsError).

Definition receive (c : Connection) (inp : Input) (turns : list Turn)
    : M World (list Turn) :=
  match inp with
  | ChatWithLlm g payload =>
      if listening c
      then try_catch
             (opened <- open_stream g (user c) payload;;
              match opened with
              | None => ret turns
              | Some t => ret (turns ++ [t])
              end)
             (fun error => on_error payload error;; ret turns)
      else ret turns
  | Chunk i chunk =>
      match turns !! i with
      | None => ret turns
      | Some t => t' <- on_chunk chunk t;; ret (<[i := t']> turns)
      end
  | StreamEnds i g =>
      match turns !! i with
      | None => ret turns
      | Some t =>
          try_catch (complete g t) (on_error (Some (turn_data t)));;
          ret (delete i turns)
      end
  | StreamRaises i error =>
      match turns !! i with
      | None => ret turns
      | Some t => on_error (Some (turn_data t)) error;; ret (delete i turns)
      end
  end.

(** The inputs of a connection, in order.  A run that ends with an error
    leaves the promise of its listener rejected, which nothing in the
    sources handles; [receive_all] stops there and models nothing after
    it. *)
Fixpoint receive_all (c : Connection) (inps : list Input) (turns : list Turn)
    : M World (list Turn) :=
  match inps with
  | [] => ret turns
  | inp :: rest => turns' <- receive c inp turns;; receive_all c rest turns'
  end.

(** *** Chat management over the socket

    [handleCreateChat], [handleGetUserChats] and [handleDeleteChat] emit one
    event on every path; the embedding returns that event. *)
Inductive Reply :=
| ReplyError (message : string)
| ReplyChatCreated (chat : ChatWithMessages)
| ReplyUserChats (chats : list ChatWithMessages)
| ReplyChatDeleted (chatId : string).

Definition handleCreateChat (st : Stamp) (socket_user : option User)
    (title : string) (context : option string) : World -> World * Reply :=
  fun w =>
    match socket_user with
    | None => (w, ReplyError "Authentication required")
    | Some u =>
        match ChatModel.createChat st
                {| ChatModel.cc_title := title; ChatModel.cc_userId := user_id u;
                   ChatModel.cc_context := context |} w with
        | (w', Ok chat) => (w', ReplyChatCreated chat)
        | (w', Throw _) => (w', ReplyError "Failed to create chat")
        end
    end.

Definition handleGetUserChats (socket_user : option User) : World -> World * Reply :=
  fun w =>
    match socket_user with
    | None => (w, ReplyError "Authentication required")
    | Some u =>
        match ChatModel.getUserChats (user_id u) w with
        | (w', Ok chats) => (w', ReplyUserChats chats)
        | (w', Throw _) => (w', ReplyError "Failed to get chats")
        end
    end.

Definition handleDeleteChat (sch : Prisma.Schema) (socket_user : option User)
    (chatId : string) : World -> World * Reply :=
  fun w =>
    match socket_user with
    | None => (w, ReplyError "Authentication required")
    | Some u =>
        match ChatModel.deleteChat sch chatId (user_id u) w with
        | (w', Ok _) => (w', ReplyChatDeleted chatId)
        | (w', Throw _) => (w', ReplyError "Failed to delete chat")
        end
    end.

End ChatSocketHandler.

(** ** Observations used in the statements *)

(** The concatenation of a list of strings, in order. *)
Definition joined (l : list string) : string := foldr String.append "" l.

(** The events a handler added to the socket between two worlds. *)
Definition emitted_since (w w' : World) : list Event :=
  drop (length (socket w)) (socket w').

Definition is_chunk (ev : Event) : bool :=
  match ev with
  | LlmResponseChunk _ => true
  | _ => false
  end.

Definition is_database_query (m : Metric) : bool :=
  match m with
  | DatabaseQuery _ _ => true
  | _ => false
  end.

(** The [DatabaseQuery] observations of a log: one is recorded by every
    method of the storage service, whether it succeeds or throws. *)
Definition storage_calls (w : World) : nat :=
  length (List.filter is_database_query (monitoring w)).

(** Every chat of the in-memory map is stored under its own id, as
    [chats.set(chat.id, chat)] leaves it. *)
Definition keyed (chats : gmap string MemChatModel.Chat) : Prop :=
  forall k chat, chats !! k = Some chat -> MemChatModel.id chat = k.

(** The chat with other messages. *)
Definition with_messages (chat : MemChatModel.Chat) (msgs : list MemChatModel.ChatMessage)
    : MemChatModel.Chat :=
  {| MemChatModel.id := MemChatModel.id chat;
     MemChatModel.userId := MemChatModel.userId chat;
     MemChatModel.title := MemChatModel.title chat;
     MemChatModel.messages := msgs;
     MemChatModel.createdAt := MemChatModel.createdAt chat;
     MemChatModel.updatedAt := MemChatModel.updatedAt chat;
     MemChatModel.context := MemChatModel.context chat |}.

(** Insertion of rows one at a time in the order given by [before], which is
    what the three [orderBy] of the storage service do. *)
Fixpoint insert_sorted {A} (before : A -> A -> bool) (m : A) (l : list A) : list A :=
  match l with
  | [] => [m]
  | x :: rest => if before m x then m :: x :: rest else x :: insert_sorted before m rest
  end.

Definition sort_by {A} (before : A -> A -> bool) (l : list A) : list A :=
  fold_left (fun acc m => insert_sorted before m acc) l [].

(** The two orders used: ascending and descending in a time stamp [key]. *)
Definition asc {A} (key : A -> Z) (m x : A) : bool := (key m <? key x)%Z.

Definition desc {A} (key : A -> Z) (m x : A) : bool := (key x <? key m)%Z.

(** No character of the string is a space. *)
Definition spaceless (s : string) : bool :=
  forallb (fun a => negb (Ascii.eqb a " "%char)) (list_ascii_of_string s).

(** The last [n] elements of a list: of messages in chronological order, the
    [n] most recent ones. *)
Definition most_recent {A} (n : nat) (l : list A) : list A :=
  drop (length l - n) l.

(** All content that arrived has been emitted in chunk events by the time the
    relay emits its closing signal (the last event of the run). *)
Definition flushed_before_signal (ts : list BufferedRelay.Tick) (o : BufferedRelay.Outcome)
    : Prop :=
  exists evs signal,
    (BufferedRelay.run ts o).2 = evs ++ [signal]
    /\ joined (chunk_payloads evs)
       = joined (map BufferedRelay.content_of (BufferedRelay.arrived ts)).

(** An [llm-response-error] payload of the shape
    [{ message: string, error: string }]. *)
Definition error_payload_is_two_strings (ev : Event) : bool :=
  match ev with
  | LlmResponseError payload =>
      is_string_field (field "message" payload) && is_string_field (field "error" payload)
  | _ => true
  end.

(** An [llm-response-error] payload of the shape
    [{ message: <the fixed text>, error: <a string> }]. *)
Definition error_payload_of_strings (ev : Event) : bool :=
  match ev with
  | LlmResponseError payload =>
      match field "message" payload with
      | Some (FString m) => String.eqb m "Failed to get AI response. Please try again."
      | _ => false
      end && is_string_field (field "error" payload)
  | _ => true
  end.

(** ** Stages of a run of the socket handler *)

Module Stages.
Import Prisma ChatModel ChatSocketHandler.

Definition has_chat (chatId : string) (db : Database) : Prop :=
  Exists (fun c => chat_id c = chatId) (chat db).

(** The database once the user's message is stored on chat [cid]. *)
Definition with_user_message (g : Generated) (u : User) (data : ChatSocketHandler.ChatMessage)
    (cid : string) (db : Database) : Database :=
  (chat_update cid (user_message_updatedAt g)
     (message_create (user_message g) (default "" (content data)) USER cid (user_id u) db).1).1.

(** The world in which the stream is opened with [prompt], once the chat is
    resolved to [cid] in [w0]. *)
Definition opened (g : Generated) (u : User) (data : ChatSocketHandler.ChatMessage)
    (cid prompt : string) (w0 : World) : World :=
  {| prisma := with_user_message g u data cid (prisma w0);
     monitoring := monitoring w0
                     ++ [DatabaseQuery "create" "messages";
                         ChatMessageTotal USER (user_id u);
                         DatabaseQuery "find" "chats"];
     socket := socket w0 ++ [LlmTypingStart];
     ollama := ollama w0 ++ [prompt] |}.

(** The world and the turn when the stream of [t] has yielded all it has. *)
Definition streamed (model : string -> Stream) (t : Turn) (w1 : World) : World :=
  {| prisma := prisma w1; monitoring := monitoring w1;
     socket := socket w1 ++ map LlmResponseChunk (fragments (model (fullPrompt t)));
     ollama := ollama w1 |}.

Definition answered (model : string -> Stream) (t : Turn) : Turn :=
  {| turn_data := turn_data t; turn_chatId := turn_chatId t; turn_user := turn_user t;
     fullPrompt := fullPrompt t;
     responseContent := responseContent t +:+ joined (fragments (model (fullPrompt t))) |}.

(** The world a run ends in, once the chat is resolved to [cid] in [w0] and
    the stream [str] was opened with [prompt]. *)
Definition ended (g : Generated) (u : User) (data : ChatSocketHandler.ChatMessage)
    (cid prompt : string) (str : Stream) (w0 : World) : World :=
  match failure str with
  | Some error =>
      {| prisma := with_user_message g u data cid (prisma w0);
         monitoring := monitoring w0
                         ++ [DatabaseQuery "create" "messages";
                             ChatMessageTotal USER (user_id u);
                             DatabaseQuery "find" "chats"; AIResponseTime];
         socket := socket w0 ++ [LlmTypingStart] ++ map LlmResponseChunk (fragments str)
                     ++ [LlmTypingEnd;
                         LlmResponseError
                           [("message", FString "Failed to get AI response. Please try again.");
                            ("error", FString (err_message error))]];
         ollama := ollama w0 ++ [prompt] |}
  | None =>
      {| prisma := (chat_update cid (ai_message_updatedAt g)
                      (message_create (ai_message g) (joined (fragments str)) ASSISTANT
                         cid (user_id u) (with_user_message g u data cid (prisma w0))).1).1;
         monitoring := monitoring w0
                         ++ [DatabaseQuery "create" "messages";
                             ChatMessageTotal USER (user_id u);
                             DatabaseQuery "find" "chats";
                             DatabaseQuery "create" "messages";
                             ChatMessageTotal ASSISTANT (user_id u); AIResponseTime];
         socket := socket w0 ++ [LlmTypingStart] ++ map LlmResponseChunk (fragments str)
                     ++ [LlmTypingEnd;
                         LlmResponseComplete
                           {| md_id := (ai_message g).1; md_content := joined (fragments str);
                              md_role := ASSISTANT; md_createdAt := (ai_message g).2 |} cid];
         ollama := ollama w0 ++ [prompt] |}
  end.

End Stages.

(** ** Concrete inputs *)

Module Sample.
Import ChatSocketHandler.

Definition boom : JsError :=
  {| err_message := "connect ECONNREFUSED 127.0.0.1:11434";
     err_stack := "Error: connect ECONNREFUSED 127.0.0.1:11434 at TCPConnectWrap.afterConnect" |}.

Definition alice : User := {| user_id := "u1"; user_email := Some "alice@example.org" |}.

Definition empty_world : World :=
  {| prisma := {| chat := []; message := [] |}; monitoring := []; socket := []; ollama := [] |}.

Definition stamps : Generated :=
  {| new_chat := ("c1", 10%Z);
     user_message := ("m1", 11%Z); user_message_updatedAt := 12%Z;
     ai_message := ("m2", 13%Z); ai_message_updatedAt := 14%Z |}.

Definition stamps' : Generated :=
  {| new_chat := ("c2", 20%Z);
     user_message := ("m3", 21%Z); user_message_updatedAt := 22%Z;
     ai_message := ("m4", 23%Z); ai_message_updatedAt := 24%Z |}.

Definition hello : ChatSocketHandler.ChatMessage :=
  {| content := Some "Hello"; chatId := None; userId := None; context := None |}.

Definition blank : ChatSocketHandler.ChatMessage :=
  {| content := Some ""; chatId := None; userId := None; context := None |}.

Definition answers (p : string) : Stream :=
  {| fragments := ["Hi"; " there"]; failure := None |}.

Definition breaks (p : string) : Stream :=
  {| fragments := ["Hi"; " there"]; failure := Some boom |}.

(** A chat of alice with 21 messages, written at times 1 to 21. *)
Definition long_chat : Database :=
  {| chat := [{| chat_id := "c1"; chat_title := "New Chat"; chat_context := Some "travel";
                 chat_userId := "u1"; chat_createdAt := 0; chat_updatedAt := 21 |}];
     message :=
       map (fun n => {| msg_id := "m" +:+ pretty n; msg_content := "turn " +:+ pretty n;
                        msg_role := if Nat.odd n then USER else ASSISTANT;
                        msg_chatId := "c1"; msg_userId := "u1";
                        msg_createdAt := Z.of_nat n |})
           (seq 1 21) |}.

Definition with_database (db : Database) : World :=
  {| prisma := db; monitoring := []; socket := []; ollama := [] |}.

(** A chat of alice, and nothing else. *)
Definition alices_row : ChatRow :=
  {| chat_id := "c1"; chat_title := "New Chat"; chat_context := None;
     chat_userId := "u1"; chat_createdAt := 10; chat_updatedAt := 10 |}.

Definition alices_chat : Database := {| chat := [alices_row]; message := [] |}.



(** A handshake whose authorization header carries no token, and a
    [verifyToken] that would accept any token. *)
Definition bare_handshake : Handshake :=
  {| auth_token := None; authorization := Some "Bearer" |}.

Definition accept_all (token : string) : option User := Some alice.

(** Another user, with a chat of their own beside alice's, one message each. *)
Definition bob : User := {| user_id := "u2"; user_email := None |}.

Definition bobs_row : ChatRow :=
  {| chat_id := "c2"; chat_title := "Plans"; chat_context := Some "work";
     chat_userId := "u2"; chat_createdAt := 12; chat_updatedAt := 14 |}.

Definition alices_message : MessageRow :=
  {| msg_id := "m1"; msg_content := "Hello"; msg_role := USER; msg_chatId := "c1";
     msg_userId := "u1"; msg_createdAt := 11 |}.

Definition bobs_message : MessageRow :=
  {| msg_id := "m2"; msg_content := "Hi"; msg_role := USER; msg_chatId := "c2";
     msg_userId := "u2"; msg_createdAt := 14 |}.

Definition two_chats : Database :=
  {| chat := [alices_row; bobs_row]; message := [alices_message; bobs_message] |}.

Definition cascading : Prisma.Schema :=
  {| Prisma.message_chat_onDelete := Prisma.Cascade; Prisma.chat_updatedAt_auto := true |}.

(** The same two chats in the in-memory service; alice's has ten messages. *)
Definition ten_messages : list MemChatModel.ChatMessage :=
  map (fun n => {| MemChatModel.cm_id := "msg" +:+ pretty n;
                   MemChatModel.cm_role := if Nat.odd n then MemChatModel.user
                                           else MemChatModel.assistant;
                   MemChatModel.cm_content := "turn " +:+ pretty n;
                   MemChatModel.cm_timestamp := Z.of_nat n;
                   MemChatModel.cm_userId := "u1" |})
      (seq 1 10).

Definition alices_mem_chat : MemChatModel.Chat :=
  {| MemChatModel.id := "c1"; MemChatModel.userId := "u1"; MemChatModel.title := "New Chat";
     MemChatModel.messages := ten_messages; MemChatModel.createdAt := 0;
     MemChatModel.updatedAt := 10; MemChatModel.context := None |}.

Definition bobs_mem_chat : MemChatModel.Chat :=
  {| MemChatModel.id := "c2"; MemChatModel.userId := "u2"; MemChatModel.title := "Plans";
     MemChatModel.messages := []; MemChatModel.createdAt := 12;
     MemChatModel.updatedAt := 12; MemChatModel.context := Some "work" |}.

Definition mem_chats : gmap string MemChatModel.Chat :=
  <["c2" := bobs_mem_chat]> {["c1" := alices_mem_chat]}.

(** A stream of the buffered relay: "Hel" and "lo" in objects, around an
    undefined fragment, a raw string and an object without content; the
    timeout fires after the first fragment. *)
Definition hello_ticks : list BufferedRelay.Tick :=
  [BufferedRelay.Arrives (BufferedRelay.Obj (Some "Hel"));
   BufferedRelay.TimerFires;
   BufferedRelay.Arrives BufferedRelay.Undefined;
   BufferedRelay.Arrives (BufferedRelay.Raw "??");
   BufferedRelay.Arrives (BufferedRelay.Obj (Some "lo"));
   BufferedRelay.Arrives (BufferedRelay.Obj None)].

(** A second request of alice, on the chat that [stamps] creates. *)
Definition again : ChatSocketHandler.ChatMessage :=
  {| content := Some "And then?"; chatId := Some "c1"; userId := None; context := None |}.

End Sample.

(** * Properties *)

(** ** Strings *)

Lemma app_cons (a : ascii) (s t : string) : String a s +:+ t = String a (s +:+ t).
Proof. reflexivity. Qed.

Lemma app_empty_r (s : string) : s +:+ "" = s.
Proof. induction s as [|a s IH]; [reflexivity|]. rewrite app_cons. by f_equal. Qed.

Lemma app_assoc_str (s t u : string) : (s +:+ t) +:+ u = s +:+ (t +:+ u).
Proof.
  induction s as [|a s IH]; [reflexivity|].
  rewrite !app_cons. by f_equal.
Qed.

Lemma joined_app (l1 l2 : list string) : joined (l1 ++ l2) = joined l1 +:+ joined l2.
Proof.
  induction l1 as [|x l1 IH]; [reflexivity|].
  cbn [joined foldr app]. fold (joined (l1 ++ l2)). fold (joined l1).
  rewrite IH. by rewrite app_assoc_str.
Qed.

Lemma chunk_payloads_app (l1 l2 : list Event) :
  chunk_payloads (l1 ++ l2) = chunk_payloads l1 ++ chunk_payloads l2.
Proof. unfold chunk_payloads. apply omap_app. Qed.

Lemma truthy_false (s : string) : truthy s = false -> s = "".
Proof. by destruct s. Qed.

(** ** The buffered relay *)

Module RelayFacts.
Import BufferedRelay.

(** What has been emitted plus what is still held is what has arrived. *)
Lemma flushBuffer_keeps (s : Session) :
  joined (chunk_payloads (flushBuffer s).2) +:+ buffer (flushBuffer s).1 = buffer s.
Proof.
  unfold flushBuffer. destruct (truthy (buffer s)) eqn:E; cbn.
  - by rewrite !app_empty_r.
  - reflexivity.
Qed.

Lemma flushBuffer_empties (s : Session) : buffer (flushBuffer s).1 = "".
Proof.
  unfold flushBuffer. destruct (truthy (buffer s)) eqn:E; cbn; [done|].
  by apply truthy_false.
Qed.

Lemma tick_keeps (t : Tick) (s : Session) :
  joined (chunk_payloads (tick t s).2) +:+ buffer (tick t s).1
  = buffer s +:+ joined (map content_of (arrived [t])).
Proof.
  destruct t as [chunk|]; cbn.
  - unfold on_fragment. destruct (negb (timer s)); cbn; by rewrite app_empty_r.
  - unfold on_timeout. destruct (timer s); cbn.
    + pose proof (flushBuffer_keeps s) as H.
      destruct (flushBuffer s) as [s' evs]; cbn in *. by rewrite app_empty_r.
    + by rewrite app_empty_r.
Qed.

Lemma arrived_cons (t : Tick) (ts : list Tick) : arrived (t :: ts) = arrived [t] ++ arrived ts.
Proof. unfold arrived. by destruct t. Qed.

Lemma ticks_keeps (ts : list Tick) (s : Session) :
  joined (chunk_payloads (ticks ts s).2) +:+ buffer (ticks ts s).1
  = buffer s +:+ joined (map content_of (arrived ts)).
Proof.
  revert s. induction ts as [|t ts IH]; intros s.
  - cbn. by rewrite app_empty_r.
  - cbn [ticks]. pose proof (tick_keeps t s) as Ht.
    destruct (tick t s) as [s1 evs1]. specialize (IH s1).
    destruct (ticks ts s1) as [s2 evs2]. cbn [fst snd] in *.
    rewrite chunk_payloads_app, joined_app, app_assoc_str, IH.
    rewrite <- app_assoc_str, Ht.
    rewrite (arrived_cons t ts), map_app, joined_app. by rewrite app_assoc_str.
Qed.

Lemma tick_armed (t : Tick) (s : Session) : armed s -> armed (tick t s).1.
Proof.
  intros Hs. destruct t as [chunk|]; cbn.
  - right. unfold on_fragment. by destruct (timer s).
  - unfold on_timeout. destruct (timer s) eqn:E; cbn.
    + left. pose proof (flushBuffer_empties s). by destruct (flushBuffer s).
    + destruct Hs as [?|?]; [by left | congruence].
Qed.

Lemma ticks_armed (ts : list Tick) (s : Session) : armed s -> armed (ticks ts s).1.
Proof.
  revert s. induction ts as [|t ts IH]; intros s Hs; [done|].
  cbn [ticks]. pose proof (tick_armed t s Hs) as Ht.
  destruct (tick t s) as [s1 evs1]. specialize (IH s1 Ht).
  by destruct (ticks ts s1).
Qed.

Lemma run_ends (ts : list Tick) :
  run ts Ends = ((flushBuffer (ticks ts fresh).1).1,
                 (ticks ts fresh).2 ++ (flushBuffer (ticks ts fresh).1).2 ++ [LlmResponseEnd]).
Proof.
  unfold run, stop, on_stream_end. destruct (ticks ts fresh) as [s1 evs1]. cbn.
  by destruct (flushBuffer s1).
Qed.

Lemma run_raises (ts : list Tick) (error : JsError) :
  run ts (Raises error)
  = ((ticks ts fresh).1, (ticks ts fresh).2 ++ [LlmResponseError [("error", FError error)]]).
Proof. unfold run, stop, on_stream_error. by destruct (ticks ts fresh). Qed.

Lemma ends_all_flushed (ts : list Tick) :
  joined (chunk_payloads ((ticks ts fresh).2 ++ (flushBuffer (ticks ts fresh).1).2))
  = joined (map content_of (arrived ts)).
Proof.
  pose proof (ticks_keeps ts fresh) as H. cbn [buffer fresh] in H.
  pose proof (flushBuffer_keeps (ticks ts fresh).1) as Hf.
  pose proof (flushBuffer_empties (ticks ts fresh).1) as He.
  rewrite He, app_empty_r in Hf.
  rewrite chunk_payloads_app, joined_app, Hf. exact H.
Qed.

Lemma on_timeout_flushes (s : Session) :
  armed s -> joined (chunk_payloads (on_timeout s).2) = buffer s.
Proof.
  intros [Hb|Ht]; unfold on_timeout.
  - destruct (timer s); cbn; [|done].
    unfold flushBuffer. rewrite Hb. reflexivity.
  - rewrite Ht. pose proof (flushBuffer_keeps s) as Hk.
    pose proof (flushBuffer_empties s) as He.
    destruct (flushBuffer s) as [s' evs]; cbn in *. by rewrite He, app_empty_r in Hk.
Qed.

(** A socket that serves a single callback behaves as [run]. *)
Lemma receive_ticks (ts : list Tick) (s : Session) (evs : list Event) :
  receive_all (map (Next 0) ts)
    {| runs := [{| session := s; streaming := true |}]; emitted := evs |}
  = {| runs := [{| session := (ticks ts s).1; streaming := true |}];
       emitted := evs ++ (ticks ts s).2 |}.
Proof.
  revert s evs. induction ts as [|t ts IH]; intros s evs.
  - cbn. by rewrite app_nil_r.
  - cbn [map receive_all fold_left]. fold (receive_all (map (Next 0) ts)).
    cbn [receive runs lookup list_lookup streaming orb session emitted].
    cbn [ticks]. destruct (tick t s) as [s1 evs1].
    cbn [insert list_insert]. rewrite IH.
    destruct (ticks ts s1) as [s2 evs2]. cbn [fst snd]. by rewrite app_assoc.
Qed.

Lemma single_callback_is_run (content : string) (ts : list Tick) (o : Outcome) :
  receive_all (ChatWithLlm content :: map (Next 0) ts ++ [Stop 0 o]) connected
  = {| runs := [{| session := (run ts o).1; streaming := false |}];
       emitted := (run ts o).2 |}.
Proof.
  unfold receive_all. cbn [fold_left]. rewrite fold_left_app.
  fold (receive_all (map (Next 0) ts) (receive (ChatWithLlm content) connected)).
  cbn [receive connected runs emitted app]. rewrite receive_ticks.
  cbn [fold_left receive runs lookup list_lookup streaming session emitted app].
  unfold run. destruct (ticks ts fresh) as [s1 evs1]. cbn [fst snd].
  by destruct (stop o s1).
Qed.

End RelayFacts.

(** ** The storage service *)

Module StorageFacts.
Import Prisma ChatModel Stages.

Ltac run_monad :=
  unfold try_catch, bind, query, record, emit, stream_call, modify, ret, throw, set_prisma;
  cbn [fst snd prisma monitoring socket ollama].

Lemma createChat_eq (st : Stamp) (data : CreateChatData) (w : World) :
  createChat st data w
  = ({| prisma := (chat_create st (cc_title data) (cc_userId data) (cc_context data) (prisma w)).1;
        monitoring := monitoring w ++ [DatabaseQuery "create" "chats"];
        socket := socket w; ollama := ollama w |},
     Ok (mapToChatWithMessages
           (chat_create st (cc_title data) (cc_userId data) (cc_context data) (prisma w)).2
           (orderBy_createdAt_asc
              (messages_of st.1
                 (chat_create st (cc_title data) (cc_userId data) (cc_context data) (prisma w)).1)))).
Proof. unfold createChat. run_monad. reflexivity. Qed.

Lemma getChatById_eq (chatId userId : string) (w : World) :
  getChatById chatId userId w
  = ({| prisma := prisma w; monitoring := monitoring w ++ [DatabaseQuery "find" "chats"];
        socket := socket w; ollama := ollama w |},
     Ok (option_map
           (fun row => mapToChatWithMessages row
                         (orderBy_createdAt_asc (messages_of (chat_id row) (prisma w))))
           (chat_findFirst chatId userId (prisma w)))).
Proof.
  unfold getChatById. run_monad.
  destruct (chat_findFirst chatId userId (prisma w)); reflexivity.
Qed.

Lemma addMessage_ok (st : Stamp) (now : Z) (chatId userId content : string) (role : Role)
    (w : World) :
  has_chat chatId (prisma w) ->
  addMessage st now chatId userId content role w
  = ({| prisma := (chat_update chatId now (message_create st content role chatId userId (prisma w)).1).1;
        monitoring := monitoring w ++ [DatabaseQuery "create" "messages"; ChatMessageTotal role userId];
        socket := socket w; ollama := ollama w |},
     Ok {| md_id := st.1; md_content := content; md_role := role; md_createdAt := st.2 |}).
Proof.
  intros H. unfold addMessage, message_create, chat_update, has_chat in *. run_monad.
  rewrite bool_decide_eq_true_2 by done. cbn.
  rewrite bool_decide_eq_true_2 by done. cbn.
  by rewrite <- app_assoc.
Qed.

Lemma addMessage_refused (st : Stamp) (now : Z) (chatId userId content : string)
    (role : Role) (w : World) :
  ~ has_chat chatId (prisma w) ->
  addMessage st now chatId userId content role w
  = ({| prisma := prisma w; monitoring := monitoring w ++ [DatabaseQuery "create" "messages"];
        socket := socket w; ollama := ollama w |},
     Throw foreign_key_violation).
Proof.
  intros H. unfold addMessage, message_create, has_chat in *. run_monad.
  rewrite bool_decide_eq_false_2 by done. cbn. reflexivity.
Qed.

Lemma getChatContext_found (chatId userId : string) (row : ChatRow) (w : World) :
  chat_findFirst chatId userId (prisma w) = Some row ->
  getChatContext chatId userId w
  = ({| prisma := prisma w; monitoring := monitoring w ++ [DatabaseQuery "find" "chats"];
        socket := socket w; ollama := ollama w |},
     Ok {| ctx_messages :=
             map mapToMessageData
               (take 20 (orderBy_createdAt_asc (messages_of (chat_id row) (prisma w))));
           ctx_context := if truthy_opt (chat_context row) then chat_context row else None |}).
Proof. intros H. unfold getChatContext. run_monad. rewrite H. reflexivity. Qed.

(** *** Looking a chat up *)

Lemma findFirst_Some (chatId userId : string) (row : ChatRow) (db : Database) :
  chat_findFirst chatId userId db = Some row ->
  row ∈ chat db /\ chat_id row = chatId /\ chat_userId row = userId.
Proof.
  unfold chat_findFirst. intros H. apply find_some in H as [Hin Hp].
  apply andb_prop in Hp as [H1 H2].
  apply bool_decide_eq_true in H1, H2. by rewrite list_elem_of_In.
Qed.

Lemma findFirst_has_chat (chatId userId : string) (row : ChatRow) (db : Database) :
  chat_findFirst chatId userId db = Some row -> has_chat chatId db.
Proof.
  intros H. apply findFirst_Some in H as (Hin & Hid & _).
  apply Exists_exists. eauto.
Qed.

Lemma findFirst_None (chatId userId : string) (db : Database) :
  chat_findFirst chatId userId db = None ->
  forall row, row ∈ chat db -> ~ (chat_id row = chatId /\ chat_userId row = userId).
Proof.
  unfold chat_findFirst. intros H row Hin [H1 H2].
  apply list_elem_of_In in Hin.
  pose proof (find_none _ _ H row Hin) as Hp. cbn in Hp.
  rewrite !bool_decide_eq_true_2 in Hp by done. discriminate.
Qed.

Lemma findFirst_created (st : Stamp) (title userId : string) (context : option string)
    (db : Database) :
  exists row, chat_findFirst st.1 userId (chat_create st title userId context db).1 = Some row.
Proof.
  unfold chat_findFirst, chat_create. cbn [fst chat].
  destruct (find _ (chat db ++ _)) eqn:E; [eauto|].
  exfalso. eapply find_none in E.
  2:{ apply in_or_app. right. left. reflexivity. }
  cbn in E. rewrite !bool_decide_eq_true_2 in E by done. discriminate.
Qed.

Lemma find_map {A} (p : A -> bool) (f : A -> A) (l : list A) :
  (forall x, p (f x) = p x) -> find p (map f l) = option_map f (find p l).
Proof.
  intros Hp. induction l as [|x l IH]; [done|].
  cbn. rewrite Hp. by destruct (p x).
Qed.

Lemma findFirst_touched (chatId userId cid : string) (now : Z) (row : ChatRow)
    (db : Database) :
  chat_findFirst chatId userId db = Some row ->
  exists row', chat_findFirst chatId userId (chat_update cid now db).1 = Some row'
               /\ chat_id row' = chat_id row /\ chat_context row' = chat_context row.
Proof.
  intros H. unfold chat_update.
  destruct (bool_decide (Exists _ _)); cbn [fst]; [|eauto].
  unfold chat_findFirst in *. cbn [chat].
  rewrite find_map.
  - rewrite H. cbn. eexists. split; [reflexivity|].
    by destruct (bool_decide (chat_id row = cid)).
  - intros c. by destruct (bool_decide (chat_id c = cid)).
Qed.

(** The database after [addMessage] went through. *)
Lemma message_create_ok (st : Stamp) (content : string) (role : Role)
    (chatId userId : string) (db : Database) :
  has_chat chatId db ->
  message_create st content role chatId userId db
  = ({| chat := chat db;
        message := message db ++ [{| msg_id := st.1; msg_content := content; msg_role := role;
                                     msg_chatId := chatId; msg_userId := userId;
                                     msg_createdAt := st.2 |}] |},
     Ok {| msg_id := st.1; msg_content := content; msg_role := role;
           msg_chatId := chatId; msg_userId := userId; msg_createdAt := st.2 |}).
Proof. intros H. unfold message_create. by rewrite bool_decide_eq_true_2. Qed.

Lemma chat_update_message (chatId : string) (now : Z) (db : Database) :
  message (chat_update chatId now db).1 = message db.
Proof. unfold chat_update. by destruct (bool_decide _). Qed.

Lemma chat_update_length (chatId : string) (now : Z) (db : Database) :
  length (chat (chat_update chatId now db).1) = length (chat db).
Proof. unfold chat_update. destruct (bool_decide _); cbn; [apply length_map|done]. Qed.

Lemma chat_update_has_chat (chatId cid : string) (now : Z) (db : Database) :
  has_chat cid db -> has_chat cid (chat_update chatId now db).1.
Proof.
  unfold has_chat, chat_update. intros H.
  destruct (bool_decide (Exists _ _)); cbn [fst chat]; [|done].
  apply Exists_exists in H as (c & Hin & Hc). apply Exists_exists.
  exists (if bool_decide (chat_id c = chatId) then touch now c else c). split.
  - apply list_elem_of_In, in_map_iff. exists c. by rewrite <- list_elem_of_In.
  - by destruct (bool_decide (chat_id c = chatId)).
Qed.

Lemma message_create_chat (st : Stamp) (content : string) (role : Role)
    (chatId userId : string) (db : Database) :
  chat (message_create st content role chatId userId db).1 = chat db.
Proof. unfold message_create. by destruct (bool_decide _). Qed.

Lemma chat_update_keeps (cid : string) (now : Z) (db : Database) (row : ChatRow) :
  row ∈ chat db ->
  exists row', row' ∈ chat (chat_update cid now db).1
               /\ chat_id row' = chat_id row
               /\ chat_title row' = chat_title row
               /\ chat_userId row' = chat_userId row.
Proof.
  intros Hin. unfold chat_update.
  destruct (bool_decide (Exists _ _)); cbn [fst chat]; [|eauto].
  exists (if bool_decide (chat_id row = cid) then touch now row else row). split.
  - apply list_elem_of_In, in_map_iff. exists row. by rewrite <- list_elem_of_In.
  - by destruct (bool_decide (chat_id row = cid)).
Qed.

Lemma chat_create_length (st : Stamp) (title userId : string) (context : option string)
    (db : Database) :
  length (chat (chat_create st title userId context db).1) = S (length (chat db)).
Proof. cbn. rewrite length_app. cbn. lia. Qed.

Lemma findFirst_member (c : ChatRow) (userId : string) (db : Database) :
  c ∈ chat db -> chat_userId c = userId ->
  exists row, chat_findFirst (chat_id c) userId db = Some row.
Proof.
  intros Hin Hu.
  destruct (chat_findFirst (chat_id c) userId db) as [row|] eqn:E; [eauto|].
  exfalso. by apply (findFirst_None _ _ _ E c Hin).
Qed.

End StorageFacts.

(** ** The socket handler *)

Module HandlerFacts.
Import Prisma ChatModel ChatSocketHandler Stages StorageFacts.

Lemma resolve_existing (st : Stamp) (u : User) (chatId : option string) (row : ChatRow)
    (w : World) :
  truthy_opt chatId = true ->
  chat_findFirst (default "" chatId) (user_id u) (prisma w) = Some row ->
  resolveOrCreateChat st u chatId w
  = ({| prisma := prisma w; monitoring := monitoring w ++ [DatabaseQuery "find" "chats"];
        socket := socket w; ollama := ollama w |},
     Ok (default "" chatId)).
Proof.
  intros Ht Hf. unfold resolveOrCreateChat. rewrite Ht. cbn [negb].
  unfold bind at 1. rewrite getChatById_eq, Hf. reflexivity.
Qed.

Lemma resolve_new (st : Stamp) (u : User) (chatId : option string) (w : World) :
  truthy_opt chatId = false
  \/ chat_findFirst (default "" chatId) (user_id u) (prisma w) = None ->
  resolveOrCreateChat st u chatId w
  = ({| prisma := (chat_create st "New Chat" (user_id u) None (prisma w)).1;
        monitoring := monitoring w
                        ++ (if truthy_opt chatId then [DatabaseQuery "find" "chats"] else [])
                        ++ [DatabaseQuery "create" "chats"];
        socket := socket w
                    ++ [ChatCreated st.1
                          (mapToChatWithMessages
                             (chat_create st "New Chat" (user_id u) None (prisma w)).2
                             (orderBy_createdAt_asc
                                (messages_of st.1
                                   (chat_create st "New Chat" (user_id u) None (prisma w)).1)))];
        ollama := ollama w |},
     Ok st.1).
Proof.
  intros H. unfold resolveOrCreateChat.
  destruct (truthy_opt chatId) eqn:Ht; cbn [negb].
  - destruct H as [H|H]; [discriminate|].
    unfold bind at 1. rewrite getChatById_eq, H. cbn [option_map].
    unfold bind at 1. rewrite createChat_eq. run_monad.
    cbn. by rewrite <- app_assoc.
  - unfold bind at 1. rewrite createChat_eq. run_monad. reflexivity.
Qed.

Lemma resolve_total (st : Stamp) (u : User) (chatId : option string) (w : World) :
  exists w0 cid row evs,
    resolveOrCreateChat st u chatId w = (w0, Ok cid)
    /\ chat_findFirst cid (user_id u) (prisma w0) = Some row
    /\ message (prisma w0) = message (prisma w)
    /\ socket w0 = socket w ++ evs
    /\ (evs = [] \/ exists chat, evs = [ChatCreated st.1 chat])
    /\ ollama w0 = ollama w.
Proof.
  destruct (truthy_opt chatId) eqn:Ht.
  - destruct (chat_findFirst (default "" chatId) (user_id u) (prisma w)) as [row|] eqn:Hf.
    + eexists _, _, row, []. rewrite (resolve_existing st u chatId row w Ht Hf).
      cbn [prisma socket ollama]. rewrite app_nil_r. eauto 10.
    + destruct (findFirst_created st "New Chat" (user_id u) None (prisma w)) as [row Hrow].
      eexists _, _, row, _. rewrite (resolve_new st u chatId w (or_intror Hf)).
      cbn [prisma socket ollama]. split_and!; eauto.
  - destruct (findFirst_created st "New Chat" (user_id u) None (prisma w)) as [row Hrow].
    eexists _, _, row, _. rewrite (resolve_new st u chatId w (or_introl Ht)).
    cbn [prisma socket ollama]. split_and!; eauto.
Qed.

Lemma open_stream_eq (g : Generated) (u : User) (data : ChatMessage) (w w0 : World)
    (cid : string) (row : ChatRow) :
  truthy_opt (content data) = true ->
  resolveOrCreateChat (new_chat g) u (chatId data) w = (w0, Ok cid) ->
  chat_findFirst cid (user_id u) (prisma w0) = Some row ->
  exists prompt,
    open_stream g (Some u) (Some data) w
    = (opened g u data cid prompt w0,
       Ok (Some {| turn_data := data; turn_chatId := cid; turn_user := u;
                   fullPrompt := prompt; responseContent := "" |})).
Proof.
  intros Hc Hres Hrow. unfold open_stream, dereference.
  unfold bind at 1, ret at 1. rewrite Hc. cbn [negb].
  unfold bind at 1. rewrite Hres.
  pose proof (findFirst_has_chat _ _ _ _ Hrow) as Hhas.
  unfold bind at 1. rewrite addMessage_ok by done.
  fold (with_user_message g u data cid (prisma w0)).
  unfold bind at 1, emit at 1, modify. cbn [prisma monitoring socket ollama].
  assert (exists row', chat_findFirst cid (user_id u)
                         (with_user_message g u data cid (prisma w0)) = Some row')
    as [row' Hrow'].
  { unfold with_user_message. rewrite message_create_ok by done. cbn [fst].
    edestruct (findFirst_touched cid (user_id u) cid (user_message_updatedAt g) row)
      as (r & Hr & _);
      [|eauto].
    exact Hrow. }
  unfold bind at 1. erewrite getChatContext_found by exact Hrow'.
  cbn [prisma monitoring socket ollama].
  eexists. unfold opened. run_monad. rewrite <- !app_assoc. reflexivity.
Qed.

Lemma open_stream_has_chat (g : Generated) (u : User) (data : ChatMessage) (cid : string)
    (db : Database) :
  has_chat cid db -> has_chat cid (with_user_message g u data cid db).
Proof.
  intros H. unfold with_user_message. apply chat_update_has_chat.
  by rewrite message_create_ok.
Qed.

Lemma with_user_message_rows (g : Generated) (u : User) (data : ChatMessage) (cid : string)
    (db : Database) :
  has_chat cid db ->
  message (with_user_message g u data cid db)
  = message db ++ [{| msg_id := (user_message g).1;
                      msg_content := default "" (content data); msg_role := USER;
                      msg_chatId := cid; msg_userId := user_id u;
                      msg_createdAt := (user_message g).2 |}].
Proof.
  intros H. unfold with_user_message.
  rewrite chat_update_message. by rewrite message_create_ok.
Qed.

Lemma with_user_message_length (g : Generated) (u : User) (data : ChatMessage)
    (cid : string) (db : Database) :
  length (chat (with_user_message g u data cid db)) = length (chat db).
Proof.
  unfold with_user_message. by rewrite chat_update_length, message_create_chat.
Qed.

Lemma for_await_eq (chunks : list string) (t : Turn) (w : World) :
  for_await chunks t w
  = ({| prisma := prisma w; monitoring := monitoring w;
        socket := socket w ++ map LlmResponseChunk chunks; ollama := ollama w |},
     Ok {| turn_data := turn_data t; turn_chatId := turn_chatId t; turn_user := turn_user t;
           fullPrompt := fullPrompt t;
           responseContent := responseContent t +:+ joined chunks |}).
Proof.
  revert t w. induction chunks as [|chunk chunks IH]; intros t w.
  - cbn. rewrite app_nil_r, app_empty_r. by destruct w, t.
  - cbn [for_await]. unfold bind at 1, on_chunk. run_monad.
    rewrite IH. cbn [prisma monitoring socket ollama turn_data turn_chatId turn_user fullPrompt
                      responseContent map joined foldr].
    rewrite <- app_assoc, app_assoc_str. reflexivity.
Qed.

Lemma on_error_eq (data : ChatMessage) (error : JsError) (w : World) :
  on_error (Some data) error w
  = ({| prisma := prisma w; monitoring := monitoring w ++ [AIResponseTime];
        socket := socket w
                    ++ [LlmTypingEnd;
                        LlmResponseError
                          [("message", FString "Failed to get AI response. Please try again.");
                           ("error", FString (err_message error))]];
        ollama := ollama w |}, Ok tt).
Proof. unfold on_error, dereference. run_monad. by rewrite <- app_assoc. Qed.

(** Without payload the [catch] block itself throws, after the metric and
    before the first event. *)
Lemma on_error_no_payload (error : JsError) (w : World) :
  on_error None error w
  = ({| prisma := prisma w; monitoring := monitoring w ++ [AIResponseTime];
        socket := socket w; ollama := ollama w |}, Throw (cannot_read "chatId")).
Proof. reflexivity. Qed.

Lemma complete_ok (g : Generated) (t : Turn) (w : World) :
  has_chat (turn_chatId t) (prisma w) ->
  complete g t w
  = ({| prisma := (chat_update (turn_chatId t) (ai_message_updatedAt g)
                     (message_create (ai_message g) (responseContent t) ASSISTANT
                        (turn_chatId t) (user_id (turn_user t)) (prisma w)).1).1;
        monitoring := monitoring w
                        ++ [DatabaseQuery "create" "messages";
                            ChatMessageTotal ASSISTANT (user_id (turn_user t));
                            AIResponseTime];
        socket := socket w
                    ++ [LlmTypingEnd;
                        LlmResponseComplete
                          {| md_id := (ai_message g).1; md_content := responseContent t;
                             md_role := ASSISTANT; md_createdAt := (ai_message g).2 |}
                          (turn_chatId t)];
        ollama := ollama w |}, Ok tt).
Proof.
  intros H. unfold complete. unfold bind at 1. rewrite addMessage_ok by done.
  run_monad. rewrite <- !app_assoc. reflexivity.
Qed.

End HandlerFacts.

Module RunFacts.
Import Prisma ChatModel ChatSocketHandler Stages StorageFacts HandlerFacts.

Lemma handle_opened (g : Generated) (model : string -> Stream) (socket_user : option User)
    (payload : option ChatMessage) (w w1 : World) (t : Turn) :
  open_stream g socket_user payload w = (w1, Ok (Some t)) ->
  handleChatWithLLM g model socket_user payload w
  = match failure (model (fullPrompt t)) with
    | Some error => on_error payload error (streamed model t w1)
    | None => try_catch (complete g (answered model t)) (on_error payload) (streamed model t w1)
    end.
Proof.
  intros Ho. unfold handleChatWithLLM.
  unfold try_catch at 1, bind at 1. rewrite Ho.
  unfold bind at 1. rewrite for_await_eq.
  fold (streamed model t w1). fold (answered model t).
  destruct (failure (model (fullPrompt t))) as [error|]; [reflexivity|].
  unfold try_catch. by destruct (complete g (answered model t) (streamed model t w1)) as [? [|]].
Qed.

Lemma handle_early (g : Generated) (model : string -> Stream) (socket_user : option User)
    (payload : option ChatMessage) (w w1 : World) :
  open_stream g socket_user payload w = (w1, Ok None) ->
  handleChatWithLLM g model socket_user payload w = (w1, Ok tt).
Proof.
  intros Ho. unfold handleChatWithLLM, try_catch, bind. by rewrite Ho.
Qed.

(** Nothing but the socket changes before the content check passes. *)
Lemma open_stream_no_user (g : Generated) (payload : option ChatMessage) (w : World) :
  open_stream g None payload w
  = ({| prisma := prisma w; monitoring := monitoring w;
        socket := socket w ++ [ErrorEvent "Authentication required"];
        ollama := ollama w |}, Ok None).
Proof. reflexivity. Qed.

Lemma open_stream_no_content (g : Generated) (u : User) (data : ChatMessage) (w : World) :
  truthy_opt (content data) = false ->
  open_stream g (Some u) (Some data) w
  = ({| prisma := prisma w; monitoring := monitoring w;
        socket := socket w ++ [ErrorEvent "Content is required"];
        ollama := ollama w |}, Ok None).
Proof.
  intros H. unfold open_stream, dereference. unfold bind at 1, ret at 1.
  rewrite H. reflexivity.
Qed.

(** Without payload, [data.content] throws and the [catch] block throws in
    turn: the metric is recorded and nothing is emitted. *)
Lemma handle_no_payload (g : Generated) (model : string -> Stream) (u : User) (w : World) :
  handleChatWithLLM g model (Some u) None w
  = ({| prisma := prisma w; monitoring := monitoring w ++ [AIResponseTime];
        socket := socket w; ollama := ollama w |}, Throw (cannot_read "chatId")).
Proof. reflexivity. Qed.

Lemma emitted_since_app (w w' : World) (evs : list Event) :
  socket w' = socket w ++ evs -> emitted_since w w' = evs.
Proof. intros H. unfold emitted_since. rewrite H. apply drop_app_length. Qed.

Lemma chunk_payloads_chunks (l : list string) : chunk_payloads (map LlmResponseChunk l) = l.
Proof. unfold chunk_payloads. induction l as [|x l IH]; [done|]. cbn. by rewrite IH. Qed.

Lemma handle_eq (g : Generated) (model : string -> Stream) (u : User) (data : ChatMessage)
    (w w0 : World) (cid : string) (row : ChatRow) :
  truthy_opt (content data) = true ->
  resolveOrCreateChat (new_chat g) u (chatId data) w = (w0, Ok cid) ->
  chat_findFirst cid (user_id u) (prisma w0) = Some row ->
  exists prompt,
    open_stream g (Some u) (Some data) w
    = (opened g u data cid prompt w0,
       Ok (Some {| turn_data := data; turn_chatId := cid; turn_user := u;
                   fullPrompt := prompt; responseContent := "" |}))
    /\ handleChatWithLLM g model (Some u) (Some data) w
       = (ended g u data cid prompt (model prompt) w0, Ok tt).
Proof.
  intros Hc Hres Hrow.
  destruct (open_stream_eq g u data w w0 cid row Hc Hres Hrow) as [prompt Ho].
  exists prompt. split; [exact Ho|]. rewrite (handle_opened _ model _ _ _ _ _ Ho).
  cbn [fullPrompt]. unfold ended, opened.
  destruct (failure (model prompt)) as [error|].
  - rewrite on_error_eq. unfold streamed.
    cbn [prisma monitoring socket ollama fullPrompt].
    rewrite <- !app_assoc. reflexivity.
  - unfold try_catch. rewrite complete_ok.
    2:{ cbn. apply open_stream_has_chat. eapply findFirst_has_chat, Hrow. }
    unfold streamed, answered.
    cbn [prisma monitoring socket ollama fullPrompt turn_chatId turn_user responseContent].
    rewrite <- !app_assoc. reflexivity.
Qed.

(** Every authenticated request with content runs to the end of its stream. *)
Lemma handle_total (g : Generated) (model : string -> Stream) (u : User)
    (data : ChatMessage) (w : World) :
  truthy_opt (content data) = true ->
  exists w0 cid row evs prompt,
    resolveOrCreateChat (new_chat g) u (chatId data) w = (w0, Ok cid)
    /\ chat_findFirst cid (user_id u) (prisma w0) = Some row
    /\ message (prisma w0) = message (prisma w)
    /\ socket w0 = socket w ++ evs
    /\ (evs = [] \/ exists chat, evs = [ChatCreated (new_chat g).1 chat])
    /\ ollama w0 = ollama w
    /\ open_stream g (Some u) (Some data) w
       = (opened g u data cid prompt w0,
          Ok (Some {| turn_data := data; turn_chatId := cid; turn_user := u;
                      fullPrompt := prompt; responseContent := "" |}))
    /\ handleChatWithLLM g model (Some u) (Some data) w
       = (ended g u data cid prompt (model prompt) w0, Ok tt).
Proof.
  intros Hc.
  destruct (resolve_total (new_chat g) u (chatId data) w)
    as (w0 & cid & row & evs & Hres & Hrow & Hmsg & Hsock & Hevs & Holl).
  destruct (handle_eq g model u data w w0 cid row Hc Hres Hrow) as (prompt & Ho & He).
  exists w0, cid, row, evs, prompt. split_and!; done.
Qed.

(** *** One request at a time

    Fed with one request, its fragments and its end, the connection of
    overlapping requests does what [handleChatWithLLM] does. *)

Lemma receive_all_app (c : Connection) (l1 l2 : list Input) (turns : list Turn) (w : World) :
  receive_all c (l1 ++ l2) turns w
  = match receive_all c l1 turns w with
    | (w', Ok turns') => receive_all c l2 turns' w'
    | (w', Throw e) => (w', Throw e)
    end.
Proof.
  revert turns w. induction l1 as [|inp l1 IH]; intros turns w; [reflexivity|].
  cbn [app receive_all]. unfold bind.
  destruct (receive c inp turns w) as [w1 [turns1|e]]; [apply IH|reflexivity].
Qed.

Lemma receive_chunks (c : Connection) (chunks : list string) (t : Turn) (w : World) :
  receive_all c (map (Chunk 0) chunks) [t] w
  = ({| prisma := prisma w; monitoring := monitoring w;
        socket := socket w ++ map LlmResponseChunk chunks; ollama := ollama w |},
     Ok [{| turn_data := turn_data t; turn_chatId := turn_chatId t; turn_user := turn_user t;
            fullPrompt := fullPrompt t;
            responseContent := responseContent t +:+ joined chunks |}]).
Proof.
  revert t w. induction chunks as [|chunk chunks IH]; intros t w.
  - cbn. rewrite app_nil_r, app_empty_r. by destruct w, t.
  - cbn [map receive_all receive lookup list_lookup]. unfold bind at 1, bind at 1, on_chunk.
    run_monad. cbn [insert list_insert]. rewrite IH.
    cbn [prisma monitoring socket ollama turn_data turn_chatId turn_user fullPrompt
           responseContent map joined foldr].
    rewrite <- app_assoc, app_assoc_str. reflexivity.
Qed.

Lemma sequential_run_is_the_handler (c : Connection) (g : Generated)
    (model : string -> Stream) (u : User) (data : ChatMessage) (w : World) :
  listening c = true ->
  user c = Some u ->
  truthy_opt (content data) = true ->
  exists prompt,
    receive_all c
      (ChatWithLlm g (Some data)
         :: map (Chunk 0) (fragments (model prompt))
         ++ [match failure (model prompt) with
             | Some error => StreamRaises 0 error
             | None => StreamEnds 0 g
             end])
      [] w
    = ((handleChatWithLLM g model (Some u) (Some data) w).1, Ok []).
Proof.
  intros Hl Hu Hc.
  destruct (handle_total g model u data w Hc)
    as (w0 & cid & row & evs & prompt & Hres & Hrow & Hmsg & Hsock & Hevs & Holl & Ho & He).
  exists prompt. rewrite He. cbn [fst].
  cbn [receive_all receive]. rewrite Hl, Hu.
  unfold bind at 1, try_catch at 1, bind at 1. rewrite Ho. cbn [ret app].
  rewrite receive_all_app, receive_chunks.
  cbn [turn_data turn_chatId turn_user fullPrompt responseContent].
  unfold ended, opened.
  destruct (failure (model prompt)) as [error|];
    cbn [receive_all receive lookup list_lookup]; unfold bind at 1, bind at 1.
  - rewrite on_error_eq. cbn [prisma monitoring socket ollama ret delete list_delete].
    rewrite <- !app_assoc. reflexivity.
  - unfold try_catch. rewrite complete_ok.
    2:{ cbn. apply open_stream_has_chat. eapply findFirst_has_chat, Hrow. }
    cbn [prisma monitoring socket ollama ret delete list_delete turn_data turn_chatId
           turn_user responseContent].
    rewrite <- !app_assoc. reflexivity.
Qed.

End RunFacts.

Import BufferedRelay RelayFacts.

(** ** The claims *)

(** The first scenario of the specification: "Hello" on a fresh connection
    without chat id.  The chat is created and announced, the fragments are
    relayed, and one user message and one assistant message are stored. *)
Example hello_on_a_fresh_connection :
  let w' := (ChatSocketHandler.handleChatWithLLM Sample.stamps Sample.answers
               (Some Sample.alice) (Some Sample.hello) Sample.empty_world).1 in
  socket w'
  = [ChatCreated "c1" {| cw_id := "c1"; cw_title := "New Chat"; cw_context := None;
                         cw_userId := "u1"; cw_createdAt := 10; cw_updatedAt := 10;
                         cw_messages := [] |};
     LlmTypingStart;
     LlmResponseChunk "Hi";
     LlmResponseChunk " there";
     LlmTypingEnd;
     LlmResponseComplete {| md_id := "m2"; md_content := "Hi there"; md_role := ASSISTANT;
                            md_createdAt := 13 |} "c1"]
  /\ prisma w'
     = {| chat := [{| chat_id := "c1"; chat_title := "New Chat"; chat_context := None;
                      chat_userId := "u1"; chat_createdAt := 10; chat_updatedAt := 14 |}];
          message := [{| msg_id := "m1"; msg_content := "Hello"; msg_role := USER;
                         msg_chatId := "c1"; msg_userId := "u1"; msg_createdAt := 11 |};
                      {| msg_id := "m2"; msg_content := "Hi there"; msg_role := ASSISTANT;
                         msg_chatId := "c1"; msg_userId := "u1"; msg_createdAt := 13 |}] |}
  /\ storage_calls w' = 4%nat.
Proof. vm_compute. split_and!; reflexivity. Qed.

(** What the relay keeps of a fragment: the content of an object that has
    one, and nothing of [undefined], of a raw string or of an object without
    content. *)
Lemma content_of_text (chunk : Fragment) :
  content_of chunk = match chunk with
                     | Obj (Some text) => text
                     | _ => ""
                     end.
Proof. destruct chunk as [|raw|[text|]]; try reflexivity. by destruct text. Qed.

(** C1: for every finite sequence of fragments, the concatenation of the
    payloads of all [llm-response-chunk] events emitted by the handler equals
    the concatenation of the fragments, in order.  For the buffered relay
    (chat.js) a fragment counts as the text of its content field, and as the
    empty string when it is undefined or has no content field; the timeouts
    may fire anywhere between the fragments, and the timeout left pending
    after the end of the stream is counted too.  For the socket handler
    (chat.ts) the chunk payloads are the very list of strings that the
    stream opened for the request yields. *)
Theorem chunks_concatenate_to_fragments :
  (forall ts : list Tick,
     joined (chunk_payloads ((run ts Ends).2 ++ (on_timeout (run ts Ends).1).2))
     = joined (map (fun fragment => match fragment with
                                    | Obj (Some text) => text
                                    | _ => ""
                                    end)
                   (arrived ts)))
  /\ (forall g model u data w,
        truthy_opt (ChatSocketHandler.content data) = true ->
        exists prompt,
          ollama (ChatSocketHandler.handleChatWithLLM g model (Some u) (Some data) w).1
          = ollama w ++ [prompt]
          /\ chunk_payloads
               (emitted_since w
                  (ChatSocketHandler.handleChatWithLLM g model (Some u) (Some data) w).1)
             = ChatSocketHandler.fragments (model prompt)).
Proof.
  split.
  - intros ts. rewrite run_ends. cbn [fst snd].
    pose proof (flushBuffer_empties (ticks ts fresh).1) as He.
    assert ((on_timeout (flushBuffer (ticks ts fresh).1).1).2 = []) as ->.
    { unfold on_timeout. destruct (timer _); [|done].
      unfold flushBuffer at 1. by rewrite He. }
    rewrite app_nil_r, app_assoc, chunk_payloads_app. cbn [chunk_payloads omap].
    rewrite app_nil_r, ends_all_flushed. f_equal.
    apply map_ext. exact content_of_text.
  - intros g model u data w Hc.
    destruct (HandlerFacts.resolve_total (ChatSocketHandler.new_chat g) u
                (ChatSocketHandler.chatId data) w)
      as (w0 & cid & row & evs & Hres & Hrow & Hmsg & Hsock & Hevs & Holl).
    destruct (HandlerFacts.open_stream_eq g u data w w0 cid row Hc Hres Hrow) as [prompt Ho].
    exists prompt. rewrite (RunFacts.handle_opened _ model _ _ _ _ _ Ho).
    cbn [ChatSocketHandler.fullPrompt].
    assert (chunk_payloads evs = []) as Hnc.
    { destruct Hevs as [->|[c ->]]; reflexivity. }
    destruct (ChatSocketHandler.failure (model prompt)) as [error|].
    + rewrite HandlerFacts.on_error_eq. cbn. split; [by rewrite Holl|].
      erewrite RunFacts.emitted_since_app.
      2:{ cbn. rewrite Hsock, <- !app_assoc. reflexivity. }
      rewrite !chunk_payloads_app, Hnc, RunFacts.chunk_payloads_chunks. cbn.
      by rewrite app_nil_r.
    + unfold try_catch. rewrite HandlerFacts.complete_ok.
      2:{ cbn. apply HandlerFacts.open_stream_has_chat.
          eapply StorageFacts.findFirst_has_chat, Hrow. }
      cbn. split; [by rewrite Holl|].
      erewrite RunFacts.emitted_since_app.
      2:{ cbn. rewrite Hsock, <- !app_assoc. reflexivity. }
      rewrite !chunk_payloads_app, Hnc, RunFacts.chunk_payloads_chunks. cbn.
      by rewrite app_nil_r.
Qed.

(** C1 at a stream of the buffered relay that spells "Hello" around three
    fragments without content, with a timeout firing in between, and at a
    request of alice ("Hello", no chat id) in an empty database. *)
Lemma chunks_concatenate_to_fragments_witness :
  joined (chunk_payloads ((run Sample.hello_ticks Ends).2
                            ++ (on_timeout (run Sample.hello_ticks Ends).1).2))
  = "Hello"
  /\ truthy_opt (ChatSocketHandler.content Sample.hello) = true
  /\ exists prompt,
       ollama (ChatSocketHandler.handleChatWithLLM Sample.stamps Sample.answers
                 (Some Sample.alice) (Some Sample.hello) Sample.empty_world).1
       = ollama Sample.empty_world ++ [prompt]
       /\ chunk_payloads
            (emitted_since Sample.empty_world
               (ChatSocketHandler.handleChatWithLLM Sample.stamps Sample.answers
                  (Some Sample.alice) (Some Sample.hello) Sample.empty_world).1)
          = ChatSocketHandler.fragments (Sample.answers prompt).
Proof.
  split; [exact (proj1 chunks_concatenate_to_fragments Sample.hello_ticks)|].
  split; [reflexivity|].
  apply (proj2 chunks_concatenate_to_fragments). reflexivity.
Defined.

(** C2, as stated, fails when the stream raises: after one fragment ["a"] and
    an error, the error signal is the only event of the run, and no chunk
    event precedes it. *)
Lemma error_signal_is_not_preceded_by_a_flush :
  ~ flushed_before_signal [Arrives (Obj (Some "a"))] (Raises Sample.boom).
Proof.
  intros (evs & signal & Hrun & Hall). cbn in Hrun.
  destruct evs as [|ev evs].
  - cbn in Hall. discriminate.
  - injection Hrun as _ Hrest. by destruct evs.
Qed.

(** C2 (amended): when the stream ends naturally the final flush comes before
    [llm-response-end]: the chunk events before the signal carry all the
    content that arrived, and the accumulator is empty.  When the stream
    raises, [llm-response-error] is emitted without a flush and the session
    is left as it was; the content still held is emitted by the pending
    timeout, after the error signal. *)
Theorem final_flush_precedes_natural_end (ts : list Tick) :
  flushed_before_signal ts Ends
  /\ (exists evs, (run ts Ends).2 = evs ++ [LlmResponseEnd])
  /\ buffer (run ts Ends).1 = ""
  /\ forall error,
       run ts (Raises error)
       = ((ticks ts fresh).1,
          (ticks ts fresh).2 ++ [LlmResponseError [("error", FError error)]])
       /\ joined (chunk_payloads ((run ts (Raises error)).2
                                   ++ (on_timeout (run ts (Raises error)).1).2))
          = joined (map content_of (arrived ts)).
Proof.
  unfold flushed_before_signal. rewrite run_ends. cbn [fst snd]. split_and!.
  - eexists _, _. rewrite app_assoc. split; [reflexivity|]. apply ends_all_flushed.
  - eexists. by rewrite app_assoc.
  - apply flushBuffer_empties.
  - intros error. rewrite run_raises. split; [reflexivity|]. cbn [fst snd].
    rewrite !chunk_payloads_app, !joined_app.
    change (joined (chunk_payloads [LlmResponseError [("error", FError error)]])) with "".
    rewrite app_empty_r.
    rewrite on_timeout_flushes by (apply ticks_armed; by left).
    pose proof (ticks_keeps ts fresh) as H. cbn [buffer fresh] in H.
    exact H.
Qed.

(** C3, as stated, fails: a second [chat-with-llm] event that arrives while the
    stream of the first is still open is not rejected.  In the buffered relay
    two callbacks are then streaming and nothing was emitted; in the socket
    handler two turns are open and the second request went through chat
    creation and [llm-typing-start]. *)




(** C4: on a chat of 21 messages written at times 1 to 21, [getChatContext]
    returns the messages of times 1 to 20 (ascending order, [take: 20]) with
    the chat's context, whereas the 20 most recent ones are those of times 2
    to 21. *)
Theorem getChatContext_takes_the_oldest_20 :
  exists ctx,
    (ChatModel.getChatContext "c1" "u1" (Sample.with_database Sample.long_chat)).2 = Ok ctx
    /\ map md_createdAt (ChatModel.ctx_messages ctx) = map Z.of_nat (seq 1 20)
    /\ map msg_createdAt
         (most_recent 20 (Prisma.orderBy_createdAt_asc (Prisma.messages_of "c1" Sample.long_chat)))
       = map Z.of_nat (seq 2 20)
    /\ ChatModel.ctx_context ctx = Some "travel".
Proof.
  eexists. split; [vm_compute; reflexivity|].
  split_and!; vm_compute; reflexivity.
Qed.

(** C5: [addMessage] of the Prisma service, called by user u2 on a chat of
    user u1, succeeds: the message row is stored on that chat and the chat's
    [updatedAt] is set. *)
Theorem addMessage_writes_to_another_users_chat :
  ChatModel.addMessage ("m9", 99%Z) 100%Z "c1" "u2" "not my chat" USER
    (Sample.with_database Sample.alices_chat)
  = ({| prisma :=
          {| chat := [{| chat_id := "c1"; chat_title := "New Chat"; chat_context := None;
                         chat_userId := "u1"; chat_createdAt := 10; chat_updatedAt := 100 |}];
             message := [{| msg_id := "m9"; msg_content := "not my chat"; msg_role := USER;
                            msg_chatId := "c1"; msg_userId := "u2"; msg_createdAt := 99 |}] |};
        monitoring := [DatabaseQuery "create" "messages"; ChatMessageTotal USER "u2"];
        socket := []; ollama := [] |},
     Ok {| md_id := "m9"; md_content := "not my chat"; md_role := USER; md_createdAt := 99 |}).
Proof. vm_compute. reflexivity. Qed.

(** The in-memory service does check the owner. *)
Lemma mem_addMessage_checks_owner (st : Stamp) (chatId userId : string)
    (role : MemChatModel.ChatRole) (content : string) (chats : gmap string MemChatModel.Chat)
    (chat : MemChatModel.Chat) :
  chats !! chatId = Some chat ->
  MemChatModel.userId chat <> userId ->
  MemChatModel.addMessage st chatId userId role content chats = (chats, None).
Proof.
  intros Hc Hu. unfold MemChatModel.addMessage, MemChatModel.getChatById.
  rewrite Hc. by rewrite bool_decide_eq_true_2.
Qed.

Lemma mem_addMessage_owner (st : Stamp) (chatId userId : string)
    (role : MemChatModel.ChatRole) (content : string) (chats : gmap string MemChatModel.Chat)
    (chat : MemChatModel.Chat) :
  chats !! chatId = Some chat ->
  MemChatModel.userId chat = userId ->
  MemChatModel.id chat = chatId ->
  exists message chat',
    MemChatModel.addMessage st chatId userId role content chats
    = (<[chatId := chat']> chats, Some message)
    /\ MemChatModel.messages chat' = MemChatModel.messages chat ++ [message]
    /\ MemChatModel.updatedAt chat' = st.2
    /\ MemChatModel.cm_content message = content.
Proof.
  intros Hc Hu Hid. unfold MemChatModel.addMessage, MemChatModel.getChatById.
  rewrite Hc. rewrite bool_decide_eq_false_2 by (by intros ?).
  cbn [MemChatModel.id]. rewrite Hid. rewrite insert_insert_eq.
  eexists _, _. split; [reflexivity|]. by cbn.
Qed.

Lemma addMessage_any_owner (st : Stamp) (now : Z) (chatId userId content : string)
    (role : Role) (w : World) :
  Stages.has_chat chatId (prisma w) ->
  exists w',
    ChatModel.addMessage st now chatId userId content role w
    = (w', Ok {| md_id := st.1; md_content := content; md_role := role; md_createdAt := st.2 |})
    /\ message (prisma w')
       = message (prisma w) ++ [{| msg_id := st.1; msg_content := content; msg_role := role;
                                   msg_chatId := chatId; msg_userId := userId;
                                   msg_createdAt := st.2 |}].
Proof.
  intros H. rewrite StorageFacts.addMessage_ok by done. eexists. split; [reflexivity|].
  cbn [prisma]. rewrite StorageFacts.chat_update_message.
  by rewrite StorageFacts.message_create_ok.
Qed.

(** C6: resolving twice with the id of an existing chat of the user returns
    that id both times, leaves the database as it was and emits nothing; a
    request whose [chatId] is absent (or empty), or names no chat of the user,
    leaves a new row titled "New Chat" owned by the user in the chat table,
    which has grown by one, and its first event is [chat-created] with that
    chat. *)
Theorem chat_resolution_reuses_or_creates :
  (forall (st1 st2 : Stamp) (u : ChatSocketHandler.User) (c : ChatRow) (w : World),
     c ∈ chat (prisma w) ->
     chat_userId c = ChatSocketHandler.user_id u ->
     truthy (chat_id c) = true ->
     exists w1 w2,
       ChatSocketHandler.resolveOrCreateChat st1 u (Some (chat_id c)) w = (w1, Ok (chat_id c))
       /\ ChatSocketHandler.resolveOrCreateChat st2 u (Some (chat_id c)) w1
          = (w2, Ok (chat_id c))
       /\ prisma w2 = prisma w
       /\ socket w2 = socket w)
  /\ (forall g model u data w,
        truthy_opt (ChatSocketHandler.content data) = true ->
        truthy_opt (ChatSocketHandler.chatId data) = false
        \/ Prisma.chat_findFirst (default "" (ChatSocketHandler.chatId data))
             (ChatSocketHandler.user_id u) (prisma w) = None ->
        let w' := (ChatSocketHandler.handleChatWithLLM g model (Some u) (Some data) w).1 in
        (exists row,
           row ∈ chat (prisma w')
           /\ chat_id row = (ChatSocketHandler.new_chat g).1
           /\ chat_title row = "New Chat"
           /\ chat_userId row = ChatSocketHandler.user_id u)
        /\ length (chat (prisma w')) = S (length (chat (prisma w)))
        /\ exists created rest,
             emitted_since w w' = ChatCreated (ChatSocketHandler.new_chat g).1 created :: rest
             /\ cw_id created = (ChatSocketHandler.new_chat g).1
             /\ cw_title created = "New Chat"
             /\ cw_userId created = ChatSocketHandler.user_id u).
Proof.
  split.
  - intros st1 st2 u c w Hin Hu Ht.
    destruct (StorageFacts.findFirst_member c _ _ Hin Hu) as [row Hrow].
    eexists _, _.
    rewrite (HandlerFacts.resolve_existing st1 u (Some (chat_id c)) row w Ht Hrow).
    split; [reflexivity|].
    erewrite (HandlerFacts.resolve_existing st2 u (Some (chat_id c)) row);
      [|exact Ht|exact Hrow].
    split; [reflexivity|]. split; reflexivity.
  - intros g model u data w Hc Hnew w'. subst w'.
    pose proof (HandlerFacts.resolve_new (ChatSocketHandler.new_chat g) u _ w Hnew) as Hres.
    destruct (StorageFacts.findFirst_created (ChatSocketHandler.new_chat g) "New Chat"
                (ChatSocketHandler.user_id u) None (prisma w)) as [row Hrow].
    edestruct (RunFacts.handle_eq g model u data w) as (prompt & _ & He);
      [done|exact Hres|exact Hrow|].
    rewrite He. cbn [fst]. clear He Hres Hrow.
    set (row0 := (Prisma.chat_create (ChatSocketHandler.new_chat g) "New Chat"
                    (ChatSocketHandler.user_id u) None (prisma w)).2).
    assert (row0 ∈ chat (Prisma.chat_create (ChatSocketHandler.new_chat g) "New Chat"
                           (ChatSocketHandler.user_id u) None (prisma w)).1) as Hin.
    { cbn. apply list_elem_of_In, in_or_app. right. by left. }
    split_and!.
    + assert (forall db, row0 ∈ chat db ->
                exists r, r ∈ chat (Stages.with_user_message g u data
                                      (ChatSocketHandler.new_chat g).1 db)
                          /\ chat_id r = chat_id row0 /\ chat_title r = chat_title row0
                          /\ chat_userId r = chat_userId row0) as Hkept.
      { intros db Hdb. unfold Stages.with_user_message.
        apply StorageFacts.chat_update_keeps.
        by rewrite StorageFacts.message_create_chat. }
      destruct (Hkept _ Hin) as (r & Hr & H1 & H2 & H3).
      unfold Stages.ended.
      destruct (ChatSocketHandler.failure (model prompt)); cbn [prisma].
      * exists r. by rewrite H1, H2, H3.
      * edestruct (StorageFacts.chat_update_keeps (ChatSocketHandler.new_chat g).1
                     (ChatSocketHandler.ai_message_updatedAt g)) as (r' & Hr' & H1' & H2' & H3').
        { rewrite StorageFacts.message_create_chat. exact Hr. }
        exists r'. split; [exact Hr'|]. by rewrite H1', H2', H3', H1, H2, H3.
    + unfold Stages.ended.
      destruct (ChatSocketHandler.failure (model prompt)); cbn [prisma];
        rewrite ?StorageFacts.chat_update_length, ?StorageFacts.message_create_chat,
          HandlerFacts.with_user_message_length;
        apply StorageFacts.chat_create_length.
    + unfold Stages.ended.
      destruct (ChatSocketHandler.failure (model prompt)); cbn [socket];
        eexists _, _;
        (split; [apply RunFacts.emitted_since_app; rewrite <- app_assoc; reflexivity | done]).
Qed.

(** C6 at alice's chat [c1], and at her request without chat id. *)
Lemma chat_resolution_reuses_or_creates_witness :
  (Sample.alices_row ∈ chat (prisma (Sample.with_database Sample.alices_chat))
   /\ chat_userId Sample.alices_row = ChatSocketHandler.user_id Sample.alice
   /\ truthy (chat_id Sample.alices_row) = true
   /\ exists w1 w2,
        ChatSocketHandler.resolveOrCreateChat ("c2", 20%Z) Sample.alice
          (Some (chat_id Sample.alices_row)) (Sample.with_database Sample.alices_chat)
        = (w1, Ok (chat_id Sample.alices_row))
        /\ ChatSocketHandler.resolveOrCreateChat ("c3", 30%Z) Sample.alice
             (Some (chat_id Sample.alices_row)) w1
           = (w2, Ok (chat_id Sample.alices_row))
        /\ prisma w2 = prisma (Sample.with_database Sample.alices_chat)
        /\ socket w2 = socket (Sample.with_database Sample.alices_chat))
  /\ (truthy_opt (ChatSocketHandler.content Sample.hello) = true
      /\ truthy_opt (ChatSocketHandler.chatId Sample.hello) = false
      /\ (exists row,
            row ∈ chat (prisma (ChatSocketHandler.handleChatWithLLM Sample.stamps
                                  Sample.answers (Some Sample.alice) (Some Sample.hello)
                                  Sample.empty_world).1)
            /\ chat_id row = (ChatSocketHandler.new_chat Sample.stamps).1
            /\ chat_title row = "New Chat"
            /\ chat_userId row = ChatSocketHandler.user_id Sample.alice)
      /\ length (chat (prisma (ChatSocketHandler.handleChatWithLLM Sample.stamps
                                 Sample.answers (Some Sample.alice) (Some Sample.hello)
                                 Sample.empty_world).1))
         = S (length (chat (prisma Sample.empty_world)))
      /\ exists created rest,
           emitted_since Sample.empty_world
             (ChatSocketHandler.handleChatWithLLM Sample.stamps Sample.answers
                (Some Sample.alice) (Some Sample.hello) Sample.empty_world).1
           = ChatCreated (ChatSocketHandler.new_chat Sample.stamps).1 created :: rest
           /\ cw_id created = (ChatSocketHandler.new_chat Sample.stamps).1
           /\ cw_title created = "New Chat"
           /\ cw_userId created = ChatSocketHandler.user_id Sample.alice).
Proof.
  split.
  - split; [apply list_elem_of_here|]. split; [reflexivity|]. split; [reflexivity|].
    apply (proj1 chat_resolution_reuses_or_creates); [apply list_elem_of_here|reflexivity..].
  - split; [reflexivity|]. split; [reflexivity|].
    apply (proj2 chat_resolution_reuses_or_creates Sample.stamps Sample.answers Sample.alice
             Sample.hello Sample.empty_world); [reflexivity|left; reflexivity].
Defined.

(** C7: when the stream raises after any number of fragments, the handler
    returns normally having emitted, after the fragments, [llm-typing-end]
    and then [llm-response-error]; the user's message is in the database
    when the stream is opened, no other message row is written, and the
    socket is not disconnected. *)
Theorem stream_error_keeps_the_prompt_and_the_connection
    (g : ChatSocketHandler.Generated) (model : string -> ChatSocketHandler.Stream)
    (u : ChatSocketHandler.User) (data : ChatSocketHandler.ChatMessage) (w : World)
    (error : JsError) :
  truthy_opt (ChatSocketHandler.content data) = true ->
  (forall prompt, ChatSocketHandler.failure (model prompt) = Some error) ->
  exists w1 t w' created,
    ChatSocketHandler.open_stream g (Some u) (Some data) w = (w1, Ok (Some t))
    /\ ChatSocketHandler.handleChatWithLLM g model (Some u) (Some data) w = (w', Ok tt)
    /\ (created = [] \/ exists chat, created = [ChatCreated (ChatSocketHandler.new_chat g).1 chat])
    /\ emitted_since w w'
       = created ++ [LlmTypingStart]
           ++ map LlmResponseChunk (ChatSocketHandler.fragments (model (ChatSocketHandler.fullPrompt t)))
           ++ [LlmTypingEnd;
               LlmResponseError
                 [("message", FString "Failed to get AI response. Please try again.");
                  ("error", FString (err_message error))]]
    /\ message (prisma w1)
       = message (prisma w)
           ++ [{| msg_id := (ChatSocketHandler.user_message g).1;
                  msg_content := default "" (ChatSocketHandler.content data);
                  msg_role := USER;
                  msg_chatId := ChatSocketHandler.turn_chatId t;
                  msg_userId := ChatSocketHandler.user_id u;
                  msg_createdAt := (ChatSocketHandler.user_message g).2 |}]
    /\ message (prisma w') = message (prisma w1)
    /\ Disconnect ∉ emitted_since w w'.
Proof.
  intros Hc Hfail.
  destruct (RunFacts.handle_total g model u data w Hc)
    as (w0 & cid & row & evs & prompt & Hres & Hrow & Hmsg & Hsock & Hevs & Holl & Ho & He).
  unfold Stages.ended in He. rewrite Hfail in He.
  eexists _, _, _, evs. split; [exact Ho|]. split; [exact He|].
  cbn [prisma socket ChatSocketHandler.fullPrompt ChatSocketHandler.turn_chatId Stages.opened].
  match goal with
  | |- context [emitted_since w ?x] =>
      assert (emitted_since w x
              = evs ++ [LlmTypingStart]
                  ++ map LlmResponseChunk (ChatSocketHandler.fragments (model prompt))
                  ++ [LlmTypingEnd;
                      LlmResponseError
                        [("message", FString "Failed to get AI response. Please try again.");
                         ("error", FString (err_message error))]]) as Hem
  end.
  { apply RunFacts.emitted_since_app. cbn [socket]. rewrite Hsock, <- !app_assoc. reflexivity. }
  split_and!.
  - exact Hevs.
  - exact Hem.
  - rewrite HandlerFacts.with_user_message_rows, Hmsg; [reflexivity|].
    eapply StorageFacts.findFirst_has_chat, Hrow.
  - reflexivity.
  - rewrite Hem. rewrite !not_elem_of_app. split_and!.
    + destruct Hevs as [->|[chat ->]]; [apply not_elem_of_nil|].
      intros Hd. apply list_elem_of_singleton in Hd. discriminate.
    + intros Hd. apply list_elem_of_singleton in Hd. discriminate.
    + intros Hd. apply list_elem_of_fmap in Hd as (x & Hx & _). discriminate.
    + intros Hd. apply list_elem_of_In in Hd. cbn in Hd. intuition discriminate.
Qed.

(** C7 at a stream that raises after two fragments. *)
Lemma stream_error_keeps_the_prompt_and_the_connection_witness :
  truthy_opt (ChatSocketHandler.content Sample.hello) = true
  /\ (forall prompt, ChatSocketHandler.failure (Sample.breaks prompt) = Some Sample.boom)
  /\ exists w1 t w' created,
       ChatSocketHandler.open_stream Sample.stamps (Some Sample.alice) (Some Sample.hello)
         Sample.empty_world = (w1, Ok (Some t))
       /\ ChatSocketHandler.handleChatWithLLM Sample.stamps Sample.breaks (Some Sample.alice)
            (Some Sample.hello) Sample.empty_world = (w', Ok tt)
       /\ (created = []
           \/ exists chat,
                created = [ChatCreated (ChatSocketHandler.new_chat Sample.stamps).1 chat])
       /\ emitted_since Sample.empty_world w'
          = created ++ [LlmTypingStart]
              ++ map LlmResponseChunk
                   (ChatSocketHandler.fragments (Sample.breaks (ChatSocketHandler.fullPrompt t)))
              ++ [LlmTypingEnd;
                  LlmResponseError
                    [("message", FString "Failed to get AI response. Please try again.");
                     ("error", FString (err_message Sample.boom))]]
       /\ message (prisma w1)
          = message (prisma Sample.empty_world)
              ++ [{| msg_id := (ChatSocketHandler.user_message Sample.stamps).1;
                     msg_content := default "" (ChatSocketHandler.content Sample.hello);
                     msg_role := USER;
                     msg_chatId := ChatSocketHandler.turn_chatId t;
                     msg_userId := ChatSocketHandler.user_id Sample.alice;
                     msg_createdAt := (ChatSocketHandler.user_message Sample.stamps).2 |}]
       /\ message (prisma w') = message (prisma w1)
       /\ Disconnect ∉ emitted_since Sample.empty_world w'.
Proof.
  split; [reflexivity|]. split; [intros prompt; reflexivity|].
  apply stream_error_keeps_the_prompt_and_the_connection; [reflexivity|].
  intros prompt. reflexivity.
Defined.

(** C8: a connection without a token, or whose token does not verify, gets
    [auth_error] and is disconnected; no identity is bound, and a
    [chat-with-llm] event on it adds no event, leaves the database as it was,
    records no storage query and opens no stream. *)
Theorem no_credential_no_relay
    (verifyToken : string -> option ChatSocketHandler.User) (h : ChatSocketHandler.Handshake)
    (g : ChatSocketHandler.Generated) (model : string -> ChatSocketHandler.Stream)
    (payload : option ChatSocketHandler.ChatMessage) (w : World) :
  truthy_opt (ChatSocketHandler.token_of h) = false
  \/ verifyToken (default "" (ChatSocketHandler.token_of h)) = None ->
  exists reason c w1 w2,
    ChatSocketHandler.handleConnection verifyToken h w = (w1, Ok c)
    /\ ChatSocketHandler.user c = None
    /\ ChatSocketHandler.chat_with_llm g model c payload w1 = (w2, Ok tt)
    /\ emitted_since w w2 = [AuthError reason; Disconnect]
    /\ prisma w2 = prisma w
    /\ storage_calls w2 = storage_calls w
    /\ ollama w2 = ollama w.
Proof.
  intros H. unfold ChatSocketHandler.handleConnection.
  destruct (truthy_opt (ChatSocketHandler.token_of h)) eqn:Ht; cbn [negb].
  - destruct H as [H|H]; [discriminate|]. rewrite H.
    eexists _, _, _, _. split; [reflexivity|]. split; [reflexivity|].
    split; [reflexivity|]. split_and!; try reflexivity.
    apply RunFacts.emitted_since_app. cbn. by rewrite <- app_assoc.
  - eexists _, _, _, _. split; [reflexivity|]. split; [reflexivity|].
    split; [reflexivity|]. split_and!; try reflexivity.
    apply RunFacts.emitted_since_app. cbn. by rewrite <- app_assoc.
Qed.

(** C8 at a handshake whose authorization header carries no token. *)
Lemma no_credential_no_relay_witness :
  (truthy_opt (ChatSocketHandler.token_of Sample.bare_handshake) = false
   \/ Sample.accept_all (default "" (ChatSocketHandler.token_of Sample.bare_handshake)) = None)
  /\ exists reason c w1 w2,
       ChatSocketHandler.handleConnection Sample.accept_all Sample.bare_handshake
         Sample.empty_world = (w1, Ok c)
       /\ ChatSocketHandler.user c = None
       /\ ChatSocketHandler.chat_with_llm Sample.stamps Sample.answers c
            (Some Sample.hello) w1
          = (w2, Ok tt)
       /\ emitted_since Sample.empty_world w2 = [AuthError reason; Disconnect]
       /\ prisma w2 = prisma Sample.empty_world
       /\ storage_calls w2 = storage_calls Sample.empty_world
       /\ ollama w2 = ollama Sample.empty_world.
Proof.
  split; [left; reflexivity|].
  apply no_credential_no_relay. left. reflexivity.
Defined.

(** C10, as stated, fails for an event that carries no payload at all, so
    that its content is absent: on alice's socket the handler emits nothing;
    [data.content] throws, the [catch] block records the response time and
    throws in turn at [data.chatId], and the handler ends with that error
    instead of returning. *)
Lemma event_without_payload_is_not_refused :
  ChatSocketHandler.handleChatWithLLM Sample.stamps Sample.answers (Some Sample.alice) None
    Sample.empty_world
  = ({| prisma := prisma Sample.empty_world; monitoring := [AIResponseTime];
        socket := []; ollama := [] |},
     Throw (ChatSocketHandler.cannot_read "chatId"))
  /\ ChatSocketHandler.handleChatWithLLM Sample.stamps Sample.answers (Some Sample.alice) None
       Sample.empty_world
     <> ({| prisma := prisma Sample.empty_world; monitoring := monitoring Sample.empty_world;
            socket := socket Sample.empty_world ++ [ErrorEvent "Content is required"];
            ollama := ollama Sample.empty_world |}, Ok tt).
Proof. split; [reflexivity|]. intros H. discriminate H. Qed.

(** C10 (amended): on an authenticated socket, a [chat-with-llm] event that
    carries a payload whose content is absent or empty emits the single
    event [error] with message "Content is required" and changes nothing
    else: no chat, no message, no storage query, no stream. *)
Theorem empty_content_is_refused
    (g : ChatSocketHandler.Generated) (model : string -> ChatSocketHandler.Stream)
    (u : ChatSocketHandler.User) (data : ChatSocketHandler.ChatMessage) (w : World) :
  truthy_opt (ChatSocketHandler.content data) = false ->
  ChatSocketHandler.handleChatWithLLM g model (Some u) (Some data) w
  = ({| prisma := prisma w; monitoring := monitoring w;
        socket := socket w ++ [ErrorEvent "Content is required"];
        ollama := ollama w |}, Ok tt).
Proof.
  intros H. apply RunFacts.handle_early. by apply RunFacts.open_stream_no_content.
Qed.

(** C10 (amended) at a request with the empty string as content. *)
Lemma empty_content_is_refused_witness :
  truthy_opt (ChatSocketHandler.content Sample.blank) = false
  /\ ChatSocketHandler.handleChatWithLLM Sample.stamps Sample.answers (Some Sample.alice)
       (Some Sample.blank) Sample.empty_world
     = ({| prisma := prisma Sample.empty_world; monitoring := monitoring Sample.empty_world;
           socket := socket Sample.empty_world ++ [ErrorEvent "Content is required"];
           ollama := ollama Sample.empty_world |}, Ok tt).
Proof.
  split; [reflexivity|]. apply empty_content_is_refused. reflexivity.
Defined.

(** The guard of the handler itself, for a socket without identity. *)
Lemma handler_without_user (g : ChatSocketHandler.Generated)
    (model : string -> ChatSocketHandler.Stream)
    (payload : option ChatSocketHandler.ChatMessage) (w : World) :
  ChatSocketHandler.handleChatWithLLM g model None payload w
  = ({| prisma := prisma w; monitoring := monitoring w;
        socket := socket w ++ [ErrorEvent "Authentication required"];
        ollama := ollama w |}, Ok tt).
Proof. apply RunFacts.handle_early, RunFacts.open_stream_no_user. Qed.

(** C9, as stated, fails for the buffered relay: the payload of its
    [llm-response-error] has no [message] field, and its [error] field is the
    caught error object, not a string. *)
Lemma relay_error_payload_is_not_two_strings :
  exists payload,
    (run [] (Raises Sample.boom)).2 = [LlmResponseError payload]
    /\ field "message" payload = None
    /\ field "error" payload = Some (FError Sample.boom)
    /\ forallb error_payload_is_two_strings (run [] (Raises Sample.boom)).2 = false.
Proof. eexists. split; [reflexivity|]. split_and!; reflexivity. Qed.

Lemma forallb_chunks (p : Event -> bool) (l : list string) :
  (forall c, p (LlmResponseChunk c) = true) -> forallb p (map LlmResponseChunk l) = true.
Proof. intros Hp. induction l as [|x l IH]; [done|]. cbn. by rewrite Hp, IH. Qed.

(** C9 (amended): every [llm-response-error] emitted by [handleChatWithLLM]
    has a [message] field holding the fixed text and an [error] field holding
    a string; the [catch] block emits [llm-typing-end] and then that event
    with the message of the caught error as [error].  The buffered relay ends
    a failed run with an [llm-response-error] whose payload is the single
    field [error] holding the caught error. *)
Theorem error_payloads_of_both_handlers :
  (forall g model socket_user payload w,
     forallb error_payload_of_strings
       (emitted_since w (ChatSocketHandler.handleChatWithLLM g model socket_user payload w).1)
     = true)
  /\ (forall data error w,
        emitted_since w (ChatSocketHandler.on_error (Some data) error w).1
        = [LlmTypingEnd;
           LlmResponseError
             [("message", FString "Failed to get AI response. Please try again.");
              ("error", FString (err_message error))]])
  /\ (forall ts error,
        (run ts (Raises error)).2
        = (ticks ts fresh).2 ++ [LlmResponseError [("error", FError error)]]).
Proof.
  split_and!.
  - intros g model [u|] [data|] w.
    2:{ rewrite RunFacts.handle_no_payload. cbn [fst].
        erewrite RunFacts.emitted_since_app by (cbn [socket]; by rewrite app_nil_r).
        reflexivity. }
    2,3: rewrite handler_without_user; cbn [fst];
         erewrite RunFacts.emitted_since_app by reflexivity; reflexivity.
    + destruct (truthy_opt (ChatSocketHandler.content data)) eqn:Hc.
      * destruct (RunFacts.handle_total g model u data w Hc)
          as (w0 & cid & row & evs & prompt & Hres & Hrow & Hmsg & Hsock & Hevs & Holl & Ho & He).
        rewrite He. cbn [fst]. unfold Stages.ended.
        assert (forallb error_payload_of_strings evs = true) as Hev.
        { destruct Hevs as [->|[chat ->]]; reflexivity. }
        destruct (ChatSocketHandler.failure (model prompt)) as [error|];
          (erewrite RunFacts.emitted_since_app;
           [|cbn [socket]; rewrite Hsock, <- !app_assoc; reflexivity]);
          rewrite !forallb_app, Hev, forallb_chunks by done; reflexivity.
      * rewrite (RunFacts.handle_early _ _ _ _ _ _ (RunFacts.open_stream_no_content g u data w Hc)).
        cbn [fst].
        erewrite RunFacts.emitted_since_app by reflexivity. reflexivity.
  - intros data error w. rewrite HandlerFacts.on_error_eq. cbn [fst].
    by apply RunFacts.emitted_since_app.
  - intros ts error. by rewrite run_raises.
Qed.


(** * Further properties *)

(** ** The buffered relay: what a client sees *)

Module RelayMore.
Import BufferedRelay RelayFacts.

Lemma truthy_app (s t : string) : truthy (s +:+ t) = truthy s || truthy t.
Proof. by destruct s. Qed.

Lemma flushBuffer_count (s : Session) :
  length (chunk_payloads (flushBuffer s).2) = pending s /\ pending (flushBuffer s).1 = 0%nat.
Proof. unfold flushBuffer, pending. by destruct (truthy (buffer s)) eqn:E; cbn; rewrite ?E. Qed.

Lemma flushBuffer_nonempty (s : Session) :
  Forall (fun c => c <> "") (chunk_payloads (flushBuffer s).2).
Proof.
  unfold flushBuffer. destruct (truthy (buffer s)) eqn:E; cbn; [|constructor].
  constructor; [|constructor]. intros H. by rewrite H in E.
Qed.

Lemma on_timeout_events (s : Session) :
  (on_timeout s).2 = if timer s then (flushBuffer s).2 else [].
Proof. unfold on_timeout. destruct (timer s); [|done]. by destruct (flushBuffer s). Qed.

Lemma on_timeout_buffer (s : Session) :
  buffer (on_timeout s).1 = if timer s then buffer (flushBuffer s).1 else buffer s.
Proof. unfold on_timeout. destruct (timer s); [|done]. by destruct (flushBuffer s). Qed.

Lemma tick_nonempty (t : Tick) (s : Session) :
  Forall (fun c => c <> "") (chunk_payloads (tick t s).2).
Proof.
  destruct t as [chunk|]; cbn; [constructor|].
  rewrite on_timeout_events. destruct (timer s); [apply flushBuffer_nonempty|constructor].
Qed.

Lemma ticks_nonempty (ts : list Tick) (s : Session) :
  Forall (fun c => c <> "") (chunk_payloads (ticks ts s).2).
Proof.
  revert s. induction ts as [|t ts IH]; intros s; [constructor|].
  cbn [ticks]. pose proof (tick_nonempty t s) as Ht.
  destruct (tick t s) as [s1 evs1]. specialize (IH s1).
  destruct (ticks ts s1) as [s2 evs2]. cbn [fst snd] in *.
  rewrite chunk_payloads_app. by apply Forall_app.
Qed.

Lemma stop_nonempty (o : Outcome) (s : Session) :
  Forall (fun c => c <> "") (chunk_payloads (stop o s).2).
Proof.
  destruct o as [|error]; cbn; [|constructor].
  unfold on_stream_end. pose proof (flushBuffer_nonempty s) as H.
  destruct (flushBuffer s) as [s' evs]. cbn [fst snd] in *.
  rewrite chunk_payloads_app. apply Forall_app. split; [done|constructor].
Qed.

Lemma run_split (ts : list Tick) (o : Outcome) :
  run ts o = ((stop o (ticks ts fresh).1).1, (ticks ts fresh).2 ++ (stop o (ticks ts fresh).1).2).
Proof. unfold run. destruct (ticks ts fresh) as [s1 evs1]. cbn. by destruct (stop o s1). Qed.

(** X1: the relay never emits a chunk event with an empty payload, whatever
    arrives, whenever the timer fires, however the stream stops, and also if
    a timeout fires after the stream has stopped. *)
Theorem relay_never_emits_an_empty_chunk (ts : list Tick) (o : Outcome) :
  Forall (fun c => c <> "")
    (chunk_payloads ((run ts o).2 ++ (on_timeout (run ts o).1).2)).
Proof.
  rewrite run_split. cbn [fst snd].
  rewrite !chunk_payloads_app. rewrite !Forall_app. split_and!.
  - apply ticks_nonempty.
  - apply stop_nonempty.
  - rewrite on_timeout_events. destruct (timer _); [apply flushBuffer_nonempty|constructor].
Qed.

(** Counting chunk events. *)
Lemma tick_counts (t : Tick) (s : Session) :
  (length (chunk_payloads (tick t s).2) + pending (tick t s).1
   <= pending s + carrying [t])%nat
  /\ (length (chunk_payloads (tick t s).2) <= timeouts [t])%nat.
Proof.
  destruct t as [chunk|]; cbn.
  - unfold on_fragment, pending, carrying. cbn.
    destruct (negb (timer s)); cbn; rewrite truthy_app;
      destruct (truthy (buffer s)), (truthy (content_of chunk)); cbn; lia.
  - rewrite on_timeout_events.
    assert (pending (on_timeout s).1 = if timer s then pending (flushBuffer s).1 else pending s)
      as ->.
    { unfold pending. rewrite on_timeout_buffer. by destruct (timer s). }
    destruct (flushBuffer_count s) as [H1 H2].
    assert (pending s <= 1)%nat by (unfold pending; destruct (truthy _); lia).
    destruct (timer s); [|change (chunk_payloads []) with (@nil string); cbn [length]]; lia.
Qed.

Lemma carrying_cons (t : Tick) (ts : list Tick) :
  carrying (t :: ts) = (carrying [t] + carrying ts)%nat.
Proof.
  unfold carrying. rewrite (arrived_cons t ts), List.filter_app, length_app. done.
Qed.

Lemma timeouts_cons (t : Tick) (ts : list Tick) :
  timeouts (t :: ts) = (timeouts [t] + timeouts ts)%nat.
Proof. unfold timeouts. cbn. by destruct t. Qed.

Lemma ticks_counts (ts : list Tick) (s : Session) :
  (length (chunk_payloads (ticks ts s).2) + pending (ticks ts s).1
   <= pending s + carrying ts)%nat
  /\ (length (chunk_payloads (ticks ts s).2) <= timeouts ts)%nat.
Proof.
  revert s. induction ts as [|t ts IH]; intros s.
  - cbn. unfold carrying, timeouts. cbn. lia.
  - cbn [ticks]. destruct (tick_counts t s) as [H1 H2].
    destruct (tick t s) as [s1 evs1]. destruct (IH s1) as [H3 H4].
    destruct (ticks ts s1) as [s2 evs2]. cbn [fst snd] in *.
    rewrite chunk_payloads_app, length_app, carrying_cons, timeouts_cons. lia.
Qed.

(** X2: fragments are coalesced: a run that ends has at most one chunk event
    per timeout that fired plus one for the final flush, and never more chunk
    events than fragments that carried content. *)
Theorem relay_coalesces (ts : list Tick) :
  (length (chunk_payloads (run ts Ends).2) <= timeouts ts + 1)%nat
  /\ (length (chunk_payloads (run ts Ends).2) <= carrying ts)%nat.
Proof.
  rewrite run_ends. cbn [snd].
  destruct (ticks_counts ts fresh) as [H1 H2].
  destruct (flushBuffer_count (ticks ts fresh).1) as [H3 _].
  rewrite app_assoc, !chunk_payloads_app, !length_app, H3.
  change (chunk_payloads [LlmResponseEnd]) with (@nil string). cbn [length].
  change (pending fresh) with 0%nat in H1.
  unfold pending in *. destruct (truthy (buffer (ticks ts fresh).1)); lia.
Qed.

Lemma burst_ticks (fs : list Fragment) (s : Session) :
  (ticks (map Arrives fs) s).2 = []
  /\ buffer (ticks (map Arrives fs) s).1 = buffer s +:+ joined (map content_of fs).
Proof.
  revert s. induction fs as [|f fs IH]; intros s.
  - cbn. by rewrite app_empty_r.
  - cbn [map ticks tick]. destruct (IH (on_fragment f s)) as [H1 H2].
    destruct (ticks (map Arrives fs) (on_fragment f s)) as [s2 evs2]. cbn [fst snd] in *.
    split; [done|]. rewrite H2. unfold on_fragment.
    destruct (negb (timer s)); cbn [buffer joined foldr map]; by rewrite app_assoc_str.
Qed.

(** X3: when no timeout fires while the stream is open, everything that
    arrived is delivered as one chunk by the final flush; a stream without
    content gives the completion signal alone. *)
Theorem relay_burst_is_one_chunk (fs : list Fragment) :
  (run (map Arrives fs) Ends).2
  = if truthy (joined (map content_of fs))
    then [LlmResponseChunk (joined (map content_of fs)); LlmResponseEnd]
    else [LlmResponseEnd].
Proof.
  rewrite run_ends. cbn [snd]. destruct (burst_ticks fs fresh) as [H1 H2].
  rewrite H1. cbn [app]. unfold flushBuffer. rewrite H2. cbn [buffer fresh].
  change ("" +:+ joined (map content_of fs)) with (joined (map content_of fs)).
  by destruct (truthy (joined (map content_of fs))).
Qed.

End RelayMore.


(** ** Ordering of rows *)

Module OrderFacts.
Import Prisma.

Section Insertion.
Context {A : Type} (key : A -> Z).

Lemma insert_sorted_perm (before : A -> A -> bool) (m : A) (l : list A) :
  Permutation (insert_sorted before m l) (m :: l).
Proof.
  induction l as [|x l IH]; [done|]. cbn.
  destruct (before m x); [done|]. rewrite IH. apply perm_swap.
Qed.

Lemma sort_by_perm_acc (before : A -> A -> bool) (l acc : list A) :
  Permutation (fold_left (fun acc m => insert_sorted before m acc) l acc) (acc ++ l).
Proof.
  revert acc. induction l as [|x l IH]; intros acc; cbn.
  - by rewrite app_nil_r.
  - rewrite IH, insert_sorted_perm. cbn. apply Permutation_middle.
Qed.

Lemma sort_by_perm (before : A -> A -> bool) (l : list A) : Permutation (sort_by before l) l.
Proof. unfold sort_by. by rewrite sort_by_perm_acc. Qed.

Lemma insert_asc_sorted (m : A) (l : list A) :
  StronglySorted (fun a b => (key a <= key b)%Z) l ->
  StronglySorted (fun a b => (key a <= key b)%Z) (insert_sorted (asc key) m l).
Proof.
  induction 1 as [|x l Hs IH Hx]; cbn; [repeat constructor|].
  unfold asc at 1. destruct (Z.ltb_spec (key m) (key x)).
  - constructor; [by constructor|]. constructor; [lia|].
    eapply Forall_impl; [exact Hx|]. cbn. intros; lia.
  - constructor; [exact IH|].
    rewrite (insert_sorted_perm (asc key) m l). constructor; [lia|exact Hx].
Qed.

Lemma insert_desc_sorted (m : A) (l : list A) :
  StronglySorted (fun a b => (key b <= key a)%Z) l ->
  StronglySorted (fun a b => (key b <= key a)%Z) (insert_sorted (desc key) m l).
Proof.
  induction 1 as [|x l Hs IH Hx]; cbn; [repeat constructor|].
  unfold desc at 1. destruct (Z.ltb_spec (key x) (key m)).
  - constructor; [by constructor|]. constructor; [lia|].
    eapply Forall_impl; [exact Hx|]. cbn. intros; lia.
  - constructor; [exact IH|].
    rewrite (insert_sorted_perm (desc key) m l). constructor; [lia|exact Hx].
Qed.

Lemma sort_asc_sorted (l : list A) :
  StronglySorted (fun a b => (key a <= key b)%Z) (sort_by (asc key) l).
Proof.
  unfold sort_by.
  assert (forall acc, StronglySorted (fun a b => (key a <= key b)%Z) acc ->
            StronglySorted (fun a b => (key a <= key b)%Z)
              (fold_left (fun acc m => insert_sorted (asc key) m acc) l acc)) as H.
  { induction l as [|x l IH]; intros acc Hacc; [done|]. cbn. apply IH.
    by apply insert_asc_sorted. }
  apply H. constructor.
Qed.

Lemma sort_desc_sorted (l : list A) :
  StronglySorted (fun a b => (key b <= key a)%Z) (sort_by (desc key) l).
Proof.
  unfold sort_by.
  assert (forall acc, StronglySorted (fun a b => (key b <= key a)%Z) acc ->
            StronglySorted (fun a b => (key b <= key a)%Z)
              (fold_left (fun acc m => insert_sorted (desc key) m acc) l acc)) as H.
  { induction l as [|x l IH]; intros acc Hacc; [done|]. cbn. apply IH.
    by apply insert_desc_sorted. }
  apply H. constructor.
Qed.

(** A row that is not before any other goes to the end. *)
Lemma insert_asc_last (m : A) (l : list A) :
  Forall (fun x => (key x <= key m)%Z) l -> insert_sorted (asc key) m l = l ++ [m].
Proof.
  induction 1 as [|x l Hx Hl IH]; [done|]. cbn. unfold asc at 1.
  destruct (Z.ltb_spec (key m) (key x)); [lia|]. by rewrite IH.
Qed.

Lemma sort_asc_snoc (m : A) (l : list A) :
  Forall (fun x => (key x <= key m)%Z) l -> sort_by (asc key) (l ++ [m]) = sort_by (asc key) l ++ [m].
Proof.
  intros H. unfold sort_by. rewrite fold_left_app. cbn.
  apply insert_asc_last. fold (sort_by (asc key) l).
  rewrite (sort_by_perm (asc key) l). exact H.
Qed.

End Insertion.

Lemma orderBy_createdAt_asc_eq (l : list MessageRow) :
  orderBy_createdAt_asc l = sort_by (asc msg_createdAt) l.
Proof.
  unfold orderBy_createdAt_asc, sort_by. generalize (@nil MessageRow) as acc.
  induction l as [|x l IH]; intros acc; [done|]. cbn. rewrite <- IH. f_equal.
  clear. induction acc as [|y acc IH]; [done|]. cbn. unfold asc at 1. by rewrite IH.
Qed.

Lemma orderBy_createdAt_desc_eq (l : list MessageRow) :
  orderBy_createdAt_desc l = sort_by (desc msg_createdAt) l.
Proof.
  unfold orderBy_createdAt_desc, sort_by. generalize (@nil MessageRow) as acc.
  induction l as [|x l IH]; intros acc; [done|]. cbn. rewrite <- IH. f_equal.
  clear. induction acc as [|y acc IH]; [done|]. cbn. unfold desc at 1. by rewrite IH.
Qed.

Lemma orderBy_updatedAt_desc_eq (l : list ChatRow) :
  orderBy_updatedAt_desc l = sort_by (desc chat_updatedAt) l.
Proof.
  unfold orderBy_updatedAt_desc, sort_by. generalize (@nil ChatRow) as acc.
  induction l as [|x l IH]; intros acc; [done|]. cbn. rewrite <- IH. f_equal.
  clear. induction acc as [|y acc IH]; [done|]. cbn. unfold desc at 1. by rewrite IH.
Qed.

End OrderFacts.


(** ** The storage service: the other methods *)

Module StorageMore.
Import Prisma ChatModel Stages StorageFacts OrderFacts.

Lemma getUserChats_eq (userId : string) (w : World) :
  getUserChats userId w
  = ({| prisma := prisma w; monitoring := monitoring w ++ [DatabaseQuery "findMany" "chats"];
        socket := socket w; ollama := ollama w |},
     Ok (map (fun c => mapToChatWithMessages c.1 c.2) (chat_findMany userId (prisma w)))).
Proof. unfold getUserChats. run_monad. reflexivity. Qed.

Lemma updateChatTitle_eq (sch : Schema) (now : Z) (chatId userId title : string) (w : World) :
  updateChatTitle sch now chatId userId title w
  = ({| prisma := (chat_updateMany sch now chatId userId (set_title title) (prisma w)).1;
        monitoring := monitoring w ++ [DatabaseQuery "update" "chats"];
        socket := socket w; ollama := ollama w |}, Ok tt).
Proof. unfold updateChatTitle. run_monad. reflexivity. Qed.

Lemma updateChatContext_eq (sch : Schema) (now : Z) (chatId userId context : string)
    (w : World) :
  updateChatContext sch now chatId userId context w
  = ({| prisma := (chat_updateMany sch now chatId userId (set_context context) (prisma w)).1;
        monitoring := monitoring w ++ [DatabaseQuery "update" "chats"];
        socket := socket w; ollama := ollama w |}, Ok tt).
Proof. unfold updateChatContext. run_monad. reflexivity. Qed.

Lemma deleteChat_eq (sch : Schema) (chatId userId : string) (w : World) :
  deleteChat sch chatId userId w
  = ({| prisma := (chat_deleteMany sch chatId userId (prisma w)).1;
        monitoring := monitoring w ++ [DatabaseQuery "delete" "chats"];
        socket := socket w; ollama := ollama w |},
     (chat_deleteMany sch chatId userId (prisma w)).2).
Proof.
  unfold deleteChat. run_monad.
  destruct (chat_deleteMany sch chatId userId (prisma w)) as [db [[]|e]]; reflexivity.
Qed.

Lemma matches_spec (chatId userId : string) (c : ChatRow) :
  matches chatId userId c = true <-> chat_id c = chatId /\ chat_userId c = userId.
Proof.
  unfold matches. rewrite andb_true_iff, !bool_decide_eq_true. done.
Qed.

Lemma findFirst_find (chatId userId : string) (db : Database) :
  chat_findFirst chatId userId db = find (matches chatId userId) (chat db).
Proof. reflexivity. Qed.

Lemma StronglySorted_map {A B} (f : A -> B) (R : B -> B -> Prop) (l : list A) :
  StronglySorted (fun a b => R (f a) (f b)) l -> StronglySorted R (map f l).
Proof.
  induction 1 as [|x l Hs IH Hx]; cbn; constructor; [done|].
  apply Forall_forall. intros y Hy. apply list_elem_of_In, in_map_iff in Hy as (z & <- & Hz).
  rewrite Forall_forall in Hx. by apply Hx, list_elem_of_In.
Qed.

(** X4: [getChatById] changes nothing but the metrics; what it returns is a
    chat with the id and the owner asked for, its messages all those of the
    chat, oldest first; it returns null only when no such chat exists.
    [getChatContext] then throws and leaves the database as it was. *)
Theorem reads_disclose_only_the_callers_chat (chatId userId : string) (w : World) :
  (exists r,
     getChatById chatId userId w
     = ({| prisma := prisma w; monitoring := monitoring w ++ [DatabaseQuery "find" "chats"];
           socket := socket w; ollama := ollama w |}, Ok r)
     /\ match r with
        | Some found =>
            cw_id found = chatId
            /\ cw_userId found = userId
            /\ StronglySorted (fun a b => (md_createdAt a <= md_createdAt b)%Z)
                 (cw_messages found)
            /\ Permutation (cw_messages found)
                 (map mapToMessageData (messages_of chatId (prisma w)))
        | None =>
            forall row, row ∈ chat (prisma w) ->
                        ~ (chat_id row = chatId /\ chat_userId row = userId)
        end)
  /\ ((forall row, row ∈ chat (prisma w) ->
                   ~ (chat_id row = chatId /\ chat_userId row = userId)) ->
      exists w', getChatContext chatId userId w = (w', Throw chat_not_found)
                 /\ prisma w' = prisma w).
Proof.
  split.
  - rewrite getChatById_eq. eexists. split; [reflexivity|].
    destruct (chat_findFirst chatId userId (prisma w)) as [row|] eqn:E; cbn [option_map].
    + apply findFirst_Some in E as (Hin & Hid & Hu).
      cbn [cw_id cw_userId cw_messages mapToChatWithMessages]. rewrite Hid.
      split; [done|]. split; [done|]. split.
      * apply StronglySorted_map. rewrite orderBy_createdAt_asc_eq.
        apply (sort_asc_sorted msg_createdAt).
      * apply Permutation_map. rewrite orderBy_createdAt_asc_eq. apply sort_by_perm.
    + by apply findFirst_None.
  - intros Hnone. unfold getChatContext. run_monad.
    destruct (chat_findFirst chatId userId (prisma w)) as [row|] eqn:E.
    + exfalso. apply findFirst_Some in E as (Hin & Hid & Hu). by apply (Hnone row).
    + cbn. eexists. split; reflexivity.
Qed.

Lemma updateMany_lookup (sch : Schema) (now : Z) (chatId userId : string)
    (data : ChatRow -> ChatRow) (db : Database) (i : nat) (c : ChatRow) :
  chat db !! i = Some c ->
  chat (chat_updateMany sch now chatId userId data db).1 !! i
  = Some (if matches chatId userId c
          then (if chat_updatedAt_auto sch then touch now (data c) else data c)
          else c).
Proof.
  intros H. cbn [chat_updateMany fst chat].
  change (map ?f ?l) with (f <$> l). by rewrite list_lookup_fmap, H.
Qed.

(** X5: [updateChatTitle] and [updateChatContext] always succeed; they
    change no message, keep every row at its place, leave every chat that is
    not the caller's with the given id as it was, and on the others set the
    title or the context and keep id, owner and creation time. *)
Theorem updates_change_only_the_callers_chat (sch : Schema) (now : Z)
    (chatId userId text : string) (w : World) :
  (exists w',
     updateChatTitle sch now chatId userId text w = (w', Ok tt)
     /\ message (prisma w') = message (prisma w)
     /\ length (chat (prisma w')) = length (chat (prisma w))
     /\ forall i c, chat (prisma w) !! i = Some c ->
          if matches chatId userId c
          then exists c', chat (prisma w') !! i = Some c'
                          /\ chat_title c' = text
                          /\ chat_id c' = chat_id c /\ chat_userId c' = chat_userId c
                          /\ chat_context c' = chat_context c
                          /\ chat_createdAt c' = chat_createdAt c
          else chat (prisma w') !! i = Some c)
  /\ (exists w',
        updateChatContext sch now chatId userId text w = (w', Ok tt)
        /\ message (prisma w') = message (prisma w)
        /\ length (chat (prisma w')) = length (chat (prisma w))
        /\ forall i c, chat (prisma w) !! i = Some c ->
             if matches chatId userId c
             then exists c', chat (prisma w') !! i = Some c'
                             /\ chat_context c' = Some text
                             /\ chat_id c' = chat_id c /\ chat_userId c' = chat_userId c
                             /\ chat_title c' = chat_title c
                             /\ chat_createdAt c' = chat_createdAt c
             else chat (prisma w') !! i = Some c).
Proof.
  split.
  - rewrite updateChatTitle_eq. eexists. split; [reflexivity|]. cbn [prisma].
    split; [reflexivity|]. split; [cbn; apply length_map|].
    intros i c Hc. rewrite (updateMany_lookup _ _ _ _ _ _ _ _ Hc).
    destruct (matches chatId userId c); [|done].
    eexists. split; [reflexivity|]. by destruct (chat_updatedAt_auto sch).
  - rewrite updateChatContext_eq. eexists. split; [reflexivity|]. cbn [prisma].
    split; [reflexivity|]. split; [cbn; apply length_map|].
    intros i c Hc. rewrite (updateMany_lookup _ _ _ _ _ _ _ _ Hc).
    destruct (matches chatId userId c); [|done].
    eexists. split; [reflexivity|]. by destruct (chat_updatedAt_auto sch).
Qed.

Lemma deleteMany_chat (sch : Schema) (chatId userId : string) (db : Database) :
  chat (chat_deleteMany sch chatId userId db).1
  = match (chat_deleteMany sch chatId userId db).2 with
    | Ok _ => List.filter (fun c => negb (matches chatId userId c)) (chat db)
    | Throw _ => chat db
    end.
Proof.
  unfold chat_deleteMany. destruct (message_chat_onDelete sch); [done|].
  by destruct (existsb _ _).
Qed.

Lemma refers_to_matching (chatId userId : string) (db : Database) (m : MessageRow) :
  refers_to (List.filter (matches chatId userId) (chat db)) m = true -> msg_chatId m = chatId.
Proof.
  unfold refers_to. intros H. apply existsb_exists in H as (c & Hc & He).
  apply filter_In in Hc as [_ Hm]. apply matches_spec in Hm as [Hid _].
  apply bool_decide_eq_true in He. congruence.
Qed.

(** X6: [deleteChat] keeps every chat that is not the caller's with the
    given id and every message of another chat, and adds no row, whatever the
    schema says about messages of a deleted chat. *)
Theorem deleteChat_removes_only_the_callers_chat (sch : Schema) (chatId userId : string)
    (w : World) :
  (forall c, c ∈ chat (prisma w) -> matches chatId userId c = false ->
             c ∈ chat (prisma (deleteChat sch chatId userId w).1))
  /\ (forall m, m ∈ message (prisma w) -> msg_chatId m <> chatId ->
                m ∈ message (prisma (deleteChat sch chatId userId w).1))
  /\ (forall c, c ∈ chat (prisma (deleteChat sch chatId userId w).1) -> c ∈ chat (prisma w))
  /\ (forall m, m ∈ message (prisma (deleteChat sch chatId userId w).1) ->
                m ∈ message (prisma w)).
Proof.
  rewrite deleteChat_eq. cbn [fst prisma]. split_and!.
  - intros c Hin Hm. rewrite deleteMany_chat.
    destruct (chat_deleteMany sch chatId userId (prisma w)).2; [|done].
    apply list_elem_of_In, filter_In. split; [by apply list_elem_of_In|]. by rewrite Hm.
  - intros m Hin Hm. unfold chat_deleteMany.
    destruct (message_chat_onDelete sch); [|by destruct (existsb _ _)].
    cbn [fst message]. apply list_elem_of_In, filter_In. split; [by apply list_elem_of_In|].
    destruct (refers_to _ m) eqn:E; [|done]. by apply refers_to_matching in E.
  - intros c. rewrite deleteMany_chat.
    destruct (chat_deleteMany sch chatId userId (prisma w)).2; [|done].
    rewrite !list_elem_of_In, filter_In. tauto.
  - intros m. unfold chat_deleteMany.
    destruct (message_chat_onDelete sch); [|by destruct (existsb _ _)].
    cbn [fst message]. rewrite !list_elem_of_In, filter_In. tauto.
Qed.

(** X7: after a [deleteChat] that succeeded, [getChatById] returns null for
    that chat and user, and [getChatContext] throws. *)
Theorem deleted_chat_is_gone (sch : Schema) (chatId userId : string) (w w' : World) :
  deleteChat sch chatId userId w = (w', Ok tt) ->
  (getChatById chatId userId w').2 = Ok None
  /\ (getChatContext chatId userId w').2 = Throw chat_not_found.
Proof.
  rewrite deleteChat_eq. intros H. injection H as Hw Hr. subst w'.
  assert (chat_findFirst chatId userId (chat_deleteMany sch chatId userId (prisma w)).1 = None)
    as Hnone.
  { unfold chat_findFirst. fold (matches chatId userId).
    destruct (find _ _) as [c|] eqn:E; [|done]. exfalso.
    apply find_some in E as [Hin Hm]. rewrite deleteMany_chat, Hr in Hin.
    apply filter_In in Hin as [_ Hn]. by rewrite Hm in Hn. }
  split.
  - rewrite getChatById_eq. cbn [snd prisma]. by rewrite Hnone.
  - unfold getChatContext. run_monad. by rewrite Hnone.
Qed.

Lemma find_app_none {A} (p : A -> bool) (l1 l2 : list A) :
  find p l1 = None -> find p (l1 ++ l2) = find p l2.
Proof.
  induction l1 as [|x l1 IH]; [done|]. cbn. destruct (p x); [discriminate|]. exact IH.
Qed.

Lemma find_none_iff {A} (p : A -> bool) (l : list A) :
  (forall x, In x l -> p x = false) -> find p l = None.
Proof.
  intros H. destruct (find p l) as [x|] eqn:E; [|done].
  apply find_some in E as [Hin Hp]. by rewrite (H x Hin) in Hp.
Qed.

Lemma messages_of_none (chatId : string) (db : Database) :
  (forall m, m ∈ message db -> msg_chatId m <> chatId) -> messages_of chatId db = [].
Proof.
  unfold messages_of. intros H. induction (message db) as [|m l IH]; [done|].
  rewrite filter_cons. destruct (decide (msg_chatId m = chatId)) as [E|E].
  - exfalso. eapply H; [apply list_elem_of_here|exact E].
  - apply IH. intros m' Hm'. apply H. by apply list_elem_of_further.
Qed.

(** X8: a chat created under an id that no row uses is returned with the
    title, context and owner given and no message; [getChatById] then gives
    the same value to the owner, and null to every other user. *)
Theorem created_chat_is_read_back (st : Stamp) (data : CreateChatData) (w : World) :
  (forall c, c ∈ chat (prisma w) -> chat_id c <> st.1) ->
  (forall m, m ∈ message (prisma w) -> msg_chatId m <> st.1) ->
  exists w1 created,
    createChat st data w = (w1, Ok created)
    /\ created
       = {| cw_id := st.1; cw_title := cc_title data; cw_context := cc_context data;
            cw_userId := cc_userId data; cw_createdAt := st.2; cw_updatedAt := st.2;
            cw_messages := [] |}
    /\ (getChatById st.1 (cc_userId data) w1).2 = Ok (Some created)
    /\ forall other, other <> cc_userId data -> (getChatById st.1 other w1).2 = Ok None.
Proof.
  intros Hfresh Hmsg. rewrite createChat_eq. eexists _, _. split; [reflexivity|].
  assert (messages_of st.1
            (chat_create st (cc_title data) (cc_userId data) (cc_context data) (prisma w)).1
          = []) as Hno.
  { apply messages_of_none. exact Hmsg. }
  assert (find (matches st.1 (cc_userId data)) (chat (prisma w)) = None) as Hnone.
  { apply find_none_iff. intros c Hc. apply list_elem_of_In in Hc.
    apply not_true_is_false. intros Hm. apply matches_spec in Hm as [Hid _].
    by apply (Hfresh c). }
  split; [|split].
  - rewrite Hno. reflexivity.
  - rewrite getChatById_eq. cbn [snd prisma].
    rewrite findFirst_find. cbn [chat_create fst chat].
    rewrite find_app_none by exact Hnone. cbn [find].
    assert (matches st.1 (cc_userId data)
              {| chat_id := st.1; chat_title := cc_title data; chat_context := cc_context data;
                 chat_userId := cc_userId data; chat_createdAt := st.2;
                 chat_updatedAt := st.2 |} = true) as ->.
    { apply matches_spec. done. }
    cbn [option_map chat_id]. reflexivity.
  - intros other Hother. rewrite getChatById_eq. cbn [snd prisma].
    rewrite findFirst_find. cbn [chat_create fst chat].
    rewrite find_none_iff; [done|].
    intros c Hc. apply not_true_is_false. intros Hm. apply matches_spec in Hm as [Hid Hu].
    apply in_app_or in Hc as [Hc|[<-|[]]].
    + apply (Hfresh c); [by apply list_elem_of_In|done].
    + cbn in Hu. congruence.
Qed.

(** The newest message of a list, as [take: 1] after [createdAt: 'desc'] gives it. *)
Lemma newest_first (l : list MessageRow) :
  match take 1 (orderBy_createdAt_desc l) with
  | [] => l = []
  | [m] => m ∈ l /\ forall x, x ∈ l -> (msg_createdAt x <= msg_createdAt m)%Z
  | _ => False
  end.
Proof.
  rewrite orderBy_createdAt_desc_eq.
  pose proof (sort_by_perm (desc msg_createdAt) l) as Hp.
  pose proof (sort_desc_sorted msg_createdAt l) as Hs.
  destruct (sort_by (desc msg_createdAt) l) as [|m rest]; cbn.
  - by apply Permutation_nil.
  - split.
    + rewrite <- Hp. apply list_elem_of_here.
    + intros x Hx. rewrite <- Hp in Hx. apply StronglySorted_inv in Hs as [_ Hall].
      apply elem_of_cons in Hx as [->|Hx]; [lia|].
      rewrite Forall_forall in Hall. by apply Hall.
Qed.

(** X9: [getUserChats] changes nothing but the metrics and lists exactly
    the chats of the user, latest update first, each with at most one
    message, which is a latest message of that chat; a chat is shown without
    a message only when it has none. *)
Theorem getUserChats_lists_the_users_chats (userId : string) (w : World) :
  exists chats,
    getUserChats userId w
    = ({| prisma := prisma w; monitoring := monitoring w ++ [DatabaseQuery "findMany" "chats"];
          socket := socket w; ollama := ollama w |}, Ok chats)
    /\ Permutation (map cw_id chats)
         (map chat_id
            (List.filter (fun c => bool_decide (chat_userId c = userId)) (chat (prisma w))))
    /\ Forall (fun found => cw_userId found = userId) chats
    /\ StronglySorted (fun a b => (cw_updatedAt b <= cw_updatedAt a)%Z) chats
    /\ Forall (fun found =>
                 match cw_messages found with
                 | [] => messages_of (cw_id found) (prisma w) = []
                 | [shown] =>
                     (exists m, m ∈ messages_of (cw_id found) (prisma w)
                                /\ shown = mapToMessageData m)
                     /\ forall m, m ∈ messages_of (cw_id found) (prisma w) ->
                                  (msg_createdAt m <= md_createdAt shown)%Z
                 | _ => False
                 end) chats.
Proof.
  rewrite getUserChats_eq.
  set (mine := List.filter (fun c => bool_decide (chat_userId c = userId)) (chat (prisma w))).
  assert (map (fun c => mapToChatWithMessages c.1 c.2) (chat_findMany userId (prisma w))
          = map (fun c => mapToChatWithMessages c
                            (take 1 (orderBy_createdAt_desc (messages_of (chat_id c) (prisma w)))))
              (sort_by (desc chat_updatedAt) mine)) as ->.
  { unfold chat_findMany. rewrite List.map_map, orderBy_updatedAt_desc_eq. reflexivity. }
  eexists. split; [reflexivity|].
  pose proof (sort_by_perm (desc chat_updatedAt) mine) as Hp.
  split_and!.
  - rewrite List.map_map. cbn [cw_id mapToChatWithMessages]. by apply Permutation_map.
  - apply Forall_forall. intros found Hf.
    apply list_elem_of_In, in_map_iff in Hf as (c & <- & Hc).
    cbn [cw_userId mapToChatWithMessages].
    apply list_elem_of_In in Hc. rewrite Hp in Hc. apply list_elem_of_In in Hc.
    apply filter_In in Hc as [_ Hu]. by apply bool_decide_eq_true in Hu.
  - apply StronglySorted_map. cbn [cw_updatedAt mapToChatWithMessages].
    apply (sort_desc_sorted chat_updatedAt).
  - apply Forall_forall. intros found Hf.
    apply list_elem_of_In, in_map_iff in Hf as (c & <- & Hc).
    cbn [cw_messages cw_id mapToChatWithMessages].
    pose proof (newest_first (messages_of (chat_id c) (prisma w))) as Hn.
    destruct (take 1 _) as [|m [|m' rest]]; cbn [map]; [done| |done].
    destruct Hn as [Hin Hmax]. split; [eauto|]. exact Hmax.
Qed.

Lemma chat_update_chat (chatId : string) (now : Z) (db : Database) :
  has_chat chatId db ->
  chat (chat_update chatId now db).1
  = map (fun c => if bool_decide (chat_id c = chatId) then touch now c else c) (chat db).
Proof.
  intros H. unfold chat_update, has_chat in *.
  rewrite bool_decide_eq_true_2 by exact H. reflexivity.
Qed.

Lemma findFirst_bumped (chatId userId : string) (now : Z) (row : ChatRow) (db : Database) :
  chat_findFirst chatId userId db = Some row ->
  chat_findFirst chatId userId (chat_update chatId now db).1 = Some (touch now row).
Proof.
  intros H. pose proof (findFirst_has_chat _ _ _ _ H) as Hhas.
  pose proof (findFirst_Some _ _ _ _ H) as (_ & Hid & _).
  unfold chat_findFirst in *. rewrite chat_update_chat by done.
  rewrite find_map.
  - rewrite H. cbn. by rewrite bool_decide_eq_true_2.
  - intros c. destruct (bool_decide (chat_id c = chatId)) eqn:E; cbn; by rewrite ?E.
Qed.

(** The database after [addMessage] on an existing chat. *)
Lemma addMessage_database (st : Stamp) (now : Z) (chatId userId content : string)
    (role : Role) (w : World) :
  has_chat chatId (prisma w) ->
  prisma (addMessage st now chatId userId content role w).1
  = {| chat := map (fun c => if bool_decide (chat_id c = chatId) then touch now c else c)
                   (chat (prisma w));
       message := message (prisma w)
                    ++ [{| msg_id := st.1; msg_content := content; msg_role := role;
                           msg_chatId := chatId; msg_userId := userId;
                           msg_createdAt := st.2 |}] |}.
Proof.
  intros H. rewrite addMessage_ok by done. cbn [fst prisma].
  rewrite message_create_ok by done. cbn [fst].
  unfold chat_update. cbn [chat message]. unfold has_chat in H.
  by rewrite bool_decide_eq_true_2.
Qed.

(** X10: a message added to the caller's chat with a creation time later
    than that of the messages the chat has is read back by [getChatById] as
    the last one, after the messages read before, with the id and creation
    time the database gave it; the chat read back differs from the one read
    before only in that and in its update time, which is the time
    [addMessage] read from the server's clock, whatever that reading is. *)
Theorem added_message_is_read_back_last (st : Stamp) (now : Z)
    (chatId userId content : string) (role : Role) (row : ChatRow) (w : World) :
  chat_findFirst chatId userId (prisma w) = Some row ->
  (forall m, m ∈ messages_of chatId (prisma w) -> (msg_createdAt m < st.2)%Z) ->
  exists w' earlier,
    addMessage st now chatId userId content role w
    = (w', Ok {| md_id := st.1; md_content := content; md_role := role;
                 md_createdAt := st.2 |})
    /\ (getChatById chatId userId w).2
       = Ok (Some {| cw_id := chatId; cw_title := chat_title row;
                     cw_context := chat_context row; cw_userId := userId;
                     cw_createdAt := chat_createdAt row;
                     cw_updatedAt := chat_updatedAt row;
                     cw_messages := earlier |})
    /\ (getChatById chatId userId w').2
       = Ok (Some {| cw_id := chatId; cw_title := chat_title row;
                     cw_context := chat_context row; cw_userId := userId;
                     cw_createdAt := chat_createdAt row;
                     cw_updatedAt := now;
                     cw_messages := earlier ++ [{| md_id := st.1; md_content := content;
                                                   md_role := role;
                                                   md_createdAt := st.2 |}] |}).
Proof.
  intros Hrow Hmax.
  pose proof (findFirst_has_chat _ _ _ _ Hrow) as Hhas.
  pose proof (findFirst_Some _ _ _ _ Hrow) as (_ & Hid & Hu).
  rewrite addMessage_ok by done.
  eexists _, _. split; [reflexivity|]. split.
  - rewrite getChatById_eq, Hrow. cbn [snd option_map]. unfold mapToChatWithMessages.
    rewrite Hid, Hu. reflexivity.
  - rewrite getChatById_eq. cbn [snd prisma].
    set (db' := (chat_update chatId now
                   (message_create st content role chatId userId (prisma w)).1).1).
    assert (chat_findFirst chatId userId db' = Some (touch now row)) as Hf.
    { subst db'. rewrite message_create_ok by done. cbn [fst].
      apply findFirst_bumped. exact Hrow. }
    assert (messages_of chatId db'
            = messages_of chatId (prisma w)
                ++ [{| msg_id := st.1; msg_content := content; msg_role := role;
                       msg_chatId := chatId; msg_userId := userId;
                       msg_createdAt := st.2 |}]) as Hm.
    { unfold messages_of. subst db'.
      rewrite chat_update_message, message_create_ok by done. cbn [fst message].
      rewrite filter_app, filter_cons, decide_True by done. reflexivity. }
    rewrite Hf. cbn [option_map touch chat_id]. rewrite Hid, Hm.
    rewrite !orderBy_createdAt_asc_eq, (sort_asc_snoc msg_createdAt).
    + unfold mapToChatWithMessages.
      cbn [touch chat_id chat_title chat_context chat_userId chat_createdAt chat_updatedAt].
      rewrite Hid, Hu, map_app. reflexivity.
    + apply Forall_forall. intros m Hin. specialize (Hmax m Hin). cbn. lia.
Qed.

(** X11: after [addMessage] on the caller's chat, at a time later than every
    update so far, [getUserChats] of the owner starts with that chat. *)
Theorem added_message_moves_chat_to_top (st : Stamp) (now : Z)
    (chatId userId content : string) (role : Role) (row : ChatRow) (w : World) :
  chat_findFirst chatId userId (prisma w) = Some row ->
  (forall c, c ∈ chat (prisma w) -> (chat_updatedAt c < now)%Z) ->
  exists first rest,
    (getUserChats userId (addMessage st now chatId userId content role w).1).2
    = Ok (first :: rest)
    /\ cw_id first = chatId
    /\ cw_userId first = userId
    /\ cw_updatedAt first = now.
Proof.
  intros Hrow Hold.
  pose proof (findFirst_has_chat _ _ _ _ Hrow) as Hhas.
  pose proof (findFirst_Some _ _ _ _ Hrow) as (Hin & Hid & Hu).
  rewrite getUserChats_eq. cbn [snd prisma].
  rewrite (addMessage_database st now chatId userId content role w Hhas).
  unfold chat_findMany. cbn [chat]. rewrite orderBy_updatedAt_desc_eq.
  set (bump := fun c => if bool_decide (chat_id c = chatId) then touch now c else c).
  set (mine := List.filter (fun c => bool_decide (chat_userId c = userId))
                 (map bump (chat (prisma w)))).
  pose proof (sort_by_perm (desc chat_updatedAt) mine) as Hp.
  pose proof (sort_desc_sorted chat_updatedAt mine) as Hs.
  assert (touch now row ∈ mine) as Hmine.
  { apply list_elem_of_In, filter_In. split.
    - apply in_map_iff. exists row. split; [|by apply list_elem_of_In].
      unfold bump. by rewrite bool_decide_eq_true_2.
    - cbn. by apply bool_decide_eq_true. }
  rewrite <- Hp in Hmine.
  destruct (sort_by (desc chat_updatedAt) mine) as [|h rest] eqn:E.
  { by apply elem_of_nil in Hmine. }
  cbn [map]. eexists _, _. split; [reflexivity|].
  cbn [cw_id cw_userId cw_updatedAt mapToChatWithMessages fst].
  assert (now <= chat_updatedAt h)%Z as Hh.
  { apply StronglySorted_inv in Hs as [_ Hall]. rewrite Forall_forall in Hall.
    apply elem_of_cons in Hmine as [<-|Hm]; [cbn; lia|]. by apply (Hall _ Hm). }
  assert (h ∈ mine) as Hhm by (rewrite <- Hp; apply list_elem_of_here).
  apply list_elem_of_In, filter_In in Hhm as [Hhm Hhu].
  apply bool_decide_eq_true in Hhu.
  apply in_map_iff in Hhm as (c & Hc & Hcin). apply list_elem_of_In in Hcin.
  unfold bump in Hc. destruct (bool_decide (chat_id c = chatId)) eqn:Ec.
  - apply bool_decide_eq_true in Ec. subst h. cbn in *. done.
  - subst h. specialize (Hold c Hcin). lia.
Qed.

End StorageMore.


(** ** The in-memory storage service *)

Module MemFacts.
Import MemChatModel.

Lemma getChatById_Some (chatId userId : string) (chats : gmap string Chat) (chat : Chat) :
  getChatById chatId userId chats = Some chat
  <-> chats !! chatId = Some chat /\ MemChatModel.userId chat = userId.
Proof.
  unfold getChatById. destruct (chats !! chatId) as [c|].
  - case_bool_decide as Hu; split.
    + discriminate.
    + intros [Hc Hown]. injection Hc as ->. by destruct Hu.
    + intros Hc. by injection Hc as ->.
    + by intros [-> _].
  - split; [discriminate|]. by intros [? _].
Qed.

Lemma getChatById_None (chatId userId : string) (chats : gmap string Chat) :
  getChatById chatId userId chats = None
  <-> forall chat, chats !! chatId = Some chat -> MemChatModel.userId chat <> userId.
Proof.
  unfold getChatById. destruct (chats !! chatId) as [c|].
  - case_bool_decide as Hu; split.
    + intros _ chat Hc. by injection Hc as <-.
    + done.
    + discriminate.
    + intros H. by destruct (H c eq_refl).
  - split; [|done]. intros _ chat Hc. discriminate.
Qed.

(** A write of a changed copy of the chat found under [chatId]. *)
Lemma store_keyed (chatId : string) (chat chat' : Chat) (chats : gmap string Chat) :
  keyed chats -> chats !! chatId = Some chat -> id chat' = id chat ->
  <[id chat' := chat']> (<[chatId := chat']> chats) = <[chatId := chat']> chats
  /\ keyed (<[chatId := chat']> chats).
Proof.
  intros Hk Hc Hid. pose proof (Hk _ _ Hc) as Hkey. split.
  - rewrite Hid, Hkey. apply insert_insert_eq.
  - intros k c Hl. destruct (decide (k = chatId)) as [->|Hne].
    + rewrite lookup_insert_eq in Hl. injection Hl as <-. congruence.
    + rewrite lookup_insert_ne in Hl by done. by apply Hk.
Qed.

Lemma addMessage_keyed (st : Stamp) (chatId userId text : string) (role : ChatRole)
    (chats : gmap string Chat) :
  keyed chats -> keyed (addMessage st chatId userId role text chats).1.
Proof.
  intros Hk. unfold addMessage.
  destruct (getChatById chatId userId chats) as [chat|] eqn:E; [|done].
  apply getChatById_Some in E as [Hc _]. cbn [fst].
  edestruct (store_keyed chatId chat) as [-> H]; [exact Hk|exact Hc| |exact H]. done.
Qed.

(** X12: every operation of the in-memory service that writes keeps each
    chat stored under its own id. *)
Theorem operations_keep_chats_keyed (st : Stamp) (chatId userId text : string)
    (role : ChatRole) (context : option string) (chats : gmap string Chat) :
  keyed chats ->
  keyed (createChat st userId text context chats).1
  /\ keyed (addMessage st chatId userId role text chats).1
  /\ keyed (updateChatTitle st.2 chatId userId text chats).1
  /\ keyed (updateChatContext st.2 chatId userId text chats).1
  /\ keyed (deleteChat chatId userId chats).1.
Proof.
  intros Hk. split_and!.
  - intros key found Hl. cbn in Hl. destruct (decide (key = st.1)) as [->|Hne].
    + rewrite lookup_insert_eq in Hl. by injection Hl as <-.
    + rewrite lookup_insert_ne in Hl by done. by apply Hk.
  - by apply addMessage_keyed.
  - unfold updateChatTitle.
    destruct (getChatById chatId userId chats) as [chat|] eqn:E; [|done].
    apply getChatById_Some in E as [Hc _]. cbn [fst].
    edestruct (store_keyed chatId chat) as [-> H]; [exact Hk|exact Hc| |exact H]. done.
  - unfold updateChatContext.
    destruct (getChatById chatId userId chats) as [chat|] eqn:E; [|done].
    apply getChatById_Some in E as [Hc _]. cbn [fst].
    edestruct (store_keyed chatId chat) as [-> H]; [exact Hk|exact Hc| |exact H]. done.
  - unfold deleteChat. destruct (getChatById chatId userId chats); [|done].
    cbn [fst]. intros key found Hl. apply lookup_delete_Some in Hl as [_ Hl]. by apply Hk.
Qed.

(** X13: in the in-memory service a chat of another user is left as it is by
    [addMessage], [updateChatTitle], [updateChatContext] and [deleteChat],
    whatever id the caller gives; [getChatById] returns null for it and
    [getChatContext] the empty string. *)
Theorem other_users_chats_are_untouched (st : Stamp) (chatId userId text : string)
    (role : ChatRole) (chats : gmap string Chat) (k : string) (theirs : Chat) :
  keyed chats ->
  chats !! k = Some theirs ->
  MemChatModel.userId theirs <> userId ->
  (addMessage st chatId userId role text chats).1 !! k = Some theirs
  /\ (updateChatTitle st.2 chatId userId text chats).1 !! k = Some theirs
  /\ (updateChatContext st.2 chatId userId text chats).1 !! k = Some theirs
  /\ (deleteChat chatId userId chats).1 !! k = Some theirs
  /\ getChatById k userId chats = None
  /\ getChatContext k userId chats = "".
Proof.
  intros Hk Hl Hu.
  assert (forall chat, getChatById chatId userId chats = Some chat -> k <> chatId) as Hne.
  { intros chat E ->. apply getChatById_Some in E as [Hc Hown]. congruence. }
  assert (getChatById k userId chats = None) as Hnone.
  { apply getChatById_None. intros chat Hc. congruence. }
  split_and!.
  - unfold addMessage. destruct (getChatById chatId userId chats) as [chat|] eqn:E; [|done].
    specialize (Hne _ eq_refl). pose proof E as E'. apply getChatById_Some in E' as [Hc _].
    cbn [fst]. edestruct (store_keyed chatId chat) as [-> _]; [exact Hk|exact Hc|done|].
    by rewrite lookup_insert_ne.
  - unfold updateChatTitle.
    destruct (getChatById chatId userId chats) as [chat|] eqn:E; [|done].
    specialize (Hne _ eq_refl). pose proof E as E'. apply getChatById_Some in E' as [Hc _].
    cbn [fst]. edestruct (store_keyed chatId chat) as [-> _]; [exact Hk|exact Hc|done|].
    by rewrite lookup_insert_ne.
  - unfold updateChatContext.
    destruct (getChatById chatId userId chats) as [chat|] eqn:E; [|done].
    specialize (Hne _ eq_refl). pose proof E as E'. apply getChatById_Some in E' as [Hc _].
    cbn [fst]. edestruct (store_keyed chatId chat) as [-> _]; [exact Hk|exact Hc|done|].
    by rewrite lookup_insert_ne.
  - unfold deleteChat. destruct (getChatById chatId userId chats) as [chat|] eqn:E; [|done].
    specialize (Hne _ eq_refl). cbn [fst]. by rewrite lookup_delete_ne.
  - exact Hnone.
  - unfold getChatContext. by rewrite Hnone.
Qed.

(** X14: a chat created under an id not in use is read back by its owner and
    by nobody else; no other chat changes; its context string is the context
    given, or empty. *)
Theorem mem_created_chat_is_read_back (st : Stamp) (userId title : string)
    (context : option string) (chats : gmap string Chat) :
  chats !! st.1 = None ->
  getChatById st.1 userId (createChat st userId title context chats).1
  = Some (createChat st userId title context chats).2
  /\ (forall other, other <> userId ->
        getChatById st.1 other (createChat st userId title context chats).1 = None)
  /\ (forall k, k <> st.1 ->
        (createChat st userId title context chats).1 !! k = chats !! k)
  /\ getChatContext st.1 userId (createChat st userId title context chats).1
     = or_else context "".
Proof.
  intros Hfresh. cbn [createChat fst snd id]. split_and!.
  - unfold getChatById. rewrite lookup_insert_eq. cbn.
    by rewrite bool_decide_eq_false_2 by (by intros ?).
  - intros other Ho. unfold getChatById. rewrite lookup_insert_eq. cbn.
    by rewrite bool_decide_eq_true_2 by congruence.
  - intros k Hk. by rewrite lookup_insert_ne.
  - unfold getChatContext, getChatById. rewrite lookup_insert_eq. cbn.
    by rewrite bool_decide_eq_false_2 by (by intros ?).
Qed.

Lemma addMessage_owner (st : Stamp) (chatId userId : string) (role : ChatRole)
    (content : string) (chat : Chat) (chats : gmap string Chat) :
  keyed chats ->
  getChatById chatId userId chats = Some chat ->
  addMessage st chatId userId role content chats
  = (<[chatId := {| id := id chat; userId := MemChatModel.userId chat; title := title chat;
                    messages := messages chat
                                  ++ [{| cm_id := st.1; cm_role := role; cm_content := content;
                                         cm_timestamp := st.2; cm_userId := userId |}];
                    createdAt := createdAt chat; updatedAt := st.2;
                    context := context chat |}]> chats,
     Some {| cm_id := st.1; cm_role := role; cm_content := content;
             cm_timestamp := st.2; cm_userId := userId |}).
Proof.
  intros Hk E. pose proof E as E0. apply getChatById_Some in E0 as [Hc _].
  unfold addMessage. rewrite E. cbn [id]. rewrite (Hk _ _ Hc). by rewrite insert_insert_eq.
Qed.

(** X15: two calls of [addMessage] by the owner append their two messages to
    the chat in the order of the calls, set its update time to that of the
    second, and change nothing else of the chat and no other chat. *)
Theorem mem_messages_are_appended (st1 st2 : Stamp) (chatId userId : string)
    (role1 role2 : ChatRole) (content1 content2 : string) (chat : Chat)
    (chats : gmap string Chat) :
  keyed chats ->
  getChatById chatId userId chats = Some chat ->
  exists m1 m2 chats1 chats2 chat2,
    addMessage st1 chatId userId role1 content1 chats = (chats1, Some m1)
    /\ addMessage st2 chatId userId role2 content2 chats1 = (chats2, Some m2)
    /\ cm_content m1 = content1 /\ cm_role m1 = role1
    /\ cm_content m2 = content2 /\ cm_role m2 = role2
    /\ getChatById chatId userId chats2 = Some chat2
    /\ messages chat2 = messages chat ++ [m1; m2]
    /\ updatedAt chat2 = st2.2
    /\ title chat2 = title chat /\ context chat2 = context chat
    /\ createdAt chat2 = createdAt chat
    /\ forall k, k <> chatId -> chats2 !! k = chats !! k.
Proof.
  intros Hk E. pose proof E as E0. apply getChatById_Some in E0 as [Hc Hu].
  pose proof (addMessage_owner st1 chatId userId role1 content1 chat chats Hk E) as H1.
  pose proof (addMessage_keyed st1 chatId userId content1 role1 chats Hk) as Hk1.
  rewrite H1 in Hk1. cbn [fst] in Hk1.
  match type of H1 with _ = (<[chatId := ?c]> chats, _) => set (chat1 := c) in * end.
  assert (getChatById chatId userId (<[chatId := chat1]> chats) = Some chat1) as E1.
  { apply getChatById_Some. by rewrite lookup_insert_eq. }
  pose proof (addMessage_owner st2 chatId userId role2 content2 chat1 _ Hk1 E1) as H2.
  rewrite insert_insert_eq in H2.
  eexists _, _, _, _, _. split; [exact H1|]. split; [exact H2|].
  do 4 (split; [reflexivity|]).
  split; [apply getChatById_Some; rewrite lookup_insert_eq; split; [reflexivity|exact Hu]|].
  split; [cbn; by rewrite <- app_assoc|].
  do 4 (split; [reflexivity|]).
  intros k Hne. by rewrite lookup_insert_ne.
Qed.

(** X16: [deleteChat] by the owner removes the chat and no other; afterwards
    every operation on that id reports that there is no such chat and leaves
    the map as it is. *)
Theorem mem_deleted_chat_is_gone (st : Stamp) (chatId userId text : string)
    (role : ChatRole) (chat : Chat) (chats : gmap string Chat) :
  getChatById chatId userId chats = Some chat ->
  exists chats',
    deleteChat chatId userId chats = (chats', true)
    /\ chats' !! chatId = None
    /\ (forall k, k <> chatId -> chats' !! k = chats !! k)
    /\ (forall anyone, getChatById chatId anyone chats' = None)
    /\ addMessage st chatId userId role text chats' = (chats', None)
    /\ updateChatTitle st.2 chatId userId text chats' = (chats', false)
    /\ deleteChat chatId userId chats' = (chats', false)
    /\ getChatContext chatId userId chats' = "".
Proof.
  intros E. unfold deleteChat at 1. rewrite E. eexists. split; [reflexivity|].
  assert (forall anyone, getChatById chatId anyone (delete chatId chats) = None) as Hnone.
  { intros anyone. unfold getChatById. by rewrite lookup_delete_eq. }
  split_and!.
  - apply lookup_delete_eq.
  - intros k Hk. by rewrite lookup_delete_ne.
  - exact Hnone.
  - unfold addMessage. by rewrite Hnone.
  - unfold updateChatTitle. by rewrite Hnone.
  - unfold deleteChat. by rewrite Hnone.
  - unfold getChatContext. by rewrite Hnone.
Qed.

Lemma slice_last_app {A} (older recent : list A) (n : nat) :
  length recent = n -> slice_last n (older ++ recent) = recent.
Proof.
  intros H. unfold slice_last. rewrite length_app, H.
  replace (length older + n - n)%nat with (length older) by lia.
  apply drop_app_length.
Qed.

Lemma slice_last_short {A} (l : list A) (n : nat) :
  (length l <= n)%nat -> slice_last n l = l.
Proof. intros H. unfold slice_last. by replace (length l - n)%nat with 0%nat by lia. Qed.

Lemma getChatContext_own (chatId userId : string) (chat : Chat) (chats : gmap string Chat) :
  MemChatModel.userId chat = userId ->
  getChatContext chatId userId (<[chatId := chat]> chats)
  = if (0 <? length (slice_last 10 (messages chat)))%nat
    then or_else (context chat) "" +:+ line_break +:+ line_break +:+ "Recent conversation:"
           +:+ line_break
           +:+ String.concat line_break
                 (map (fun msg => role_name (cm_role msg) +:+ ": " +:+ cm_content msg)
                      (slice_last 10 (messages chat)))
    else or_else (context chat) "".
Proof.
  intros Hu. unfold getChatContext, getChatById. rewrite lookup_insert_eq.
  by rewrite bool_decide_eq_false_2 by (by intros ?).
Qed.

(** X17: the context string of a chat depends on its last ten messages only:
    messages older than those can be dropped without changing it. *)
Theorem mem_context_uses_last_ten (chatId userId : string) (chat : Chat)
    (older recent : list ChatMessage) (chats : gmap string Chat) :
  MemChatModel.userId chat = userId ->
  length recent = 10%nat ->
  getChatContext chatId userId (<[chatId := with_messages chat (older ++ recent)]> chats)
  = getChatContext chatId userId (<[chatId := with_messages chat recent]> chats).
Proof.
  intros Hu Hlen. rewrite !getChatContext_own by exact Hu.
  change (messages (with_messages chat (older ++ recent))) with (older ++ recent).
  change (messages (with_messages chat recent)) with recent.
  rewrite slice_last_app by done. by rewrite slice_last_short by lia.
Qed.

End MemFacts.


(** ** The socket handler: whole requests *)

Module HandlerMore.
Import Prisma ChatModel ChatSocketHandler Stages StorageFacts HandlerFacts RunFacts StorageMore.

Lemma findFirst_same_chats (chatId userId : string) (db1 db2 : Database) :
  chat db1 = chat db2 -> chat_findFirst chatId userId db1 = chat_findFirst chatId userId db2.
Proof. unfold chat_findFirst. by intros ->. Qed.

Lemma findFirst_after_addMessage (chatId userId : string) (st : Stamp) (now : Z)
    (content : string) (role : Role) (cid uid : string) (row : ChatRow) (db : Database) :
  chat_findFirst chatId userId db = Some row ->
  exists row',
    chat_findFirst chatId userId
      (chat_update cid now (message_create st content role cid uid db).1).1 = Some row'.
Proof.
  intros H.
  edestruct (findFirst_touched chatId userId cid now row
               (message_create st content role cid uid db).1) as (r & Hr & _); [|eauto].
  rewrite <- H. apply findFirst_same_chats, message_create_chat.
Qed.

(** The rows written by a run whose stream ends. *)
Lemma ended_messages (g : Generated) (u : User) (data : ChatMessage) (cid prompt : string)
    (str : Stream) (w0 : World) :
  failure str = None ->
  has_chat cid (prisma w0) ->
  message (prisma (ended g u data cid prompt str w0))
  = message (prisma w0)
      ++ [{| msg_id := (user_message g).1; msg_content := default "" (content data);
             msg_role := USER; msg_chatId := cid; msg_userId := user_id u;
             msg_createdAt := (user_message g).2 |};
          {| msg_id := (ai_message g).1; msg_content := joined (fragments str);
             msg_role := ASSISTANT; msg_chatId := cid; msg_userId := user_id u;
             msg_createdAt := (ai_message g).2 |}].
Proof.
  intros Hf Hhas. unfold ended. rewrite Hf. cbn [prisma].
  rewrite chat_update_message, message_create_ok by by apply open_stream_has_chat.
  cbn [fst message]. rewrite with_user_message_rows by done. by rewrite <- app_assoc.
Qed.

Lemma ended_chats (g : Generated) (u : User) (data : ChatMessage) (cid prompt : string)
    (str : Stream) (w0 : World) (row : ChatRow) :
  chat_findFirst cid (user_id u) (prisma w0) = Some row ->
  length (chat (prisma (ended g u data cid prompt str w0))) = length (chat (prisma w0))
  /\ exists row', chat_findFirst cid (user_id u) (prisma (ended g u data cid prompt str w0))
                  = Some row'.
Proof.
  intros Hrow. unfold ended.
  destruct (findFirst_after_addMessage cid (user_id u) (user_message g)
              (user_message_updatedAt g) (default "" (content data)) USER cid (user_id u)
              row (prisma w0) Hrow)
    as [row1 Hrow1].
  fold (with_user_message g u data cid (prisma w0)) in Hrow1.
  destruct (failure str); cbn [prisma].
  - split; [apply with_user_message_length|eauto].
  - split.
    + by rewrite chat_update_length, message_create_chat, with_user_message_length.
    + eapply findFirst_after_addMessage, Hrow1.
Qed.

Lemma ended_socket (g : Generated) (u : User) (data : ChatMessage) (cid prompt : string)
    (str : Stream) (w0 : World) :
  failure str = None ->
  socket (ended g u data cid prompt str w0)
  = socket w0 ++ [LlmTypingStart] ++ map LlmResponseChunk (fragments str)
      ++ [LlmTypingEnd;
          LlmResponseComplete
            {| md_id := (ai_message g).1; md_content := joined (fragments str);
               md_role := ASSISTANT; md_createdAt := (ai_message g).2 |} cid].
Proof. intros Hf. unfold ended. by rewrite Hf. Qed.

(** X18: for an authenticated request with content whose stream ends, the
    handler returns normally after one call of the model; the events are an
    optional chat-created, typing-start, one chunk per fragment, typing-end
    and the completion; the completion carries, and the database stores as
    the assistant's message after the user's, the concatenation of the
    chunks that were emitted. *)
Theorem completed_answer_is_what_was_streamed (g : Generated) (model : string -> Stream)
    (u : User) (data : ChatMessage) (w : World) :
  truthy_opt (content data) = true ->
  (forall prompt, failure (model prompt) = None) ->
  exists w' created prompt cid,
    handleChatWithLLM g model (Some u) (Some data) w = (w', Ok tt)
    /\ ollama w' = ollama w ++ [prompt]
    /\ (created = [] \/ exists chat, created = [ChatCreated (new_chat g).1 chat])
    /\ emitted_since w w'
       = created ++ [LlmTypingStart] ++ map LlmResponseChunk (fragments (model prompt))
           ++ [LlmTypingEnd;
               LlmResponseComplete
                 {| md_id := (ai_message g).1;
                    md_content := joined (chunk_payloads (emitted_since w w'));
                    md_role := ASSISTANT; md_createdAt := (ai_message g).2 |} cid]
    /\ message (prisma w')
       = message (prisma w)
           ++ [{| msg_id := (user_message g).1; msg_content := default "" (content data);
                  msg_role := USER; msg_chatId := cid; msg_userId := user_id u;
                  msg_createdAt := (user_message g).2 |};
               {| msg_id := (ai_message g).1;
                  msg_content := joined (chunk_payloads (emitted_since w w'));
                  msg_role := ASSISTANT; msg_chatId := cid; msg_userId := user_id u;
                  msg_createdAt := (ai_message g).2 |}].
Proof.
  intros Hc Hends.
  destruct (handle_total g model u data w Hc)
    as (w0 & cid & row & evs & prompt & Hres & Hrow & Hmsg & Hsock & Hevs & Holl & Ho & He).
  exists (ended g u data cid prompt (model prompt) w0), evs, prompt, cid.
  assert (emitted_since w (ended g u data cid prompt (model prompt) w0)
          = evs ++ [LlmTypingStart] ++ map LlmResponseChunk (fragments (model prompt))
              ++ [LlmTypingEnd;
                  LlmResponseComplete
                    {| md_id := (ai_message g).1;
                       md_content := joined (fragments (model prompt));
                       md_role := ASSISTANT; md_createdAt := (ai_message g).2 |} cid]) as Hem.
  { apply emitted_since_app. rewrite ended_socket by done.
    by rewrite Hsock, <- !app_assoc. }
  assert (chunk_payloads (emitted_since w (ended g u data cid prompt (model prompt) w0))
          = fragments (model prompt)) as Hchunks.
  { rewrite Hem, !chunk_payloads_app, chunk_payloads_chunks.
    destruct Hevs as [->|[chat ->]]; cbn; by rewrite app_nil_r. }
  split; [exact He|]. split.
  { unfold ended. rewrite Hends. cbn [ollama]. by rewrite Holl. }
  split; [exact Hevs|]. rewrite Hchunks. split; [exact Hem|].
  rewrite ended_messages, Hmsg; [reflexivity|done|].
  eapply findFirst_has_chat, Hrow.
Qed.

(** The prompt of a request that opens a chat of its own. *)
Lemma open_stream_new_chat (g : Generated) (u : User) (data : ChatMessage) (w : World) :
  truthy_opt (content data) = true ->
  truthy_opt (chatId data) = false ->
  (forall c, c ∈ chat (prisma w) -> chat_id c <> (new_chat g).1) ->
  (forall m, m ∈ message (prisma w) -> msg_chatId m <> (new_chat g).1) ->
  exists w1 t,
    open_stream g (Some u) (Some data) w = (w1, Ok (Some t))
    /\ fullPrompt t
       = buildContextPrompt
           {| ctx_messages := [{| md_id := (user_message g).1;
                                  md_content := default "" (content data);
                                  md_role := USER; md_createdAt := (user_message g).2 |}];
              ctx_context := None |}
           (context data)
           +:+ nl +:+ nl +:+ "User: " +:+ default "" (content data)
           +:+ nl +:+ nl +:+ "Assistant:".
Proof.
  intros Hc Hid Hfresh Hmsgs.
  set (cid := (new_chat g).1).
  set (row := {| chat_id := cid; chat_title := "New Chat"; chat_context := None;
                 chat_userId := user_id u; chat_createdAt := (new_chat g).2;
                 chat_updatedAt := (new_chat g).2 |}).
  set (db0 := {| chat := chat (prisma w) ++ [row]; message := message (prisma w) |}).
  assert (chat_findFirst cid (user_id u) db0 = Some row) as Hrow.
  { rewrite findFirst_find. subst db0. cbn [chat].
    rewrite find_app_none.
    - cbn [find].
      assert (matches cid (user_id u) row = true) as ->; [by apply matches_spec|done].
    - apply find_none_iff. intros c Hin. apply list_elem_of_In in Hin.
      apply not_true_is_false. intros Hm. apply matches_spec in Hm as [E _].
      by apply (Hfresh c). }
  pose proof (findFirst_has_chat _ _ _ _ Hrow) as Hhas.
  unfold open_stream, dereference. unfold bind at 1, ret at 1. rewrite Hc. cbn [negb].
  unfold bind at 1. rewrite (resolve_new (new_chat g) u (chatId data) w (or_introl Hid)).
  change (chat_create (new_chat g) "New Chat" (user_id u) None (prisma w)).1 with db0.
  change (new_chat g).1 with cid.
  unfold bind at 1. rewrite addMessage_ok by exact Hhas.
  cbn [prisma]. fold (with_user_message g u data cid db0).
  unfold bind at 1, emit at 1, modify. cbn [prisma monitoring socket ollama].
  assert (chat_findFirst cid (user_id u) (with_user_message g u data cid db0)
          = Some (touch (user_message_updatedAt g) row)) as Hrow'.
  { unfold with_user_message. rewrite message_create_ok by done. cbn [fst].
    apply findFirst_bumped. exact Hrow. }
  assert (messages_of cid (with_user_message g u data cid db0)
          = [{| msg_id := (user_message g).1; msg_content := default "" (content data);
                msg_role := USER; msg_chatId := cid; msg_userId := user_id u;
                msg_createdAt := (user_message g).2 |}]) as Hm.
  { unfold messages_of. rewrite with_user_message_rows by done.
    rewrite filter_app, filter_cons, decide_True by done.
    fold (messages_of cid db0). rewrite messages_of_none; [done|].
    subst db0. exact Hmsgs. }
  unfold bind at 1. erewrite getChatContext_found by exact Hrow'.
  change (chat_id (touch (user_message_updatedAt g) row)) with cid.
  change (chat_context (touch (user_message_updatedAt g) row)) with (@None string).
  cbn [prisma]. rewrite Hm.
  eexists _, _. split; [reflexivity|]. reflexivity.
Qed.

(** X19: on a request without chat id the history read for the prompt
    already holds the user's new message, so the prompt sent to the model
    carries the message twice: once as the one line under
    "Previous conversation:" and once as the final "User:" line.  The prompt
    is the fixed opening, the additional context of the request when it has
    one, that history and the closing lines. *)
Theorem new_chat_prompt_repeats_the_message (g : Generated) (model : string -> Stream)
    (u : User) (data : ChatMessage) (w : World) :
  truthy_opt (content data) = true ->
  truthy_opt (chatId data) = false ->
  (forall c, c ∈ chat (prisma w) -> chat_id c <> (new_chat g).1) ->
  (forall m, m ∈ message (prisma w) -> msg_chatId m <> (new_chat g).1) ->
  ollama (handleChatWithLLM g model (Some u) (Some data) w).1
  = ollama w
      ++ ["You are a helpful AI assistant. Provide clear, accurate, and helpful responses."
            +:+ (if truthy_opt (context data)
                 then nl +:+ nl +:+ "Additional context: " +:+ default "" (context data)
                 else "")
            +:+ nl +:+ nl +:+ "Previous conversation:" +:+ nl
            +:+ "User: " +:+ default "" (content data) +:+ nl
            +:+ nl +:+ nl +:+ "User: " +:+ default "" (content data)
            +:+ nl +:+ nl +:+ "Assistant:"].
Proof.
  intros Hc Hid Hfresh Hmsgs.
  destruct (open_stream_new_chat g u data w Hc Hid Hfresh Hmsgs) as (w1 & t & Ho & Hp).
  destruct (handle_total g model u data w Hc)
    as (w0 & cid & row & evs & prompt & Hres & Hrow & Hmsg & Hsock & Hevs & Holl & Ho' & He).
  rewrite Ho in Ho'. injection Ho' as Hw1 Ht. subst t. cbn [fullPrompt] in Hp.
  rewrite He. cbn [fst]. unfold ended.
  assert (prompt
          = "You are a helpful AI assistant. Provide clear, accurate, and helpful responses."
              +:+ (if truthy_opt (context data)
                   then nl +:+ nl +:+ "Additional context: " +:+ default "" (context data)
                   else "")
              +:+ nl +:+ nl +:+ "Previous conversation:" +:+ nl
              +:+ "User: " +:+ default "" (content data) +:+ nl
              +:+ nl +:+ nl +:+ "User: " +:+ default "" (content data)
              +:+ nl +:+ nl +:+ "Assistant:") as ->.
  { rewrite Hp. unfold buildContextPrompt.
    cbn [ctx_context ctx_messages truthy_opt fold_left md_role md_content role_label].
    destruct (truthy_opt (context data)); rewrite !app_assoc_str; reflexivity. }
  destruct (failure (model _)); cbn [ollama]; by rewrite Holl.
Qed.

(** X20: a request without chat id followed by a request that names the chat
    the first one created: both complete, one chat is created in all, the
    second emits no chat-created event and completes on the same chat, and
    the four messages are stored on that chat in the order user, assistant,
    user, assistant. *)
Theorem second_request_continues_the_chat (g1 g2 : Generated)
    (model1 model2 : string -> Stream) (u : User) (data1 data2 : ChatMessage) (w : World) :
  truthy_opt (content data1) = true ->
  truthy_opt (content data2) = true ->
  truthy_opt (chatId data1) = false ->
  chatId data2 = Some (new_chat g1).1 ->
  truthy (new_chat g1).1 = true ->
  (forall prompt, failure (model1 prompt) = None) ->
  (forall prompt, failure (model2 prompt) = None) ->
  exists w1 w2 prompt1 prompt2,
    handleChatWithLLM g1 model1 (Some u) (Some data1) w = (w1, Ok tt)
    /\ handleChatWithLLM g2 model2 (Some u) (Some data2) w1 = (w2, Ok tt)
    /\ length (chat (prisma w2)) = S (length (chat (prisma w)))
    /\ emitted_since w1 w2
       = [LlmTypingStart] ++ map LlmResponseChunk (fragments (model2 prompt2))
           ++ [LlmTypingEnd;
               LlmResponseComplete
                 {| md_id := (ai_message g2).1;
                    md_content := joined (fragments (model2 prompt2));
                    md_role := ASSISTANT; md_createdAt := (ai_message g2).2 |}
                 (new_chat g1).1]
    /\ message (prisma w2)
       = message (prisma w)
           ++ [{| msg_id := (user_message g1).1; msg_content := default "" (content data1);
                  msg_role := USER; msg_chatId := (new_chat g1).1; msg_userId := user_id u;
                  msg_createdAt := (user_message g1).2 |};
               {| msg_id := (ai_message g1).1;
                  msg_content := joined (fragments (model1 prompt1));
                  msg_role := ASSISTANT; msg_chatId := (new_chat g1).1;
                  msg_userId := user_id u; msg_createdAt := (ai_message g1).2 |};
               {| msg_id := (user_message g2).1; msg_content := default "" (content data2);
                  msg_role := USER; msg_chatId := (new_chat g1).1; msg_userId := user_id u;
                  msg_createdAt := (user_message g2).2 |};
               {| msg_id := (ai_message g2).1;
                  msg_content := joined (fragments (model2 prompt2));
                  msg_role := ASSISTANT; msg_chatId := (new_chat g1).1;
                  msg_userId := user_id u; msg_createdAt := (ai_message g2).2 |}].
Proof.
  intros Hc1 Hc2 Hid1 Hid2 Hcid Hends1 Hends2.
  set (cid := (new_chat g1).1) in *.
  (* the first request *)
  pose proof (resolve_new (new_chat g1) u (chatId data1) w (or_introl Hid1)) as Hres1.
  destruct (findFirst_created (new_chat g1) "New Chat" (user_id u) None (prisma w))
    as [row0 Hrow0].
  match type of Hres1 with _ = (?x, _) => set (w0 := x) in * end.
  destruct (handle_eq g1 model1 u data1 w w0 cid row0 Hc1 Hres1 Hrow0) as (prompt1 & _ & He1).
  set (w1 := ended g1 u data1 cid prompt1 (model1 prompt1) w0) in *.
  destruct (ended_chats g1 u data1 cid prompt1 (model1 prompt1) w0 row0 Hrow0)
    as [Hlen1 [row1 Hrow1]].
  fold w1 in Hlen1, Hrow1.
  (* the second request *)
  assert (truthy_opt (chatId data2) = true) as Ht2 by (by rewrite Hid2).
  assert (default "" (chatId data2) = cid) as Hd2 by (by rewrite Hid2).
  pose proof (resolve_existing (new_chat g2) u (chatId data2) row1 w1 Ht2) as Hres2.
  rewrite Hd2 in Hres2. specialize (Hres2 Hrow1).
  match type of Hres2 with _ = (?x, _) => set (w1' := x) in * end.
  destruct (handle_eq g2 model2 u data2 w1 w1' cid row1 Hc2 Hres2 Hrow1)
    as (prompt2 & _ & He2).
  exists w1, (ended g2 u data2 cid prompt2 (model2 prompt2) w1'), prompt1, prompt2.
  split; [exact He1|]. split; [exact He2|].
  destruct (ended_chats g2 u data2 cid prompt2 (model2 prompt2) w1' row1 Hrow1) as [Hlen2 _].
  split_and!.
  - rewrite Hlen2. subst w1'. cbn [prisma]. rewrite Hlen1. subst w0. cbn [prisma].
    apply chat_create_length.
  - apply emitted_since_app. rewrite ended_socket by done. reflexivity.
  - rewrite ended_messages by (done || (eapply findFirst_has_chat, Hrow1)).
    subst w1'. cbn [prisma]. subst w1.
    rewrite ended_messages by (done || (eapply findFirst_has_chat, Hrow0)).
    subst w0. cbn [prisma chat_create fst message]. by rewrite <- app_assoc.
Qed.

End HandlerMore.


(** ** Connections and chat management *)

Module ConnectionFacts.
Import Prisma ChatModel ChatSocketHandler Stages StorageFacts OrderFacts StorageMore.

Lemma split_space_spaceless (s : string) : spaceless s = true -> split_space s = [s].
Proof.
  unfold spaceless. induction s as [|a s IH]; [done|]. cbn.
  intros H. apply andb_prop in H as [Ha Hs].
  destruct (Ascii.eqb a " "); [discriminate|]. by rewrite IH.
Qed.

Lemma split_space_cons (scheme rest : string) :
  spaceless scheme = true ->
  split_space (scheme +:+ " " +:+ rest) = scheme :: split_space rest.
Proof.
  unfold spaceless. induction scheme as [|a s IH]; [done|].
  intros H. cbn in H. apply andb_prop in H as [Ha Hs].
  change (String a s +:+ " " +:+ rest) with (String a (s +:+ " " +:+ rest)).
  cbn [split_space]. destruct (Ascii.eqb a " "); [discriminate|]. by rewrite IH.
Qed.

(** X21: the token of a connection is [auth.token] when that is not empty,
    whatever the header.  Otherwise it is the second of the pieces into
    which the spaces cut the [authorization] header: for a header made of a
    scheme, a space and a token, neither of which holds a space, it is that
    token, which may be empty, and anything that follows a further space is
    dropped; a header without a space gives no token, and so does a missing
    header.  A token that is not empty and verifies attaches the decoded
    user, counts one more active connection and emits nothing. *)
Theorem token_comes_from_auth_or_bearer_header
    (verifyToken : string -> option User) (w : World) :
  (forall token header,
     truthy token = true ->
     token_of {| auth_token := Some token; authorization := header |} = Some token)
  /\ (forall absent scheme token,
        truthy_opt absent = false ->
        spaceless scheme = true ->
        spaceless token = true ->
        token_of {| auth_token := absent; authorization := Some (scheme +:+ " " +:+ token) |}
        = Some token
        /\ (forall rest,
              token_of {| auth_token := absent;
                          authorization := Some (scheme +:+ " " +:+ token +:+ " " +:+ rest) |}
              = Some token)
        /\ token_of {| auth_token := absent; authorization := Some scheme |} = None
        /\ token_of {| auth_token := absent; authorization := None |} = None)
  /\ (forall h token decoded,
        token_of h = Some token ->
        truthy token = true ->
        verifyToken token = Some decoded ->
        handleConnection verifyToken h w
        = ({| prisma := prisma w; monitoring := monitoring w ++ [ActiveConnection];
              socket := socket w; ollama := ollama w |},
           Ok {| user := Some decoded; listening := true |})).
Proof.
  split_and!.
  - intros token header Ht. unfold token_of. cbn. by rewrite Ht.
  - intros absent scheme token Ha Hs Ht. unfold token_of. cbn [auth_token authorization].
    rewrite Ha. split_and!.
    + rewrite split_space_cons by done. by rewrite split_space_spaceless.
    + intros rest. by rewrite !split_space_cons.
    + by rewrite split_space_spaceless.
    + reflexivity.
  - intros h token [id email] Ht Htr Hv. unfold handleConnection.
    rewrite Ht. cbn [truthy_opt]. rewrite Htr. cbn [negb].
    change (default "" (Some token)) with token. rewrite Hv. reflexivity.
Qed.

Lemma filter_all {A} (p : A -> bool) (l : list A) :
  (forall x, In x l -> p x = true) -> List.filter p l = l.
Proof.
  induction l as [|x l IH]; [done|]. intros H. cbn.
  rewrite (H x) by by left. f_equal. apply IH. intros y Hy. apply H. by right.
Qed.

Lemma filter_none {A} (p : A -> bool) (l : list A) :
  (forall x, In x l -> p x = false) -> List.filter p l = [].
Proof.
  induction l as [|x l IH]; [done|]. intros H. cbn.
  rewrite (H x) by by left. apply IH. intros y Hy. apply H. by right.
Qed.

Lemma deleteMany_no_match (sch : Schema) (chatId userId : string) (db : Database) :
  (forall c, c ∈ chat db -> matches chatId userId c = false) ->
  chat_deleteMany sch chatId userId db = (db, Ok tt).
Proof.
  intros H. unfold chat_deleteMany.
  rewrite (filter_none (matches chatId userId)) by (intros c Hc; by apply H, list_elem_of_In).
  rewrite (filter_all (fun c => negb (matches chatId userId c)))
    by (intros c Hc; by rewrite H by by apply list_elem_of_In).
  assert (List.filter (fun m => negb (refers_to [] m)) (message db) = message db) as ->.
  { apply filter_all. done. }
  assert (existsb (refers_to []) (message db) = false) as ->.
  { induction (message db); [done|]. cbn. done. }
  by destruct (message_chat_onDelete sch), db.
Qed.

(** X22: [handleDeleteChat] answers chat-deleted also when the user has no
    chat with the given id: nothing is deleted and no error is reported. *)
Theorem handleDeleteChat_reports_success_without_deleting (sch : Schema) (u : User)
    (chatId : string) (w : World) :
  (forall c, c ∈ chat (prisma w) -> ~ (chat_id c = chatId /\ chat_userId c = user_id u)) ->
  handleDeleteChat sch (Some u) chatId w
  = ({| prisma := prisma w; monitoring := monitoring w ++ [DatabaseQuery "delete" "chats"];
        socket := socket w; ollama := ollama w |},
     ReplyChatDeleted chatId).
Proof.
  intros H. unfold handleDeleteChat. rewrite deleteChat_eq.
  rewrite deleteMany_no_match; [reflexivity|].
  intros c Hc. apply not_true_is_false. intros Hm. apply matches_spec in Hm.
  by apply (H c).
Qed.

(** X23: a chat created by [handleCreateChat] later than every update so far
    is returned without messages, and [handleGetUserChats] of the same user
    then lists it first, followed by chats of that user only. *)
Theorem created_chat_heads_the_list (st : Stamp) (u : User) (title : string)
    (context : option string) (w : World) :
  (forall c, c ∈ chat (prisma w) -> (chat_updatedAt c < st.2)%Z) ->
  (forall m, m ∈ message (prisma w) -> msg_chatId m <> st.1) ->
  exists w1 rest,
    handleCreateChat st (Some u) title context w
    = (w1, ReplyChatCreated
             {| cw_id := st.1; cw_title := title; cw_context := context;
                cw_userId := user_id u; cw_createdAt := st.2; cw_updatedAt := st.2;
                cw_messages := [] |})
    /\ (handleGetUserChats (Some u) w1).2
       = ReplyUserChats
           ({| cw_id := st.1; cw_title := title; cw_context := context;
               cw_userId := user_id u; cw_createdAt := st.2; cw_updatedAt := st.2;
               cw_messages := [] |} :: rest)
    /\ Forall (fun found => cw_userId found = user_id u) rest.
Proof.
  intros Hold Hmsgs. unfold handleCreateChat. rewrite createChat_eq.
  cbn [cc_title cc_userId cc_context].
  set (row := {| chat_id := st.1; chat_title := title; chat_context := context;
                 chat_userId := user_id u; chat_createdAt := st.2; chat_updatedAt := st.2 |}).
  set (db1 := {| chat := chat (prisma w) ++ [row]; message := message (prisma w) |}).
  change (chat_create st title (user_id u) context (prisma w)).1 with db1.
  change (chat_create st title (user_id u) context (prisma w)).2 with row.
  assert (messages_of st.1 db1 = []) as Hno by (by apply messages_of_none).
  rewrite Hno.
  match goal with |- exists w1 rest, (?x, _) = _ /\ _ => set (w1 := x) end.
  assert (exists rest,
            (handleGetUserChats (Some u) w1).2
            = ReplyUserChats (mapToChatWithMessages row [] :: rest)
            /\ Forall (fun found => cw_userId found = user_id u) rest) as (rest & Hget & Hrest).
  { unfold handleGetUserChats. rewrite getUserChats_eq. cbn [snd prisma w1].
    unfold chat_findMany. rewrite orderBy_updatedAt_desc_eq.
    set (mine := List.filter (fun c => bool_decide (chat_userId c = user_id u)) (chat db1)).
    pose proof (sort_by_perm (desc chat_updatedAt) mine) as Hp.
    pose proof (sort_desc_sorted chat_updatedAt mine) as Hs.
    assert (row ∈ mine) as Hmine.
    { apply list_elem_of_In, filter_In. split.
      - cbn. apply in_or_app. right. by left.
      - by apply bool_decide_eq_true. }
    rewrite <- Hp in Hmine.
    destruct (sort_by (desc chat_updatedAt) mine) as [|h rest] eqn:E.
    { by apply elem_of_nil in Hmine. }
    assert (st.2 <= chat_updatedAt h)%Z as Hh.
    { apply StronglySorted_inv in Hs as [_ Hall]. rewrite Forall_forall in Hall.
      apply elem_of_cons in Hmine as [<-|Hm]; [cbn; lia|]. by apply (Hall _ Hm). }
    assert (h = row) as ->.
    { assert (h ∈ mine) as Hhm by (rewrite <- Hp; apply list_elem_of_here).
      apply list_elem_of_In, filter_In in Hhm as [Hhm _]. cbn in Hhm.
      apply in_app_or in Hhm as [Hin|[<-|[]]]; [|done].
      apply list_elem_of_In in Hin. specialize (Hold h Hin). lia. }
    cbn [map fst snd]. change (chat_id row) with st.1. rewrite Hno.
    eexists. split; [reflexivity|].
    apply Forall_forall. intros found Hf.
    apply list_elem_of_In, in_map_iff in Hf as (pair & <- & Hpair).
    apply in_map_iff in Hpair as (c & <- & Hc).
    cbn [cw_userId mapToChatWithMessages fst].
    assert (c ∈ mine) as Hcm.
    { rewrite <- Hp. apply list_elem_of_further. by apply list_elem_of_In. }
    apply list_elem_of_In, filter_In in Hcm as [_ Hu]. by apply bool_decide_eq_true in Hu. }
  exists w1, rest. split; [reflexivity|]. split; [exact Hget|exact Hrest].
Qed.

End ConnectionFacts.


(** ** The further properties at concrete inputs *)

Ltac each_row :=
  let x := fresh "x" in
  let H := fresh "H" in
  intros x H; apply list_elem_of_In in H; vm_compute in H;
  repeat (destruct H as [H|H]; [subst x|]); try (destruct H);
  try (intros [? ?]); try discriminate; try (cbn; lia); try reflexivity.

Ltac in_rows := apply list_elem_of_In; vm_compute; repeat (first [left; reflexivity | right]).

Lemma mem_chats_keyed : keyed Sample.mem_chats.
Proof.
  intros k chat H. unfold Sample.mem_chats in H.
  apply lookup_insert_Some in H as [[<- <-]|[_ H]]; [reflexivity|].
  by apply lookup_singleton_Some in H as [<- <-].
Qed.

Import Prisma ChatModel StorageMore.

Lemma reads_disclose_only_the_callers_chat_witness :
  (forall row, row ∈ chat (prisma (Sample.with_database Sample.two_chats)) ->
               ~ (chat_id row = "c2" /\ chat_userId row = "u1"))
  /\ exists w',
       getChatContext "c2" "u1" (Sample.with_database Sample.two_chats)
       = (w', Throw chat_not_found)
       /\ prisma w' = prisma (Sample.with_database Sample.two_chats).
Proof.
  assert (forall row, row ∈ chat (prisma (Sample.with_database Sample.two_chats)) ->
                      ~ (chat_id row = "c2" /\ chat_userId row = "u1")) as H by each_row.
  split; [exact H|].
  exact (proj2 (reads_disclose_only_the_callers_chat "c2" "u1"
                  (Sample.with_database Sample.two_chats)) H).
Defined.

Lemma updates_change_only_the_callers_chat_witness :
  chat (prisma (Sample.with_database Sample.two_chats)) !! 1%nat = Some Sample.bobs_row
  /\ exists w',
       updateChatTitle Sample.cascading 20 "c2" "u1" "Mine now"
         (Sample.with_database Sample.two_chats) = (w', Ok tt)
       /\ chat (prisma w') !! 1%nat = Some Sample.bobs_row.
Proof.
  split; [reflexivity|].
  destruct (proj1 (updates_change_only_the_callers_chat Sample.cascading 20 "c2" "u1"
                     "Mine now" (Sample.with_database Sample.two_chats)))
    as (w' & Heq & _ & _ & Hall).
  exists w'. split; [exact Heq|]. exact (Hall 1%nat Sample.bobs_row eq_refl).
Defined.

Lemma deleteChat_removes_only_the_callers_chat_witness :
  Sample.bobs_row ∈ chat (prisma (Sample.with_database Sample.two_chats))
  /\ matches "c2" "u1" Sample.bobs_row = false
  /\ Sample.bobs_row
       ∈ chat (prisma (deleteChat Sample.cascading "c2" "u1"
                         (Sample.with_database Sample.two_chats)).1).
Proof.
  assert (Sample.bobs_row ∈ chat (prisma (Sample.with_database Sample.two_chats))) as H
    by in_rows.
  split; [exact H|]. split; [reflexivity|].
  exact (proj1 (deleteChat_removes_only_the_callers_chat Sample.cascading "c2" "u1"
                  (Sample.with_database Sample.two_chats)) Sample.bobs_row H eq_refl).
Defined.

Lemma deleted_chat_is_gone_witness :
  deleteChat Sample.cascading "c1" "u1" (Sample.with_database Sample.two_chats)
  = ({| prisma := {| chat := [Sample.bobs_row]; message := [Sample.bobs_message] |};
        monitoring := [DatabaseQuery "delete" "chats"]; socket := []; ollama := [] |}, Ok tt)
  /\ (getChatById "c1" "u1"
        {| prisma := {| chat := [Sample.bobs_row]; message := [Sample.bobs_message] |};
           monitoring := [DatabaseQuery "delete" "chats"]; socket := []; ollama := [] |}).2
     = Ok None
  /\ (getChatContext "c1" "u1"
        {| prisma := {| chat := [Sample.bobs_row]; message := [Sample.bobs_message] |};
           monitoring := [DatabaseQuery "delete" "chats"]; socket := []; ollama := [] |}).2
     = Throw chat_not_found.
Proof.
  assert (deleteChat Sample.cascading "c1" "u1" (Sample.with_database Sample.two_chats)
          = ({| prisma := {| chat := [Sample.bobs_row]; message := [Sample.bobs_message] |};
                monitoring := [DatabaseQuery "delete" "chats"]; socket := [];
                ollama := [] |}, Ok tt)) as H by reflexivity.
  split; [exact H|].
  exact (deleted_chat_is_gone Sample.cascading "c1" "u1" _ _ H).
Defined.

Lemma created_chat_is_read_back_witness :
  (forall c, c ∈ chat (prisma (Sample.with_database Sample.two_chats)) -> chat_id c <> "c3")
  /\ (forall m, m ∈ message (prisma (Sample.with_database Sample.two_chats)) ->
                msg_chatId m <> "c3")
  /\ exists w1 created,
       createChat ("c3", 30%Z)
         {| cc_title := "Trip"; cc_userId := "u1"; cc_context := None |}
         (Sample.with_database Sample.two_chats) = (w1, Ok created)
       /\ created
          = {| cw_id := "c3"; cw_title := "Trip"; cw_context := None; cw_userId := "u1";
               cw_createdAt := 30; cw_updatedAt := 30; cw_messages := [] |}
       /\ (getChatById "c3" "u1" w1).2 = Ok (Some created)
       /\ forall other, other <> "u1" -> (getChatById "c3" other w1).2 = Ok None.
Proof.
  assert (forall c, c ∈ chat (prisma (Sample.with_database Sample.two_chats)) ->
                    chat_id c <> "c3") as H1 by each_row.
  assert (forall m, m ∈ message (prisma (Sample.with_database Sample.two_chats)) ->
                    msg_chatId m <> "c3") as H2 by each_row.
  split; [exact H1|]. split; [exact H2|].
  exact (created_chat_is_read_back ("c3", 30%Z)
           {| cc_title := "Trip"; cc_userId := "u1"; cc_context := None |}
           (Sample.with_database Sample.two_chats) H1 H2).
Defined.

Lemma added_message_is_read_back_last_witness :
  chat_findFirst "c1" "u1" (prisma (Sample.with_database Sample.two_chats))
  = Some Sample.alices_row
  /\ (forall m, m ∈ messages_of "c1" (prisma (Sample.with_database Sample.two_chats)) ->
                (msg_createdAt m < 15)%Z)
  /\ exists w' earlier,
       addMessage ("m3", 15%Z) 16%Z "c1" "u1" "More" USER
         (Sample.with_database Sample.two_chats)
       = (w', Ok {| md_id := "m3"; md_content := "More"; md_role := USER;
                    md_createdAt := 15 |})
       /\ (getChatById "c1" "u1" (Sample.with_database Sample.two_chats)).2
          = Ok (Some {| cw_id := "c1"; cw_title := chat_title Sample.alices_row;
                        cw_context := chat_context Sample.alices_row; cw_userId := "u1";
                        cw_createdAt := chat_createdAt Sample.alices_row;
                        cw_updatedAt := chat_updatedAt Sample.alices_row;
                        cw_messages := earlier |})
       /\ (getChatById "c1" "u1" w').2
          = Ok (Some {| cw_id := "c1"; cw_title := chat_title Sample.alices_row;
                        cw_context := chat_context Sample.alices_row; cw_userId := "u1";
                        cw_createdAt := chat_createdAt Sample.alices_row;
                        cw_updatedAt := 16;
                        cw_messages := earlier ++ [{| md_id := "m3"; md_content := "More";
                                                      md_role := USER;
                                                      md_createdAt := 15 |}] |}).
Proof.
  assert (forall m, m ∈ messages_of "c1" (prisma (Sample.with_database Sample.two_chats)) ->
                    (msg_createdAt m < 15)%Z) as H by each_row.
  split; [reflexivity|]. split; [exact H|].
  exact (added_message_is_read_back_last ("m3", 15%Z) 16%Z "c1" "u1" "More" USER
           Sample.alices_row (Sample.with_database Sample.two_chats) eq_refl H).
Defined.

Lemma added_message_moves_chat_to_top_witness :
  chat_findFirst "c1" "u1" (prisma (Sample.with_database Sample.two_chats))
  = Some Sample.alices_row
  /\ (forall c, c ∈ chat (prisma (Sample.with_database Sample.two_chats)) ->
                (chat_updatedAt c < 16)%Z)
  /\ exists first rest,
       (getUserChats "u1"
          (addMessage ("m3", 15%Z) 16%Z "c1" "u1" "More" USER
             (Sample.with_database Sample.two_chats)).1).2
       = Ok (first :: rest)
       /\ cw_id first = "c1"
       /\ cw_userId first = "u1"
       /\ cw_updatedAt first = 16%Z.
Proof.
  assert (forall c, c ∈ chat (prisma (Sample.with_database Sample.two_chats)) ->
                    (chat_updatedAt c < 16)%Z) as H by each_row.
  split; [reflexivity|]. split; [exact H|].
  exact (added_message_moves_chat_to_top ("m3", 15%Z) 16%Z "c1" "u1" "More" USER
           Sample.alices_row (Sample.with_database Sample.two_chats) eq_refl H).
Defined.

Import MemFacts.

Lemma operations_keep_chats_keyed_witness :
  keyed Sample.mem_chats
  /\ keyed (MemChatModel.createChat ("c3", 30%Z) "u1" "Trip" None Sample.mem_chats).1
  /\ keyed (MemChatModel.addMessage ("c3", 30%Z) "c1" "u1" MemChatModel.user "Trip"
              Sample.mem_chats).1
  /\ keyed (MemChatModel.updateChatTitle 30 "c1" "u1" "Trip" Sample.mem_chats).1
  /\ keyed (MemChatModel.updateChatContext 30 "c1" "u1" "Trip" Sample.mem_chats).1
  /\ keyed (MemChatModel.deleteChat "c1" "u1" Sample.mem_chats).1.
Proof.
  split; [exact mem_chats_keyed|].
  exact (operations_keep_chats_keyed ("c3", 30%Z) "c1" "u1" "Trip" MemChatModel.user None
           Sample.mem_chats mem_chats_keyed).
Defined.

Lemma other_users_chats_are_untouched_witness :
  keyed Sample.mem_chats
  /\ Sample.mem_chats !! "c2" = Some Sample.bobs_mem_chat
  /\ MemChatModel.userId Sample.bobs_mem_chat <> "u1"
  /\ (MemChatModel.addMessage ("m9", 30%Z) "c2" "u1" MemChatModel.user "Mine now"
        Sample.mem_chats).1 !! "c2" = Some Sample.bobs_mem_chat
  /\ (MemChatModel.updateChatTitle 30 "c2" "u1" "Mine now" Sample.mem_chats).1 !! "c2"
     = Some Sample.bobs_mem_chat
  /\ (MemChatModel.updateChatContext 30 "c2" "u1" "Mine now" Sample.mem_chats).1 !! "c2"
     = Some Sample.bobs_mem_chat
  /\ (MemChatModel.deleteChat "c2" "u1" Sample.mem_chats).1 !! "c2"
     = Some Sample.bobs_mem_chat
  /\ MemChatModel.getChatById "c2" "u1" Sample.mem_chats = None
  /\ MemChatModel.getChatContext "c2" "u1" Sample.mem_chats = "".
Proof.
  assert (Sample.mem_chats !! "c2" = Some Sample.bobs_mem_chat) as H
    by apply lookup_insert_eq.
  assert (MemChatModel.userId Sample.bobs_mem_chat <> "u1") as Hu by discriminate.
  split; [exact mem_chats_keyed|]. split; [exact H|]. split; [exact Hu|].
  exact (other_users_chats_are_untouched ("m9", 30%Z) "c2" "u1" "Mine now" MemChatModel.user
           Sample.mem_chats "c2" Sample.bobs_mem_chat mem_chats_keyed H Hu).
Defined.

Lemma mem_chats_fresh : Sample.mem_chats !! "c3" = None.
Proof.
  unfold Sample.mem_chats. rewrite lookup_insert_ne by discriminate.
  by rewrite lookup_singleton_ne by discriminate.
Qed.

Lemma mem_created_chat_is_read_back_witness :
  Sample.mem_chats !! ("c3", 30%Z).1 = None
  /\ MemChatModel.getChatById ("c3", 30%Z).1 "u1"
       (MemChatModel.createChat ("c3", 30%Z) "u1" "Trip" (Some "abroad") Sample.mem_chats).1
     = Some (MemChatModel.createChat ("c3", 30%Z) "u1" "Trip" (Some "abroad")
               Sample.mem_chats).2
  /\ (forall other, other <> "u1" ->
        MemChatModel.getChatById ("c3", 30%Z).1 other
          (MemChatModel.createChat ("c3", 30%Z) "u1" "Trip" (Some "abroad")
             Sample.mem_chats).1 = None)
  /\ (forall k, k <> ("c3", 30%Z).1 ->
        (MemChatModel.createChat ("c3", 30%Z) "u1" "Trip" (Some "abroad")
           Sample.mem_chats).1 !! k = Sample.mem_chats !! k)
  /\ MemChatModel.getChatContext ("c3", 30%Z).1 "u1"
       (MemChatModel.createChat ("c3", 30%Z) "u1" "Trip" (Some "abroad") Sample.mem_chats).1
     = or_else (Some "abroad") "".
Proof.
  split; [exact mem_chats_fresh|].
  exact (mem_created_chat_is_read_back ("c3", 30%Z) "u1" "Trip" (Some "abroad")
           Sample.mem_chats mem_chats_fresh).
Defined.

Lemma mem_alice_reads_own_chat :
  MemChatModel.getChatById "c1" "u1" Sample.mem_chats = Some Sample.alices_mem_chat.
Proof.
  apply getChatById_Some. split; [|reflexivity].
  unfold Sample.mem_chats. rewrite lookup_insert_ne by discriminate.
  apply lookup_singleton_eq.
Qed.

Lemma mem_messages_are_appended_witness :
  keyed Sample.mem_chats
  /\ MemChatModel.getChatById "c1" "u1" Sample.mem_chats = Some Sample.alices_mem_chat
  /\ exists m1 m2 chats1 chats2 chat2,
       MemChatModel.addMessage ("m11", 11%Z) "c1" "u1" MemChatModel.user "Hello"
         Sample.mem_chats = (chats1, Some m1)
       /\ MemChatModel.addMessage ("m12", 12%Z) "c1" "u1" MemChatModel.assistant "Hi"
            chats1 = (chats2, Some m2)
       /\ MemChatModel.cm_content m1 = "Hello" /\ MemChatModel.cm_role m1 = MemChatModel.user
       /\ MemChatModel.cm_content m2 = "Hi"
       /\ MemChatModel.cm_role m2 = MemChatModel.assistant
       /\ MemChatModel.getChatById "c1" "u1" chats2 = Some chat2
       /\ MemChatModel.messages chat2
          = MemChatModel.messages Sample.alices_mem_chat ++ [m1; m2]
       /\ MemChatModel.updatedAt chat2 = ("m12", 12%Z).2
       /\ MemChatModel.title chat2 = MemChatModel.title Sample.alices_mem_chat
       /\ MemChatModel.context chat2 = MemChatModel.context Sample.alices_mem_chat
       /\ MemChatModel.createdAt chat2 = MemChatModel.createdAt Sample.alices_mem_chat
       /\ forall k, k <> "c1" -> chats2 !! k = Sample.mem_chats !! k.
Proof.
  split; [exact mem_chats_keyed|]. split; [exact mem_alice_reads_own_chat|].
  exact (mem_messages_are_appended ("m11", 11%Z) ("m12", 12%Z) "c1" "u1" MemChatModel.user
           MemChatModel.assistant "Hello" "Hi" Sample.alices_mem_chat Sample.mem_chats
           mem_chats_keyed mem_alice_reads_own_chat).
Defined.

Lemma mem_deleted_chat_is_gone_witness :
  MemChatModel.getChatById "c1" "u1" Sample.mem_chats = Some Sample.alices_mem_chat
  /\ exists chats',
       MemChatModel.deleteChat "c1" "u1" Sample.mem_chats = (chats', true)
       /\ chats' !! "c1" = None
       /\ (forall k, k <> "c1" -> chats' !! k = Sample.mem_chats !! k)
       /\ (forall anyone, MemChatModel.getChatById "c1" anyone chats' = None)
       /\ MemChatModel.addMessage ("m11", 11%Z) "c1" "u1" MemChatModel.user "Hello" chats'
          = (chats', None)
       /\ MemChatModel.updateChatTitle ("m11", 11%Z).2 "c1" "u1" "Hello" chats'
          = (chats', false)
       /\ MemChatModel.deleteChat "c1" "u1" chats' = (chats', false)
       /\ MemChatModel.getChatContext "c1" "u1" chats' = "".
Proof.
  split; [exact mem_alice_reads_own_chat|].
  exact (mem_deleted_chat_is_gone ("m11", 11%Z) "c1" "u1" "Hello" MemChatModel.user
           Sample.alices_mem_chat Sample.mem_chats mem_alice_reads_own_chat).
Defined.

Lemma mem_context_uses_last_ten_witness :
  MemChatModel.userId Sample.alices_mem_chat = "u1"
  /\ length Sample.ten_messages = 10%nat
  /\ MemChatModel.getChatContext "c1" "u1"
       (<["c1" := with_messages Sample.alices_mem_chat
                    (Sample.ten_messages ++ Sample.ten_messages)]> Sample.mem_chats)
     = MemChatModel.getChatContext "c1" "u1"
         (<["c1" := with_messages Sample.alices_mem_chat Sample.ten_messages]>
            Sample.mem_chats).
Proof.
  split; [reflexivity|]. split; [reflexivity|].
  exact (mem_context_uses_last_ten "c1" "u1" Sample.alices_mem_chat Sample.ten_messages
           Sample.ten_messages Sample.mem_chats eq_refl eq_refl).
Defined.

Import ChatSocketHandler HandlerMore ConnectionFacts.

Lemma completed_answer_is_what_was_streamed_witness :
  truthy_opt (content Sample.hello) = true
  /\ (forall prompt, failure (Sample.answers prompt) = None)
  /\ exists w' created prompt cid,
       handleChatWithLLM Sample.stamps Sample.answers (Some Sample.alice)
         (Some Sample.hello) Sample.empty_world = (w', Ok tt)
       /\ ollama w' = ollama Sample.empty_world ++ [prompt]
       /\ (created = [] \/ exists chat, created = [ChatCreated (new_chat Sample.stamps).1 chat])
       /\ emitted_since Sample.empty_world w'
          = created ++ [LlmTypingStart]
              ++ map LlmResponseChunk (fragments (Sample.answers prompt))
              ++ [LlmTypingEnd;
                  LlmResponseComplete
                    {| md_id := (ai_message Sample.stamps).1;
                       md_content := joined (chunk_payloads (emitted_since Sample.empty_world w'));
                       md_role := ASSISTANT; md_createdAt := (ai_message Sample.stamps).2 |}
                    cid]
       /\ message (prisma w')
          = message (prisma Sample.empty_world)
              ++ [{| msg_id := (user_message Sample.stamps).1;
                     msg_content := default "" (content Sample.hello);
                     msg_role := USER; msg_chatId := cid; msg_userId := user_id Sample.alice;
                     msg_createdAt := (user_message Sample.stamps).2 |};
                  {| msg_id := (ai_message Sample.stamps).1;
                     msg_content := joined (chunk_payloads (emitted_since Sample.empty_world w'));
                     msg_role := ASSISTANT; msg_chatId := cid;
                     msg_userId := user_id Sample.alice;
                     msg_createdAt := (ai_message Sample.stamps).2 |}].
Proof.
  split; [reflexivity|]. split; [intros prompt; reflexivity|].
  exact (completed_answer_is_what_was_streamed Sample.stamps Sample.answers Sample.alice
           Sample.hello Sample.empty_world eq_refl (fun prompt => eq_refl)).
Defined.

Lemma new_chat_prompt_repeats_the_message_witness :
  truthy_opt (content Sample.hello) = true
  /\ truthy_opt (chatId Sample.hello) = false
  /\ (forall c, c ∈ chat (prisma (Sample.with_database Sample.alices_chat)) ->
                chat_id c <> (new_chat Sample.stamps').1)
  /\ (forall m, m ∈ message (prisma (Sample.with_database Sample.alices_chat)) ->
                msg_chatId m <> (new_chat Sample.stamps').1)
  /\ ollama (handleChatWithLLM Sample.stamps' Sample.answers (Some Sample.alice)
               (Some Sample.hello) (Sample.with_database Sample.alices_chat)).1
     = ["You are a helpful AI assistant. Provide clear, accurate, and helpful responses."
          +:+ nl +:+ nl +:+ "Previous conversation:" +:+ nl
          +:+ "User: Hello" +:+ nl
          +:+ nl +:+ nl +:+ "User: Hello"
          +:+ nl +:+ nl +:+ "Assistant:"].
Proof.
  assert (forall c, c ∈ chat (prisma (Sample.with_database Sample.alices_chat)) ->
                    chat_id c <> (new_chat Sample.stamps').1) as H1 by each_row.
  assert (forall m, m ∈ message (prisma (Sample.with_database Sample.alices_chat)) ->
                    msg_chatId m <> (new_chat Sample.stamps').1) as H2 by each_row.
  split; [reflexivity|]. split; [reflexivity|]. split; [exact H1|]. split; [exact H2|].
  exact (new_chat_prompt_repeats_the_message Sample.stamps' Sample.answers Sample.alice
           Sample.hello (Sample.with_database Sample.alices_chat) eq_refl eq_refl H1 H2).
Defined.

Lemma second_request_continues_the_chat_witness :
  truthy_opt (content Sample.hello) = true
  /\ truthy_opt (content Sample.again) = true
  /\ truthy_opt (chatId Sample.hello) = false
  /\ chatId Sample.again = Some (new_chat Sample.stamps).1
  /\ truthy (new_chat Sample.stamps).1 = true
  /\ (forall prompt, failure (Sample.answers prompt) = None)
  /\ exists w1 w2 prompt1 prompt2,
       handleChatWithLLM Sample.stamps Sample.answers (Some Sample.alice)
         (Some Sample.hello) Sample.empty_world = (w1, Ok tt)
       /\ handleChatWithLLM Sample.stamps' Sample.answers (Some Sample.alice)
            (Some Sample.again) w1
          = (w2, Ok tt)
       /\ length (chat (prisma w2)) = S (length (chat (prisma Sample.empty_world)))
       /\ emitted_since w1 w2
          = [LlmTypingStart] ++ map LlmResponseChunk (fragments (Sample.answers prompt2))
              ++ [LlmTypingEnd;
                  LlmResponseComplete
                    {| md_id := (ai_message Sample.stamps').1;
                       md_content := joined (fragments (Sample.answers prompt2));
                       md_role := ASSISTANT; md_createdAt := (ai_message Sample.stamps').2 |}
                    (new_chat Sample.stamps).1]
       /\ message (prisma w2)
          = message (prisma Sample.empty_world)
              ++ [{| msg_id := (user_message Sample.stamps).1;
                     msg_content := default "" (content Sample.hello);
                     msg_role := USER; msg_chatId := (new_chat Sample.stamps).1;
                     msg_userId := user_id Sample.alice;
                     msg_createdAt := (user_message Sample.stamps).2 |};
                  {| msg_id := (ai_message Sample.stamps).1;
                     msg_content := joined (fragments (Sample.answers prompt1));
                     msg_role := ASSISTANT; msg_chatId := (new_chat Sample.stamps).1;
                     msg_userId := user_id Sample.alice;
                     msg_createdAt := (ai_message Sample.stamps).2 |};
                  {| msg_id := (user_message Sample.stamps').1;
                     msg_content := default "" (content Sample.again);
                     msg_role := USER; msg_chatId := (new_chat Sample.stamps).1;
                     msg_userId := user_id Sample.alice;
                     msg_createdAt := (user_message Sample.stamps').2 |};
                  {| msg_id := (ai_message Sample.stamps').1;
                     msg_content := joined (fragments (Sample.answers prompt2));
                     msg_role := ASSISTANT; msg_chatId := (new_chat Sample.stamps).1;
                     msg_userId := user_id Sample.alice;
                     msg_createdAt := (ai_message Sample.stamps').2 |}].
Proof.
  split; [reflexivity|]. split; [reflexivity|]. split; [reflexivity|].
  split; [reflexivity|]. split; [reflexivity|]. split; [intros prompt; reflexivity|].
  exact (second_request_continues_the_chat Sample.stamps Sample.stamps' Sample.answers
           Sample.answers Sample.alice Sample.hello Sample.again Sample.empty_world
           eq_refl eq_refl eq_refl eq_refl eq_refl (fun prompt => eq_refl)
           (fun prompt => eq_refl)).
Defined.

Lemma token_comes_from_auth_or_bearer_header_witness :
  (truthy "tok" = true
   /\ token_of {| auth_token := Some "tok"; authorization := Some "Bearer other" |}
      = Some "tok")
  /\ (truthy_opt None = false
      /\ spaceless "Bearer" = true
      /\ spaceless "a" = true
      /\ token_of {| auth_token := None; authorization := Some "Bearer a" |} = Some "a"
      /\ token_of {| auth_token := None; authorization := Some "Bearer a b" |} = Some "a"
      /\ token_of {| auth_token := None; authorization := Some "Bearer" |} = None)
  /\ (truthy_opt (Some "") = false
      /\ spaceless "" = true
      /\ token_of {| auth_token := Some ""; authorization := Some "Bearer  abc" |} = Some "")
  /\ (token_of {| auth_token := None; authorization := Some "Bearer abc" |} = Some "abc"
      /\ truthy "abc" = true
      /\ Sample.accept_all "abc" = Some Sample.alice
      /\ handleConnection Sample.accept_all
           {| auth_token := None; authorization := Some "Bearer abc" |} Sample.empty_world
         = ({| prisma := prisma Sample.empty_world;
               monitoring := monitoring Sample.empty_world ++ [ActiveConnection];
               socket := socket Sample.empty_world; ollama := ollama Sample.empty_world |},
            Ok {| user := Some Sample.alice; listening := true |})).
Proof.
  pose proof (token_comes_from_auth_or_bearer_header Sample.accept_all Sample.empty_world)
    as (H1 & H2 & H3).
  split; [split; [reflexivity|exact (H1 "tok" (Some "Bearer other") eq_refl)]|].
  split.
  { destruct (H2 None "Bearer" "a" eq_refl eq_refl eq_refl) as (Ha & Hb & Hc & _).
    split; [reflexivity|]. split; [reflexivity|]. split; [reflexivity|].
    split; [exact Ha|]. split; [exact (Hb "b")|exact Hc]. }
  split.
  { destruct (H2 (Some "") "Bearer" "" eq_refl eq_refl eq_refl) as (_ & Hb & _).
    split; [reflexivity|]. split; [reflexivity|]. exact (Hb "abc"). }
  split; [reflexivity|]. split; [reflexivity|]. split; [reflexivity|].
  exact (H3 {| auth_token := None; authorization := Some "Bearer abc" |} "abc"
           Sample.alice eq_refl eq_refl eq_refl).
Defined.

Lemma handleDeleteChat_reports_success_without_deleting_witness :
  (forall c, c ∈ chat (prisma (Sample.with_database Sample.two_chats)) ->
             ~ (chat_id c = "c2" /\ chat_userId c = user_id Sample.alice))
  /\ handleDeleteChat Sample.cascading (Some Sample.alice) "c2"
       (Sample.with_database Sample.two_chats)
     = ({| prisma := prisma (Sample.with_database Sample.two_chats);
           monitoring := monitoring (Sample.with_database Sample.two_chats)
                           ++ [DatabaseQuery "delete" "chats"];
           socket := socket (Sample.with_database Sample.two_chats);
           ollama := ollama (Sample.with_database Sample.two_chats) |},
        ReplyChatDeleted "c2").
Proof.
  assert (forall c, c ∈ chat (prisma (Sample.with_database Sample.two_chats)) ->
                    ~ (chat_id c = "c2" /\ chat_userId c = user_id Sample.alice)) as H
    by each_row.
  split; [exact H|].
  exact (handleDeleteChat_reports_success_without_deleting Sample.cascading Sample.alice "c2"
           (Sample.with_database Sample.two_chats) H).
Defined.

Lemma created_chat_heads_the_list_witness :
  (forall c, c ∈ chat (prisma (Sample.with_database Sample.two_chats)) ->
             (chat_updatedAt c < ("c3", 30%Z).2)%Z)
  /\ (forall m, m ∈ message (prisma (Sample.with_database Sample.two_chats)) ->
                msg_chatId m <> ("c3", 30%Z).1)
  /\ exists w1 rest,
       handleCreateChat ("c3", 30%Z) (Some Sample.alice) "Trip" None
         (Sample.with_database Sample.two_chats)
       = (w1, ReplyChatCreated
                {| cw_id := ("c3", 30%Z).1; cw_title := "Trip"; cw_context := None;
                   cw_userId := user_id Sample.alice; cw_createdAt := ("c3", 30%Z).2;
                   cw_updatedAt := ("c3", 30%Z).2; cw_messages := [] |})
       /\ (handleGetUserChats (Some Sample.alice) w1).2
          = ReplyUserChats
              ({| cw_id := ("c3", 30%Z).1; cw_title := "Trip"; cw_context := None;
                  cw_userId := user_id Sample.alice; cw_createdAt := ("c3", 30%Z).2;
                  cw_updatedAt := ("c3", 30%Z).2; cw_messages := [] |} :: rest)
       /\ Forall (fun found => cw_userId found = user_id Sample.alice) rest.
Proof.
  assert (forall c, c ∈ chat (prisma (Sample.with_database Sample.two_chats)) ->
                    (chat_updatedAt c < ("c3", 30%Z).2)%Z) as H1 by each_row.
  assert (forall m, m ∈ message (prisma (Sample.with_database Sample.two_chats)) ->
                    msg_chatId m <> ("c3", 30%Z).1) as H2 by each_row.
  split; [exact H1|]. split; [exact H2|].
  exact (created_chat_heads_the_list ("c3", 30%Z) Sample.alice "Trip" None
           (Sample.with_database Sample.two_chats) H1 H2).
Defined.
